(** * The bcl2fastq module of MultiQC

    A shallow embedding of [multiqc/modules/bcl2fastq/bcl2fastq.py]:
    ingestion of the demultiplexing statistics ([parse_file_as_json]),
    the reshaping into the by-lane and by-sample views
    ([split_data_by_lane_and_sample]), the general statistics
    ([add_general_stats]) and the constructor that sequences them.

    Python dictionaries are insertion-ordered association lists, Python
    integers are [Z], exceptions are values of [exn], and the module object
    [self] is a record threaded through a state-and-exception monad. *)

From Stdlib Require Import ZArith List String Ascii Bool Lia.
From Stdlib Require Import DecimalString DecimalZ DecimalPos.
From Stdlib Require Import SpecFloat.
Import ListNotations.

Local Open Scope string_scope.
Local Open Scope list_scope.
Local Open Scope Z_scope.

(** ** Python dictionaries with string keys

    Entries are kept in insertion order, which is the order of iteration.
    The dictionaries of the module are built from [[]] by [set] and [alter],
    so their keys are pairwise distinct. *)

Module PyDict.

Definition dict (V : Type) : Type := list (string * V).

(** [d.get(k)]: the value stored under [k], if any. *)
Fixpoint get {V} (k : string) (d : dict V) : option V :=
  match d with
  | [] => None
  | (k', v) :: d' => if String.eqb k k' then Some v else get k d'
  end.

(** [k in d] *)
Definition contains {V} (k : string) (d : dict V) : bool :=
  match get k d with Some _ => true | None => false end.

(** [d[k] = v]: an existing key keeps its position, a new key goes last. *)
Fixpoint set {V} (k : string) (v : V) (d : dict V) : dict V :=
  match d with
  | [] => [(k, v)]
  | (k', v') :: d' =>
      if String.eqb k k' then (k, v) :: d' else (k', v') :: set k v d'
  end.

(** In-place mutation of the object stored under [k], as in [d[k]["x"] += n]. *)
Fixpoint alter {V} (g : V -> V) (k : string) (d : dict V) : dict V :=
  match d with
  | [] => []
  | (k', v') :: d' =>
      if String.eqb k k' then (k', g v') :: d' else (k', v') :: alter g k d'
  end.

Definition keys {V} (d : dict V) : list string := map fst d.

Definition values {V} (d : dict V) : list V := map snd d.

(** [len(d)] *)
Definition len {V} (d : dict V) : Z := Z.of_nat (List.length d).

End PyDict.

Import PyDict.

(** ** Strings: [str], [os.path.join] and the qualified keys *)

(** [str(n)] and ['{}'.format(n)] for an integer. *)
Definition str_of_int (n : Z) : string := NilZero.string_of_int (Z.to_int n).

(** [prepend_runid]: [str(runId) + " - " + str(rest)]. *)
Definition prepend_runid (runId rest : string) : string :=
  runId ++ " - " ++ rest.

(** ['L{}'.format(conversionResult["LaneNumber"])] *)
Definition lane_name (LaneNumber : Z) : string := "L" ++ str_of_int LaneNumber.

Fixpoint endswith_char (c : ascii) (s : string) : bool :=
  match s with
  | EmptyString => false
  | String a EmptyString => Ascii.eqb a c
  | String _ s' => endswith_char c s'
  end.

(** [os.path.join(a, p)] of [posixpath]. *)
Definition os_path_join (a p : string) : string :=
  match p with
  | String "/" _ => p
  | _ =>
      if String.eqb a "" || endswith_char "/" a then a ++ p
      else a ++ "/" ++ p
  end.

(** ** The report, as [json.loads] delivers it

    The fields the module reads from a [Stats.json] document.  A document
    that parses but lacks one of these fields is outside this type (the
    source raises [KeyError] on it). *)

Record IndexMetric := { MismatchCounts_0 : Z }.

Record DemuxResult := {
  SampleName : string;
  NumberReads : Z;
  IndexMetrics : list IndexMetric
}.

Record ConversionResult := {
  LaneNumber : Z;
  Undetermined_NumberReads : Z;
  DemuxResults : list DemuxResult
}.

Record Stats := {
  RunId : string;
  ConversionResults : list ConversionResult
}.

(** One entry of [find_log_files]: content, file name, directory. *)
Record logfile := { f : string; fn : string; root : string }.

(** ** The per-run tree and the two views *)

Module Sample.
(** [{"total": _, "perfectIndex": _, "filename": _}]; the synthetic
    undetermined entry has no ["filename"] key. *)
Record t := mk { total : Z; perfectIndex : Z; filename : option string }.
End Sample.

Module Lane.
(** [{"total": _, "perfectIndex": _, "samples": dict()}] *)
Record t := mk { total : Z; perfectIndex : Z; samples : dict Sample.t }.
End Lane.

Module Counts.
(** An entry of [bcl2fastq_bylane] (with ["undetermined"]) or of
    [bcl2fastq_bysample] (without). *)
Record t := mk { total : Z; perfectIndex : Z; undetermined : option Z }.
End Counts.

Module Bar.
(** An entry of [get_bar_data_from_counts]. *)
Record t := mk { perfect : Z; imperfect : Z; undetermined : option Z }.
End Bar.

Module StatsRow.
(** A row of the general statistics table. *)
Record t := mk { total : Z; perfectPercent : string }.
End StatsRow.

(** ** Exceptions, log records and what the module hands to its host *)

Inductive exn :=
| KeyError (key : string)
| ZeroDivisionError
| OverflowError
| UserWarning.

Inductive result (A : Type) :=
| Ok (a : A)
| Raise (e : exn).
Arguments Ok {A} a.
Arguments Raise {A} e.

Inductive level := DEBUG | WARNING.

Inductive output :=
| add_data_source (s_name : string) (source : list string)
| general_stats_addcols (data : dict StatsRow.t) (headers : list (string * string))
| write_data_file (data : dict Counts.t) (fname : string)
| add_section (name anchor : string) (plot : dict Bar.t) (cats : list (string * string)).

(** The attributes of [self], the log and the calls made to the host. *)
Record Self := mkSelf {
  bcl2fastq_data : dict (dict Lane.t);
  bcl2fastq_bylane : dict Counts.t;
  bcl2fastq_bysample : dict Counts.t;
  source_files : dict (list string);
  log : list (level * string);
  report : list output
}.

Definition set_data d (s : Self) : Self :=
  mkSelf d (bcl2fastq_bylane s) (bcl2fastq_bysample s) (source_files s) (log s) (report s).
Definition set_bylane d (s : Self) : Self :=
  mkSelf (bcl2fastq_data s) d (bcl2fastq_bysample s) (source_files s) (log s) (report s).
Definition set_bysample d (s : Self) : Self :=
  mkSelf (bcl2fastq_data s) (bcl2fastq_bylane s) d (source_files s) (log s) (report s).
Definition set_source_files d (s : Self) : Self :=
  mkSelf (bcl2fastq_data s) (bcl2fastq_bylane s) (bcl2fastq_bysample s) d (log s) (report s).
Definition set_log l (s : Self) : Self :=
  mkSelf (bcl2fastq_data s) (bcl2fastq_bylane s) (bcl2fastq_bysample s) (source_files s) l (report s).
Definition set_report r (s : Self) : Self :=
  mkSelf (bcl2fastq_data s) (bcl2fastq_bylane s) (bcl2fastq_bysample s) (source_files s) (log s) r.

(** ** The monad: state [Self], exceptions [exn] *)

Definition M (A : Type) : Type := Self -> result A * Self.

Definition ret {A} (a : A) : M A := fun s => (Ok a, s).

Definition bind {A B} (c : M A) (k : A -> M B) : M B :=
  fun s => match c s with
           | (Ok a, s') => k a s'
           | (Raise e, s') => (Raise e, s')
           end.

Definition raise {A} (e : exn) : M A := fun s => (Raise e, s).

Definition modify (g : Self -> Self) : M unit := fun s => (Ok tt, g s).

Definition gets {A} (g : Self -> A) : M A := fun s => (Ok (g s), s).

Notation "x <- c ;; k" := (bind c (fun x => k))
  (at level 61, c at next level, right associativity).
Notation "c ;; k" := (bind c (fun _ => k))
  (at level 61, right associativity).

(** [for x in l: body(x)] *)
Fixpoint for_each {A} (l : list A) (body : A -> M unit) : M unit :=
  match l with
  | [] => ret tt
  | x :: l' => body x ;; for_each l' body
  end.

Definition when (b : bool) (c : M unit) : M unit := if b then c else ret tt.

Definition log_debug (msg : string) : M unit :=
  modify (fun s => set_log (log s ++ [(DEBUG, msg)]) s).

Definition log_warn (msg : string) : M unit :=
  modify (fun s => set_log (log s ++ [(WARNING, msg)]) s).

Definition emit (o : output) : M unit :=
  modify (fun s => set_report (report s ++ [o]) s).

Definition lift {A} (r : result A) : M A := fun s => (r, s).

Definition new_self : Self := mkSelf [] [] [] [] [] [].

(** ** Binary64 arithmetic and ['{0:.1f}'.format] *)

Definition prec : Z := 53.
Definition emax : Z := 1024.

(** Conversion of a Python integer to [float]: rounded to nearest even,
    [OverflowError] when the result is not finite. *)
Definition float_of_int (z : Z) : result spec_float :=
  match binary_normalize prec emax z 0 false with
  | S754_infinity _ => Raise OverflowError
  | x => Ok x
  end.

(** The literal [100.0]. *)
Definition float_100 : spec_float := binary_normalize prec emax 100 0 false.

(** The integer nearest to [n / d] ([d > 0]), ties to even. *)
Definition round_half_even (n d : Z) : Z :=
  let q := n / d in
  let r := n mod d in
  match (2 * r) ?= d with
  | Lt => q
  | Gt => q + 1
  | Eq => if Z.even q then q else q + 1
  end.

(** ['{0:.1f}'.format(x)]: the exact value of [x] correctly rounded to one
    digit after the point. *)
Definition format_1f (x : spec_float) : string :=
  match x with
  | S754_nan => "nan"
  | S754_infinity s => if s then "-inf" else "inf"
  | S754_zero s => if s then "-0.0" else "0.0"
  | S754_finite s m e =>
      let tenths :=
        if 0 <=? e then Zpos m * 10 * 2 ^ e
        else round_half_even (Zpos m * 10) (2 ^ (- e)) in
      (if s then "-" else "") ++ str_of_int (tenths / 10) ++ "."
        ++ str_of_int (tenths mod 10)
  end.

(** ['{0:.1f}'.format(float(100.0*perfectIndex/total))] *)
Definition perfectPercent (perfectIndex total : Z) : result string :=
  match float_of_int perfectIndex with
  | Raise e => Raise e
  | Ok p =>
      let x := SFmul prec emax float_100 p in
      match float_of_int total with
      | Raise e => Raise e
      | Ok (S754_zero _) => Raise ZeroDivisionError
      | Ok t => Ok (format_1f (SFdiv prec emax x t))
      end
  end.

(** ** The module *)

Section Bcl2fastq.

(** [json.loads]: [None] stands for [ValueError]. *)
Variable json_loads : string -> option Stats.

(** [BaseMultiqcModule.ignore_samples], owned by the host. *)
Variable ignore_samples : dict Counts.t -> dict Counts.t.

(** [config.analysis_dir] as ['{}'.format] prints it, and
    [config.read_count_prefix]. *)
Variables analysis_dir read_count_prefix : string.

(** *** [parse_file_as_json] *)

(** Lines 90-91, on the lane record [run_data[lane]]. *)
Definition add_indexMetric (sample : string) (rec : Lane.t)
    (indexMetric : IndexMetric) : Lane.t :=
  let n := MismatchCounts_0 indexMetric in
  Lane.mk (Lane.total rec) (Lane.perfectIndex rec + n)
    (alter (fun s => Sample.mk (Sample.total s) (Sample.perfectIndex s + n)
                       (Sample.filename s))
       sample (Lane.samples rec)).

(** Lines 85-91, on the lane record [run_data[lane]]. *)
Definition add_demuxResult (path : string) (rec : Lane.t)
    (demuxResult : DemuxResult) : Lane.t :=
  let sample := SampleName demuxResult in
  let rec1 :=
    Lane.mk (Lane.total rec) (Lane.perfectIndex rec)
      (set sample (Sample.mk 0 0 (Some path)) (Lane.samples rec)) in
  let rec2 :=
    Lane.mk (Lane.total rec1 + NumberReads demuxResult)
      (Lane.perfectIndex rec1) (Lane.samples rec1) in
  let rec3 :=
    Lane.mk (Lane.total rec2) (Lane.perfectIndex rec2)
      (alter (fun s => Sample.mk (Sample.total s + NumberReads demuxResult)
                         (Sample.perfectIndex s) (Sample.filename s))
         sample (Lane.samples rec2)) in
  fold_left (add_indexMetric sample) (IndexMetrics demuxResult) rec3.

(** Lines 83-92: the object bound to [run_data[lane]] at line 83, after
    the mutations of lines 84-92. *)
Definition lane_record (path : string) (conversionResult : ConversionResult)
    : Lane.t :=
  let rec :=
    fold_left (add_demuxResult path) (DemuxResults conversionResult)
      (Lane.mk 0 0 []) in
  Lane.mk (Lane.total rec) (Lane.perfectIndex rec)
    (set "undetermined"
       (Sample.mk (Undetermined_NumberReads conversionResult) 0 None)
       (Lane.samples rec)).

(** [run_data = self.bcl2fastq_data[runId]] is an alias into the tree:
    reads go through [run_data], writes through [set_lane]. *)
Definition run_data (runId : string) (s : Self) : dict Lane.t :=
  match get runId (bcl2fastq_data s) with Some d => d | None => [] end.

Definition set_lane (runId lane : string) (rec : Lane.t) : M unit :=
  modify (fun s =>
    set_data (set runId (set lane rec (run_data runId s)) (bcl2fastq_data s)) s).

Definition file_path (myfile : logfile) : string :=
  os_path_join (root myfile) (fn myfile).

Definition parse_conversionResult (runId path : string)
    (conversionResult : ConversionResult) : M unit :=
  let lane := lane_name (LaneNumber conversionResult) in
  dup <- gets (fun s => contains lane (run_data runId s)) ;;
  when dup
    (log_debug ("Duplicate runId/lane combination found! Overwriting: "
                ++ prepend_runid runId lane)) ;;
  set_lane runId lane (lane_record path conversionResult).

Definition parse_file_as_json (myfile : logfile) : M unit :=
  match json_loads (f myfile) with
  | None => log_warn ("Could not parse file as json: " ++ fn myfile)
  | Some content =>
      let runId := RunId content in
      known <- gets (fun s => contains runId (bcl2fastq_data s)) ;;
      when (negb known)
        (modify (fun s => set_data (set runId [] (bcl2fastq_data s)) s)) ;;
      for_each (ConversionResults content)
        (parse_conversionResult runId (file_path myfile))
  end.

(** *** [split_data_by_lane_and_sample] *)

(** Lines 104-112. *)
Definition split_sample (runId : string) (entry : string * Sample.t) : M unit :=
  let '(sample, rec) := entry in
  let uniqSampleName := prepend_runid runId sample in
  known <- gets (fun s => contains uniqSampleName (bcl2fastq_bysample s)) ;;
  when (negb known)
    (modify (fun s =>
       set_bysample (set uniqSampleName (Counts.mk 0 0 None) (bcl2fastq_bysample s)) s)) ;;
  modify (fun s =>
    set_bysample
      (alter (fun c => Counts.mk (Counts.total c + Sample.total rec)
                         (Counts.perfectIndex c) (Counts.undetermined c))
         uniqSampleName (bcl2fastq_bysample s)) s) ;;
  modify (fun s =>
    set_bysample
      (alter (fun c => Counts.mk (Counts.total c)
                         (Counts.perfectIndex c + Sample.perfectIndex rec)
                         (Counts.undetermined c))
         uniqSampleName (bcl2fastq_bysample s)) s) ;;
  when (negb (String.eqb sample "undetermined"))
    (known <- gets (fun s => contains uniqSampleName (source_files s)) ;;
     when (negb known)
       (modify (fun s =>
          set_source_files (set uniqSampleName [] (source_files s)) s)) ;;
     filename <- match Sample.filename rec with
                 | Some p => ret p
                 | None => raise (KeyError "filename")
                 end ;;
     modify (fun s =>
       set_source_files
         (alter (fun l => l ++ [filename]) uniqSampleName (source_files s)) s)).

(** Lines 97-112. *)
Definition split_lane (runId : string) (entry : string * Lane.t) : M unit :=
  let '(lane, rec) := entry in
  let uniqLaneName := prepend_runid runId lane in
  und <- match get "undetermined" (Lane.samples rec) with
         | Some u => ret (Sample.total u)
         | None => raise (KeyError "undetermined")
         end ;;
  modify (fun s =>
    set_bylane
      (set uniqLaneName
         (Counts.mk (Lane.total rec) (Lane.perfectIndex rec) (Some und))
         (bcl2fastq_bylane s)) s) ;;
  for_each (Lane.samples rec) (split_sample runId).

Definition split_run (entry : string * dict Lane.t) : M unit :=
  let '(runId, lanes) := entry in for_each lanes (split_lane runId).

Definition split_data_by_lane_and_sample : M unit :=
  data <- gets bcl2fastq_data ;;
  for_each data split_run.

(** *** [add_general_stats] *)

(** The dictionary comprehension of line 115, evaluated in key order. *)
Fixpoint general_stats_data (bysample : dict Counts.t)
    : result (dict StatsRow.t) :=
  match bysample with
  | [] => Ok []
  | (key, c) :: rest =>
      match perfectPercent (Counts.perfectIndex c) (Counts.total c) with
      | Raise e => Raise e
      | Ok p =>
          match general_stats_data rest with
          | Raise e => Raise e
          | Ok data => Ok ((key, StatsRow.mk (Counts.total c) p) :: data)
          end
      end
  end.

(** The column keys and titles of [headers]. *)
Definition headers : list (string * string) :=
  [("total", (read_count_prefix ++ " Total Reads")%string);
   ("perfectPercent", "Perfect Index Read Percentage")].

Definition add_general_stats : M unit :=
  bysample <- gets bcl2fastq_bysample ;;
  data <- lift (general_stats_data bysample) ;;
  emit (general_stats_addcols data headers).

(** *** [get_bar_data_from_counts] *)

Definition get_bar_data_from_counts (counts : dict Counts.t) : dict Bar.t :=
  fold_left
    (fun bar_data '(key, value) =>
       set key
         (Bar.mk (Counts.perfectIndex value)
            (Counts.total value - Counts.perfectIndex value)
            (Counts.undetermined value))
         bar_data)
    counts [].

(** *** [__init__] *)

Definition cats : list (string * string) :=
  [("perfect", "Perfect Index Reads");
   ("imperfect", "Mismatched Index Reads");
   ("undetermined", "Undetermined Reads")].

(** Lines 19-21. *)
Definition gather (files : list logfile) : M unit :=
  modify (set_data []) ;;
  for_each files parse_file_as_json.

(** Lines 24-27. *)
Definition collect : M unit :=
  modify (set_bylane []) ;;
  modify (set_bysample []) ;;
  modify (set_source_files []) ;;
  split_data_by_lane_and_sample.

(** Lines 39-67.  The source of a sample is handed over as the set
    [set(self.source_files[s])], whose iteration order Python leaves open. *)
Definition produce : M unit :=
  sources <- gets source_files ;;
  for_each sources
    (fun '(s, l) => emit (add_data_source s (nodup string_dec l))) ;;
  add_general_stats ;;
  bylane <- gets bcl2fastq_bylane ;;
  bysample <- gets bcl2fastq_bysample ;;
  emit (write_data_file bylane "multiqc_bcl2fastq_bylane") ;;
  emit (write_data_file bysample "multiqc_bcl2fastq_bysample") ;;
  emit (add_section "Clusters by lane" "bcl2fastq-bylane"
          (get_bar_data_from_counts bylane) cats) ;;
  emit (add_section "Clusters by sample" "bcl2fastq-bysample"
          (get_bar_data_from_counts bysample) cats).

Definition MultiqcModule_init (files : list logfile) : M unit :=
  gather files ;;
  collect ;;
  modify (fun s => set_bylane (ignore_samples (bcl2fastq_bylane s)) s) ;;
  modify (fun s => set_bysample (ignore_samples (bcl2fastq_bysample s)) s) ;;
  nothing <- gets (fun s => (len (bcl2fastq_bylane s) =? 0)
                            && (len (bcl2fastq_bysample s) =? 0)) ;;
  when nothing
    (log_debug ("Could not find any bcl2fastq data in " ++ analysis_dir) ;;
     raise UserWarning) ;;
  produce.

End Bcl2fastq.

(** ** Vocabulary of the statements *)

Definition sum_Z (l : list Z) : Z := fold_right Z.add 0 l.

(** The zero-mismatch reads of one [DemuxResults] entry. *)
Definition perfect_reads (d : DemuxResult) : Z :=
  sum_Z (map MismatchCounts_0 (IndexMetrics d)).

(** The per-sample record a [DemuxResults] entry ends up with. *)
Definition sample_record (path : string) (d : DemuxResult) : Sample.t :=
  Sample.mk (NumberReads d) (perfect_reads d) (Some path).

(** [self.bcl2fastq_data[runId][lane]], when both keys are there. *)
Definition lookup_lane (runId lane : string) (data : dict (dict Lane.t))
    : option Lane.t :=
  match get runId data with
  | Some lanes => get lane lanes
  | None => None
  end.

(** The final state and the outcome of a computation. *)
Definition exec {A} (c : M A) (s : Self) : Self := snd (c s).
Definition outcome {A} (c : M A) (s : Self) : result A := fst (c s).

(** The diagnostic of line 82. *)
Definition duplicate_message (runId : string) (LaneNumber : Z) : level * string :=
  (DEBUG, ("Duplicate runId/lane combination found! Overwriting: "
           ++ prepend_runid runId (lane_name LaneNumber))%string).

(** The diagnostic of line 73. *)
Definition unparsable_message (myfile : logfile) : level * string :=
  (WARNING, ("Could not parse file as json: " ++ fn myfile)%string).

(** Ingestion never raises; these are the states it computes. *)
Definition ingest_lane (runId path : string) (cr : ConversionResult) (s : Self)
    : Self :=
  let lane := lane_name (LaneNumber cr) in
  let s1 :=
    if contains lane (run_data runId s)
    then set_log (log s ++ [duplicate_message runId (LaneNumber cr)]) s
    else s in
  set_data
    (set runId (set lane (lane_record path cr) (run_data runId s1))
       (bcl2fastq_data s1)) s1.

Definition ingest_file (json_loads : string -> option Stats) (myfile : logfile)
    (s : Self) : Self :=
  match json_loads (f myfile) with
  | None => set_log (log s ++ [unparsable_message myfile]) s
  | Some content =>
      let runId := RunId content in
      let s1 :=
        if contains runId (bcl2fastq_data s) then s
        else set_data (set runId [] (bcl2fastq_data s)) s in
      fold_left (fun s cr => ingest_lane runId (file_path myfile) cr s)
        (ConversionResults content) s1
  end.

Definition parseable (json_loads : string -> option Stats) (myfile : logfile)
    : bool :=
  match json_loads (f myfile) with Some _ => true | None => false end.

(** Lines 105-108 on [self.bcl2fastq_bysample]. *)
Definition bysample_add (key : string) (rec : Sample.t)
    (bysample : dict Counts.t) : dict Counts.t :=
  let b0 :=
    if contains key bysample then bysample
    else set key (Counts.mk 0 0 None) bysample in
  alter (fun c => Counts.mk (Counts.total c)
                    (Counts.perfectIndex c + Sample.perfectIndex rec)
                    (Counts.undetermined c)) key
    (alter (fun c => Counts.mk (Counts.total c + Sample.total rec)
                       (Counts.perfectIndex c) (Counts.undetermined c)) key b0).

(** Lines 109-112 on [self.source_files]. *)
Definition sources_add (sample key path : string)
    (sources : dict (list string)) : dict (list string) :=
  if String.eqb sample "undetermined" then sources
  else alter (fun l => l ++ [path]) key
         (if contains key sources then sources else set key [] sources).

(** The states the reshape computes on a tree in which every lane has its
    undetermined entry and every other sample its file name. *)
Definition reshape_sample (runId : string) (s : Self)
    (entry : string * Sample.t) : Self :=
  let '(sample, rec) := entry in
  let key := prepend_runid runId sample in
  let s1 := set_bysample (bysample_add key rec (bcl2fastq_bysample s)) s in
  match Sample.filename rec with
  | Some path =>
      set_source_files (sources_add sample key path (source_files s1)) s1
  | None => s1
  end.

Definition lane_counts (rec : Lane.t) : Counts.t :=
  Counts.mk (Lane.total rec) (Lane.perfectIndex rec)
    (option_map Sample.total (get "undetermined" (Lane.samples rec))).

Definition reshape_lane (runId : string) (s : Self) (entry : string * Lane.t)
    : Self :=
  let '(lane, rec) := entry in
  fold_left (reshape_sample runId) (Lane.samples rec)
    (set_bylane
       (set (prepend_runid runId lane) (lane_counts rec) (bcl2fastq_bylane s)) s).

Definition reshape_run (s : Self) (entry : string * dict Lane.t) : Self :=
  let '(runId, lanes) := entry in fold_left (reshape_lane runId) lanes s.

Definition reshape (s : Self) : Self :=
  fold_left reshape_run (bcl2fastq_data s) s.

Definition sample_ok (entry : string * Sample.t) : Prop :=
  fst entry = "undetermined" \/ Sample.filename (snd entry) <> None.

Definition lane_ok (entry : string * Lane.t) : Prop :=
  get "undetermined" (Lane.samples (snd entry)) <> None /\
  Forall sample_ok (Lane.samples (snd entry)).

Definition tree_ok (data : dict (dict Lane.t)) : Prop :=
  Forall (fun entry => Forall lane_ok (snd entry)) data.

(** What a by-sample entry becomes when one more lane contributes. *)
Definition counts_plus (c : option Counts.t) (rec : Sample.t) : Counts.t :=
  match c with
  | Some c => Counts.mk (Counts.total c + Sample.total rec)
                (Counts.perfectIndex c + Sample.perfectIndex rec)
                (Counts.undetermined c)
  | None => Counts.mk (0 + Sample.total rec) (0 + Sample.perfectIndex rec) None
  end.

(** The [ConversionResults] entries in the order of ingestion, each with the
    [RunId] of its report and the path of its file. *)
Definition file_events (json_loads : string -> option Stats) (myfile : logfile)
    : list (string * string * ConversionResult) :=
  match json_loads (f myfile) with
  | Some content =>
      map (fun cr => (RunId content, file_path myfile, cr))
        (ConversionResults content)
  | None => []
  end.

Definition ingested (json_loads : string -> option Stats) (files : list logfile)
    : list (string * string * ConversionResult) :=
  flat_map (file_events json_loads) files.

Definition reports_lane (runId : string) (n : Z)
    (e : string * string * ConversionResult) : bool :=
  String.eqb (fst (fst e)) runId && Z.eqb (LaneNumber (snd e)) n.

(** The lane record the last matching entry of [events] leaves behind. *)
Definition last_write (runId : string) (n : Z)
    (events : list (string * string * ConversionResult))
    (before : option Lane.t) : option Lane.t :=
  fold_left
    (fun acc e =>
       if reports_lane runId n e then Some (lane_record (snd (fst e)) (snd e))
       else acc)
    events before.

(** Whether [events] report the run-lane a second time: once it is in the
    tree ([seen]), any matching entry does. *)
Fixpoint reported_again (runId : string) (n : Z) (seen : bool)
    (events : list (string * string * ConversionResult)) : bool :=
  match events with
  | [] => false
  | e :: rest =>
      if reports_lane runId n e
      then seen || reported_again runId n true rest
      else reported_again runId n seen rest
  end.

Definition seen (runId : string) (n : Z) (s : Self) : bool :=
  contains (lane_name n) (run_data runId s).

(** The state after lines 19-21, and after the resets of lines 24-26. *)
Definition gathered (json_loads : string -> option Stats) (files : list logfile)
    (s : Self) : Self :=
  fold_left (fun s myfile => ingest_file json_loads myfile s) files (set_data [] s).

Definition collected (s : Self) : Self :=
  set_source_files [] (set_bysample [] (set_bylane [] s)).

(** The report of the end-to-end example. *)
Definition example_sample : DemuxResult :=
  {| SampleName := "S1"; NumberReads := 100;
     IndexMetrics := [ {| MismatchCounts_0 := 90 |} ] |}.

Definition example_lane : ConversionResult :=
  {| LaneNumber := 1; Undetermined_NumberReads := 10;
     DemuxResults := [example_sample] |}.

Definition example_stats : Stats :=
  {| RunId := "RUN1"; ConversionResults := [example_lane] |}.

Definition example_file : logfile :=
  {| f := "run1-lane1"; fn := "Stats.json"; root := "/data/run1/lane1" |}.

(** The same sample in lane 2 of the same run, from a second file. *)
Definition second_sample : DemuxResult :=
  {| SampleName := "S1"; NumberReads := 50;
     IndexMetrics := [ {| MismatchCounts_0 := 30 |}; {| MismatchCounts_0 := 10 |} ] |}.

Definition second_lane : ConversionResult :=
  {| LaneNumber := 2; Undetermined_NumberReads := 5;
     DemuxResults := [second_sample] |}.

Definition second_stats : Stats :=
  {| RunId := "RUN1"; ConversionResults := [second_lane] |}.

Definition second_file : logfile :=
  {| f := "run1-lane2"; fn := "Stats.json"; root := "/data/run1/lane2" |}.

(** A lane without samples and without undetermined reads. *)
Definition empty_lane : ConversionResult :=
  {| LaneNumber := 3; Undetermined_NumberReads := 0; DemuxResults := [] |}.

Definition empty_stats : Stats :=
  {| RunId := "RUN2"; ConversionResults := [empty_lane] |}.

Definition empty_file : logfile :=
  {| f := "run2-lane3"; fn := "Stats.json"; root := "/data/run2" |}.

(** A report whose lane has a sample that is named "undetermined". *)
Definition named_undetermined : DemuxResult :=
  {| SampleName := "undetermined"; NumberReads := 7;
     IndexMetrics := [ {| MismatchCounts_0 := 4 |} ] |}.

Definition clash_lane : ConversionResult :=
  {| LaneNumber := 1; Undetermined_NumberReads := 10;
     DemuxResults := [example_sample; named_undetermined] |}.

Definition clash_stats : Stats :=
  {| RunId := "RUN3"; ConversionResults := [clash_lane] |}.

Definition clash_file : logfile :=
  {| f := "run3-lane1"; fn := "Stats.json"; root := "/data/run3" |}.

Definition broken_file : logfile :=
  {| f := "{ not json"; fn := "Broken.json"; root := "/data" |}.

(** [json.loads] on the contents of the example files; anything else does
    not parse. *)
Definition example_loads (content : string) : option Stats :=
  if String.eqb content "run1-lane1" then Some example_stats
  else if String.eqb content "run1-lane2" then Some second_stats
  else if String.eqb content "run2-lane3" then Some empty_stats
  else if String.eqb content "run3-lane1" then Some clash_stats
  else None.

(** A host that ignores no sample. *)
Definition ignore_nothing (d : dict Counts.t) : dict Counts.t := d.

(** What a lane of the tree contributes to a sample: the counts of the
    sample's record in the lane's samples mapping, nothing when it has none. *)
Definition sample_total_in (sample : string) (rec : Lane.t) : Z :=
  match get sample (Lane.samples rec) with
  | Some r => Sample.total r
  | None => 0
  end.

Definition sample_perfect_in (sample : string) (rec : Lane.t) : Z :=
  match get sample (Lane.samples rec) with
  | Some r => Sample.perfectIndex r
  | None => 0
  end.

(** The same contribution read off the report: the counts of the lane's
    [DemuxResults] entries with that name. *)
Definition named (sample : string) (cr : ConversionResult) : list DemuxResult :=
  filter (fun d => String.eqb (SampleName d) sample) (DemuxResults cr).

Definition reads_of (sample : string) (cr : ConversionResult) : Z :=
  sum_Z (map NumberReads (named sample cr)).

Definition perfect_of (sample : string) (cr : ConversionResult) : Z :=
  sum_Z (map perfect_reads (named sample cr)).

(** The sum of the per-sample totals in the samples mapping of a lane, over
    all entries and over the entries other than "undetermined". *)
Definition samples_total (rec : Lane.t) : Z :=
  sum_Z (map Sample.total (values (Lane.samples rec))).

Definition real_samples_total (rec : Lane.t) : Z :=
  sum_Z (map Sample.total
           (values (filter (fun e => negb (String.eqb (fst e) "undetermined"))
                      (Lane.samples rec)))).

(** A lane whose only DemuxResults entry is named "undetermined" and has no
    reads, with no undetermined reads either. *)
Definition zero_reads_sample : DemuxResult :=
  {| SampleName := "undetermined"; NumberReads := 0; IndexMetrics := [] |}.

Definition zero_undetermined_lane : ConversionResult :=
  {| LaneNumber := 1; Undetermined_NumberReads := 0;
     DemuxResults := [zero_reads_sample] |}.

(** The last step of [binary_round_aux]: the rounded mantissa and exponent
    made into a float. *)
Definition finish (s : bool) (r : shr_record * Z) : spec_float :=
  let '(mrs, e) := r in
  match shr_m mrs with
  | Z0 => S754_zero s
  | Zpos m => if e <=? emax - prec then S754_finite s m e else S754_infinity s
  | _ => S754_nan
  end.

(** The binary64 quotient [100.0*perfectIndex/total], formatted. *)
Definition percent_string (perfectIndex total : Z) : string :=
  format_1f
    (SFdiv prec emax
       (SFmul prec emax float_100 (binary_normalize prec emax perfectIndex 0 false))
       (binary_normalize prec emax total 0 false)).

Definition stats_row (entry : string * Counts.t) : string * StatsRow.t :=
  (fst entry,
   StatsRow.mk (Counts.total (snd entry))
     (percent_string (Counts.perfectIndex (snd entry)) (Counts.total (snd entry)))).

(** Counts that convert to binary64. *)
Definition in_float_range (entry : string * Counts.t) : Prop :=
  Z.abs (Counts.total (snd entry)) < 2 ^ 1023 /\
  Z.abs (Counts.perfectIndex (snd entry)) < 2 ^ 1023.

(** The state after lines 19-31. *)
Definition filtered (json_loads : string -> option Stats)
    (ignore_samples : dict Counts.t -> dict Counts.t) (files : list logfile)
    (s : Self) : Self :=
  let r := reshape (collected (gathered json_loads files s)) in
  set_bysample (ignore_samples (bcl2fastq_bysample r))
    (set_bylane (ignore_samples (bcl2fastq_bylane r)) r).

(** The calls of lines 39-40. *)
Definition data_sources (s : Self) : list output :=
  map (fun entry => add_data_source (fst entry) (nodup string_dec (snd entry)))
    (source_files s).

(** The calls of lines 44-67. *)
Definition exports_and_sections (s : Self) : list output :=
  [write_data_file (bcl2fastq_bylane s) "multiqc_bcl2fastq_bylane";
   write_data_file (bcl2fastq_bysample s) "multiqc_bcl2fastq_bysample";
   add_section "Clusters by lane" "bcl2fastq-bylane"
     (get_bar_data_from_counts (bcl2fastq_bylane s)) cats;
   add_section "Clusters by sample" "bcl2fastq-bysample"
     (get_bar_data_from_counts (bcl2fastq_bysample s)) cats].

(** A by-sample mapping with a count too large for binary64, alone and
    followed by a sample without reads. *)
Definition huge_sample : string * Counts.t :=
  ("RUN1 - S1", Counts.mk (2 ^ 1024) (2 ^ 1024) None).

Definition empty_sample : string * Counts.t :=
  ("RUN1 - S2", Counts.mk 0 0 None).

(** ** Vocabulary of the further properties *)

(** The bar of one record, lines 141-146. *)
Definition bar_of (value : Counts.t) : Bar.t :=
  Bar.mk (Counts.perfectIndex value)
    (Counts.total value - Counts.perfectIndex value)
    (Counts.undetermined value).

(** [c in s] for a character. *)
Fixpoint has_char (c : ascii) (s : string) : bool :=
  match s with
  | EmptyString => false
  | String a s' => Ascii.eqb a c || has_char c s'
  end.

(** The keys of a well-shaped tree: runs pairwise distinct, the lanes of a
    run pairwise distinct and each of the form ['L{}'.format(n)]. *)
Definition lanes_named (lanes : dict Lane.t) : Prop :=
  Forall (fun entry => exists n, fst entry = lane_name n) lanes.

Definition tree_keys_ok (data : dict (dict Lane.t)) : Prop :=
  NoDup (keys data) /\
  Forall (fun entry => NoDup (keys (snd entry)) /\ lanes_named (snd entry)) data.

(** Grand totals: of a view, of the per-sample records of a lane, and of the
    per-sample records of the whole tree. *)
Definition counts_total (d : dict Counts.t) : Z :=
  sum_Z (map Counts.total (values d)).

Definition counts_perfect (d : dict Counts.t) : Z :=
  sum_Z (map Counts.perfectIndex (values d)).

Definition samples_perfect (rec : Lane.t) : Z :=
  sum_Z (map Sample.perfectIndex (values (Lane.samples rec))).

Definition tree_total (data : dict (dict Lane.t)) : Z :=
  sum_Z (map (fun lanes => sum_Z (map samples_total (values lanes))) (values data)).

Definition tree_perfect (data : dict (dict Lane.t)) : Z :=
  sum_Z (map (fun lanes => sum_Z (map samples_perfect (values lanes))) (values data)).

(** The by-lane records of a tree, run by run and lane by lane. *)
Definition bylane_of_tree (data : dict (dict Lane.t)) : dict Counts.t :=
  flat_map
    (fun run =>
       map (fun lane => (prepend_runid (fst run) (fst lane), lane_counts (snd lane)))
         (snd run))
    data.

(** The undetermined reads of a view, absent fields counting for nothing. *)
Definition counts_undetermined (d : dict Counts.t) : Z :=
  sum_Z (map (fun c => match Counts.undetermined c with Some u => u | None => 0 end)
           (values d)).

(** Where the lanes of a tree come from: each is the record of a
    [ConversionResults] entry of a parseable file, under its [RunId]. *)
Definition lane_from (json_loads : string -> option Stats) (files : list logfile)
    (runId : string) (entry : string * Lane.t) : Prop :=
  exists myfile content cr,
    In myfile files /\ json_loads (f myfile) = Some content /\
    In cr (ConversionResults content) /\ runId = RunId content /\
    fst entry = lane_name (LaneNumber cr) /\
    snd entry = lane_record (file_path myfile) cr.

Definition tree_from (json_loads : string -> option Stats) (files : list logfile)
    (data : dict (dict Lane.t)) : Prop :=
  Forall (fun run => Forall (lane_from json_loads files (fst run)) (snd run)) data.

(** A lane as bcl2fastq writes it: sample names pairwise distinct, none of
    them "undetermined". *)
Definition well_formed_lane (cr : ConversionResult) : Prop :=
  NoDup (map SampleName (DemuxResults cr)) /\
  ~ In "undetermined" (map SampleName (DemuxResults cr)).

(** What the reshape leaves alone, and the errors it can raise. *)
Definition untouched (s s' : Self) : Prop :=
  bcl2fastq_data s' = bcl2fastq_data s /\ log s' = log s /\ report s' = report s.

Definition missing_key (e : exn) : Prop :=
  e = KeyError "undetermined" \/ e = KeyError "filename".

(** A tree with a lane that has lost its undetermined entry, and one with a
    sample that has lost its file name. *)
Definition no_undetermined_tree : dict (dict Lane.t) :=
  [("RUN1", [("L1", Lane.mk 0 0 [])])].

Definition no_filename_tree : dict (dict Lane.t) :=
  [("RUN1", [("L1", Lane.mk 7 0 [("undetermined", Sample.mk 0 0 None);
                                  ("S1", Sample.mk 7 0 None)])])].

(** A file that reports a sample: a parseable file with a [DemuxResults]
    entry of that name, other than "undetermined", under that run. *)
Definition sample_from (json_loads : string -> option Stats) (files : list logfile)
    (key path : string) : Prop :=
  exists myfile content cr d,
    In myfile files /\ json_loads (f myfile) = Some content /\
    In cr (ConversionResults content) /\ In d (DemuxResults cr) /\
    SampleName d <> "undetermined" /\
    key = prepend_runid (RunId content) (SampleName d) /\
    path = file_path myfile.

Definition sources_ok (Q : string -> string -> Prop) (src : dict (list string))
    : Prop :=
  forall key paths, get key src = Some paths ->
    paths <> [] /\ forall path, In path paths -> Q key path.

(** The lanes of a run after a report has been read into them, and the
    duplicate diagnostics a report can cause. *)
Definition lanes_after (path : string) (crs : list ConversionResult)
    (lanes : dict Lane.t) : dict Lane.t :=
  fold_left (fun d cr => set (lane_name (LaneNumber cr)) (lane_record path cr) d)
    crs lanes.

Definition duplicate_of (content : Stats) (m : level * string) : Prop :=
  exists cr, In cr (ConversionResults content) /\
             m = duplicate_message (RunId content) (LaneNumber cr).

(** The files that do not parse, and a file whose report has no lane. *)
Definition unparsable (json_loads : string -> option Stats) (files : list logfile)
    : list logfile :=
  filter (fun myfile => negb (parseable json_loads myfile)) files.

Definition reports_no_lane (json_loads : string -> option Stats) (myfile : logfile)
    : Prop :=
  forall content, json_loads (f myfile) = Some content -> ConversionResults content = [].

Definition no_lanes (data : dict (dict Lane.t)) : Prop :=
  Forall (fun run => snd run = []) data.

Definition laneless_stats : Stats := {| RunId := "RUN4"; ConversionResults := [] |}.

Definition laneless_file : logfile :=
  {| f := "run4"; fn := "Stats.json"; root := "/data/run4" |}.

Definition laneless_loads (content : string) : option Stats :=
  if String.eqb content "run4" then Some laneless_stats else None.



(** Two entries of [events] report the same run and lane. *)
Definition reported_twice (runId : string) (n : Z)
    (events : list (string * string * ConversionResult)) : Prop :=
  exists pre e1 mid e2 post,
    events = pre ++ e1 :: mid ++ e2 :: post /\
    reports_lane runId n e1 = true /\ reports_lane runId n e2 = true.

(** The log of the ingestion holds nothing but [P] messages and justified
    duplicate diagnostics, and every lane of the tree has been reported. *)
Definition log_ok (P : level * string -> Prop)
    (events : list (string * string * ConversionResult)) (s : Self) : Prop :=
  (forall runId n, seen runId n s = true ->
     exists e, In e events /\ reports_lane runId n e = true) /\
  (forall m, In m (log s) ->
     P m \/ exists runId n, m = duplicate_message runId n /\
                            reported_twice runId n events).

(** The qualified names of the samples of a tree; with [real], of those other
    than "undetermined". *)
Definition sample_key_of (data : dict (dict Lane.t)) (real : bool) (key : string)
    : Prop :=
  exists runId lanes lane rec x,
    In (runId, lanes) data /\ In (lane, rec) lanes /\
    In x (keys (Lane.samples rec)) /\
    (real = true -> x <> "undetermined") /\
    key = prepend_runid runId x.

(** A lane that lists the sample "S1" twice. *)
Definition twice_lane : ConversionResult :=
  {| LaneNumber := 1; Undetermined_NumberReads := 10;
     DemuxResults := [example_sample; second_sample] |}.

(** What the lanes of a run make of a by-sample entry. *)
Definition merged_over (sample : string) (lanes : dict Lane.t)
    (before : option Counts.t) : option Counts.t :=
  fold_left
    (fun acc (entry : string * Lane.t) =>
       match get sample (Lane.samples (snd entry)) with
       | Some rec => Some (counts_plus acc rec)
       | None => acc
       end)
    lanes before.

Definition lanes_of (runId : string) (data : dict (dict Lane.t)) : dict Lane.t :=
  match get runId data with Some lanes => lanes | None => [] end.

(** Run ids without a space, as far as the run has lanes; sample names
    pairwise distinct within every lane. *)
Definition runs_plain (data : dict (dict Lane.t)) : Prop :=
  Forall (fun run => snd run = [] \/ has_char " " (fst run) = false) data.

Definition samples_distinct (data : dict (dict Lane.t)) : Prop :=
  Forall
    (fun run =>
       Forall (fun lane : string * Lane.t => NoDup (keys (Lane.samples (snd lane))))
         (snd run))
    data.

(** A second run with the sample "S1". *)
Definition other_run_stats : Stats :=
  {| RunId := "RUN5"; ConversionResults := [second_lane] |}.

Definition other_run_file : logfile :=
  {| f := "run5-lane2"; fn := "Stats.json"; root := "/data/run5" |}.

Definition two_runs_loads (content : string) : option Stats :=
  if String.eqb content "run1-lane1" then Some example_stats
  else if String.eqb content "run1-lane2" then Some second_stats
  else if String.eqb content "run5-lane2" then Some other_run_stats
  else None.

Arguments reshape_sample : simpl never.
Arguments reshape_lane : simpl never.
Arguments ingest_lane : simpl never.
Arguments ingest_file : simpl never.
Arguments lane_record : simpl never.
Arguments prepend_runid : simpl never.
Arguments lane_name : simpl never.

(** ** Dictionaries: lookups after updates *)

Section DictFacts.
Context {V : Type}.
Implicit Types (d : dict V) (k : string) (v : V).

Lemma get_set_same k v d : get k (set k v d) = Some v.
Proof.
  induction d as [|[k' v'] d IH]; simpl.
  - now rewrite String.eqb_refl.
  - destruct (String.eqb k k') eqn:E; simpl.
    + now rewrite String.eqb_refl.
    + now rewrite E.
Qed.

Lemma get_set_other k k' v d : k <> k' -> get k' (set k v d) = get k' d.
Proof.
  intros N. induction d as [|[k0 v0] d IH]; simpl.
  - destruct (String.eqb_spec k' k); congruence.
  - destruct (String.eqb_spec k k0); simpl.
    + subst k0. destruct (String.eqb_spec k' k); congruence.
    + now rewrite IH.
Qed.

Lemma get_set k k' v d :
  get k' (set k v d) = if String.eqb k' k then Some v else get k' d.
Proof.
  destruct (String.eqb_spec k' k) as [->|N].
  - apply get_set_same.
  - apply get_set_other; congruence.
Qed.

Lemma get_alter g k k' d :
  get k' (alter g k d) =
  if String.eqb k' k then option_map g (get k d) else get k' d.
Proof.
  induction d as [|[k0 v0] d IH]; simpl.
  - now destruct (String.eqb k' k).
  - destruct (String.eqb_spec k k0) as [->|N]; simpl.
    + destruct (String.eqb_spec k' k0); auto.
    + rewrite IH. destruct (String.eqb_spec k' k0) as [->|N'].
      * destruct (String.eqb_spec k0 k); congruence.
      * reflexivity.
Qed.

Lemma contains_false k d : contains k d = false <-> get k d = None.
Proof. unfold contains. destruct (get k d); split; congruence. Qed.

Lemma get_None_keys k d : get k d = None <-> ~ In k (keys d).
Proof.
  induction d as [|[k0 v0] d IH]; simpl.
  - tauto.
  - destruct (String.eqb_spec k k0) as [->|N].
    + split; [discriminate | intros H; exfalso; apply H; now left].
    + rewrite IH. split; [intros H [E|I]; [congruence | tauto] | tauto].
Qed.

Lemma get_In k v d : get k d = Some v -> In (k, v) d.
Proof.
  induction d as [|[k0 v0] d IH]; simpl; [discriminate|].
  destruct (String.eqb_spec k k0) as [->|N].
  - intros [= ->]. now left.
  - intros H. right. auto.
Qed.

(** A new key goes to the end. *)
Lemma set_fresh k v d : get k d = None -> set k v d = d ++ [(k, v)].
Proof.
  induction d as [|[k0 v0] d IH]; simpl; auto.
  destruct (String.eqb k k0); [discriminate|].
  intros H. now rewrite IH.
Qed.

Lemma keys_set_in k v d : get k d <> None -> keys (set k v d) = keys d.
Proof.
  induction d as [|[k0 v0] d IH]; simpl; [congruence|].
  destruct (String.eqb_spec k k0) as [->|N]; simpl; auto.
  intros H. now rewrite IH.
Qed.

Lemma NoDup_keys_set k v d : NoDup (keys d) -> NoDup (keys (set k v d)).
Proof.
  intros ND. destruct (get k d) eqn:G.
  - rewrite keys_set_in; congruence.
  - rewrite set_fresh by assumption. unfold keys. rewrite map_app. simpl.
    apply NoDup_app; auto.
    + constructor; [tauto | constructor].
    + intros x I [<-|[]]. now apply get_None_keys in G.
Qed.

Lemma Forall_set (P : string * V -> Prop) k v d :
  Forall P d -> P (k, v) -> Forall P (set k v d).
Proof.
  induction 1 as [|[k0 v0] d H HF IH]; simpl; intros Hk.
  - constructor; auto.
  - destruct (String.eqb k k0); constructor; auto.
Qed.

(** The value under [k] after a run of assignments [d[key x] = val x]:
    the last assignment to [k] decides. *)
Lemma get_fold_set {X} (key : X -> string) (val : X -> V) (xs : list X) k d :
  get k (fold_left (fun d x => set (key x) (val x) d) xs d) =
  fold_left (fun acc x => if String.eqb k (key x) then Some (val x) else acc)
    xs (get k d).
Proof.
  revert d. induction xs as [|x xs IH]; intros d; simpl; auto.
  now rewrite IH, get_set.
Qed.

Lemma NoDup_keys_fold_set {X} (key : X -> string) (val : X -> V) xs d :
  NoDup (keys d) -> NoDup (keys (fold_left (fun d x => set (key x) (val x) d) xs d)).
Proof.
  revert d. induction xs as [|x xs IH]; intros d ND; simpl; auto.
  apply IH. now apply NoDup_keys_set.
Qed.

End DictFacts.

Lemma no_assignment {X V} (key : X -> string) (val : X -> V) xs k (acc : option V) :
  ~ In k (map key xs) ->
  fold_left (fun acc y => if String.eqb k (key y) then Some (val y) else acc)
    xs acc = acc.
Proof.
  revert acc. induction xs as [|y xs IH]; intros acc NI; simpl; auto.
  destruct (String.eqb_spec k (key y)) as [E|N].
  - exfalso. apply NI. left. congruence.
  - apply IH. intros H. apply NI. now right.
Qed.

(** With pairwise distinct keys, the last assignment to [key x] is [x]'s own. *)
Lemma last_assignment_unique {X V} (key : X -> string) (val : X -> V) xs x acc :
  NoDup (map key xs) -> In x xs ->
  fold_left (fun acc y => if String.eqb (key x) (key y) then Some (val y) else acc)
    xs acc = Some (val x).
Proof.
  revert acc. induction xs as [|y xs IH]; intros acc ND I; simpl; [destruct I|].
  inversion ND as [|? ? NI ND']; subst.
  destruct I as [->|I].
  - rewrite String.eqb_refl. now apply no_assignment.
  - now apply IH.
Qed.

(** ** Qualified keys are injective in the name, lane names in the number *)

Lemma append_inj_r (a b c : string) : (a ++ b)%string = (a ++ c)%string -> b = c.
Proof. induction a; simpl; intros H; [assumption | injection H; auto]. Qed.

Lemma prepend_runid_inj runId a b :
  prepend_runid runId a = prepend_runid runId b -> a = b.
Proof.
  unfold prepend_runid. intros H.
  apply append_inj_r in H. now apply (append_inj_r " - ") in H.
Qed.

Lemma str_of_int_inj a b : str_of_int a = str_of_int b -> a = b.
Proof.
  unfold str_of_int. intros H.
  assert (R : forall z, NilZero.int_of_string (NilZero.string_of_int (Z.to_int z))
                        = Some (Z.to_int z)).
  { intros z. apply NilZero.isi; destruct z; simpl; try discriminate;
      intros [= E]; now apply Unsigned.to_uint_nonnil in E. }
  apply DecimalZ.to_int_inj.
  assert (E : Some (Z.to_int a) = Some (Z.to_int b)) by (rewrite <- !R; now f_equal).
  now injection E.
Qed.

Lemma lane_name_inj a b : lane_name a = lane_name b -> a = b.
Proof. unfold lane_name. intros H. apply str_of_int_inj. now injection H. Qed.

(** ** The loops, run *)

Lemma for_each_run {A} (body : A -> M unit) (g : A -> Self -> Self) l s :
  (forall x s, body x s = (Ok tt, g x s)) ->
  for_each l body s = (Ok tt, fold_left (fun s x => g x s) l s).
Proof.
  intros H. revert s. induction l as [|x l IH]; intros s; simpl; auto.
  unfold bind. now rewrite H, IH.
Qed.

(** ** The lane record in closed form *)

Lemma alter_set {V} (g : V -> V) k v (d : dict V) :
  alter g k (set k v d) = set k (g v) d.
Proof.
  induction d as [|[k0 v0] d IH]; simpl.
  - now rewrite String.eqb_refl.
  - destruct (String.eqb k k0) eqn:E; simpl.
    + now rewrite String.eqb_refl.
    + now rewrite E, IH.
Qed.

Lemma fold_add_indexMetric sample ims t p v sd :
  fold_left (add_indexMetric sample) ims (Lane.mk t p (set sample v sd)) =
  Lane.mk t (p + sum_Z (map MismatchCounts_0 ims))
    (set sample
       (Sample.mk (Sample.total v)
          (Sample.perfectIndex v + sum_Z (map MismatchCounts_0 ims))
          (Sample.filename v)) sd).
Proof.
  revert p v. induction ims as [|im ims IH]; intros p v; simpl.
  - rewrite !Z.add_0_r. now destruct v.
  - unfold add_indexMetric at 2. simpl. rewrite alter_set, IH. simpl.
    f_equal; [lia|]. f_equal. f_equal. lia.
Qed.

Lemma add_demuxResult_eq path rec d :
  add_demuxResult path rec d =
  Lane.mk (Lane.total rec + NumberReads d)
    (Lane.perfectIndex rec + perfect_reads d)
    (set (SampleName d) (sample_record path d) (Lane.samples rec)).
Proof.
  unfold add_demuxResult. simpl. rewrite alter_set. simpl.
  rewrite fold_add_indexMetric. reflexivity.
Qed.

Lemma fold_add_demuxResult path ds rec :
  fold_left (add_demuxResult path) ds rec =
  Lane.mk (Lane.total rec + sum_Z (map NumberReads ds))
    (Lane.perfectIndex rec + sum_Z (map perfect_reads ds))
    (fold_left (fun sd d => set (SampleName d) (sample_record path d) sd)
       ds (Lane.samples rec)).
Proof.
  revert rec. induction ds as [|d ds IH]; intros rec; simpl.
  - rewrite !Z.add_0_r. now destruct rec.
  - rewrite IH, add_demuxResult_eq. simpl. f_equal; lia.
Qed.

Lemma lane_record_eq path cr :
  lane_record path cr =
  Lane.mk (sum_Z (map NumberReads (DemuxResults cr)))
    (sum_Z (map perfect_reads (DemuxResults cr)))
    (set "undetermined" (Sample.mk (Undetermined_NumberReads cr) 0 None)
       (fold_left (fun sd d => set (SampleName d) (sample_record path d) sd)
          (DemuxResults cr) [])).
Proof. unfold lane_record. now rewrite fold_add_demuxResult. Qed.

(** ** Ingestion, run *)

Lemma parse_conversionResult_run runId path cr s :
  parse_conversionResult runId path cr s = (Ok tt, ingest_lane runId path cr s).
Proof.
  unfold parse_conversionResult, ingest_lane, bind, gets, when, set_lane,
    log_debug, modify, ret, duplicate_message.
  destruct (contains _ (run_data runId s)); reflexivity.
Qed.

Section Ingestion.

Variable json_loads : string -> option Stats.

Lemma parse_file_as_json_run myfile s :
  parse_file_as_json json_loads myfile s = (Ok tt, ingest_file json_loads myfile s).
Proof.
  unfold parse_file_as_json, ingest_file.
  destruct (json_loads (f myfile)) as [content|]; [|reflexivity].
  unfold bind, gets, when, modify, ret.
  destruct (contains _ _); simpl;
    apply for_each_run; intros; apply parse_conversionResult_run.
Qed.

Lemma gather_run files s :
  gather json_loads files s =
  (Ok tt, fold_left (fun s myfile => ingest_file json_loads myfile s) files
            (set_data [] s)).
Proof.
  unfold gather, bind, modify.
  apply for_each_run. intros. apply parse_file_as_json_run.
Qed.

End Ingestion.

(** *** The tree and the log after ingestion *)

Lemma ingest_lane_data runId path cr s :
  bcl2fastq_data (ingest_lane runId path cr s) =
  set runId (set (lane_name (LaneNumber cr)) (lane_record path cr) (run_data runId s))
    (bcl2fastq_data s).
Proof.
  unfold ingest_lane. destruct (contains _ _); destruct s; reflexivity.
Qed.

Lemma ingest_lane_log runId path cr s :
  log (ingest_lane runId path cr s) =
  log s ++ (if contains (lane_name (LaneNumber cr)) (run_data runId s)
            then [duplicate_message runId (LaneNumber cr)] else []).
Proof.
  unfold ingest_lane. destruct (contains _ _); destruct s; simpl; auto.
  now rewrite app_nil_r.
Qed.

Lemma get_run_data runId l s :
  get l (run_data runId s) = lookup_lane runId l (bcl2fastq_data s).
Proof.
  unfold run_data, lookup_lane. now destruct (get runId (bcl2fastq_data s)).
Qed.

Lemma lookup_lane_ingest_lane runId path cr s r l :
  lookup_lane r l (bcl2fastq_data (ingest_lane runId path cr s)) =
  if String.eqb r runId && String.eqb l (lane_name (LaneNumber cr))
  then Some (lane_record path cr)
  else lookup_lane r l (bcl2fastq_data s).
Proof.
  rewrite ingest_lane_data. unfold lookup_lane at 1. rewrite get_set.
  destruct (String.eqb_spec r runId) as [->|N]; simpl.
  - rewrite get_set, get_run_data. reflexivity.
  - reflexivity.
Qed.

Lemma lane_name_eqb a b :
  String.eqb (lane_name a) (lane_name b) = Z.eqb a b.
Proof.
  destruct (String.eqb_spec (lane_name a) (lane_name b)) as [E|N];
    destruct (Z.eqb_spec a b) as [E'|N']; auto.
  - apply lane_name_inj in E. contradiction.
  - subst. contradiction.
Qed.

Section IngestionFacts.

Variable json_loads : string -> option Stats.

Lemma lookup_lane_ensure_run runId (s : Self) r l :
  lookup_lane r l
    (bcl2fastq_data
       (if contains runId (bcl2fastq_data s) then s
        else set_data (set runId [] (bcl2fastq_data s)) s)) =
  lookup_lane r l (bcl2fastq_data s).
Proof.
  destruct (contains runId (bcl2fastq_data s)) eqn:C; auto.
  apply contains_false in C. destruct s as [dt bl bs sf lg rp]. simpl in *.
  unfold lookup_lane. rewrite get_set.
  destruct (String.eqb_spec r runId) as [->|N]; auto. now rewrite C.
Qed.

(** Last write wins: the record of a run-lane after a file is that of the
    last matching entry of the file, or the one from before. *)
Lemma lookup_lane_ingest_file myfile s runId n :
  lookup_lane runId (lane_name n)
    (bcl2fastq_data (ingest_file json_loads myfile s)) =
  last_write runId n (file_events json_loads myfile)
    (lookup_lane runId (lane_name n) (bcl2fastq_data s)).
Proof.
  unfold ingest_file, file_events, last_write.
  destruct (json_loads (f myfile)) as [content|].
  - rewrite <- (lookup_lane_ensure_run (RunId content) s).
    generalize (if contains (RunId content) (bcl2fastq_data s) then s
                else set_data (set (RunId content) [] (bcl2fastq_data s)) s).
    induction (ConversionResults content) as [|cr crs IH]; intros s1;
      cbn [fold_left map]; auto.
    rewrite IH, lookup_lane_ingest_lane. unfold reports_lane. cbn [fst snd].
    now rewrite lane_name_eqb, (String.eqb_sym runId), (Z.eqb_sym n).
  - destruct s; reflexivity.
Qed.

Lemma last_write_app runId n ev1 ev2 before :
  last_write runId n (ev1 ++ ev2) before =
  last_write runId n ev2 (last_write runId n ev1 before).
Proof. apply fold_left_app. Qed.

Lemma lookup_lane_ingest_files files s runId n :
  lookup_lane runId (lane_name n)
    (bcl2fastq_data
       (fold_left (fun s myfile => ingest_file json_loads myfile s) files s)) =
  last_write runId n (ingested json_loads files)
    (lookup_lane runId (lane_name n) (bcl2fastq_data s)).
Proof.
  revert s. induction files as [|myfile files IH]; intros s; simpl; auto.
  now rewrite IH, last_write_app, lookup_lane_ingest_file.
Qed.

End IngestionFacts.

(** *** The invariant of the tree *)

Lemma lane_record_samples_have_files path ds sd :
  Forall (fun e : string * Sample.t => Sample.filename (snd e) <> None) sd ->
  Forall (fun e : string * Sample.t => Sample.filename (snd e) <> None)
    (fold_left (fun sd d => set (SampleName d) (sample_record path d) sd) ds sd).
Proof.
  revert sd. induction ds as [|d ds IH]; intros sd F; simpl; auto.
  apply IH. apply Forall_set; auto. simpl. discriminate.
Qed.

Lemma get_undetermined_lane_record path cr :
  get "undetermined" (Lane.samples (lane_record path cr)) =
  Some (Sample.mk (Undetermined_NumberReads cr) 0 None).
Proof. rewrite lane_record_eq. cbn [Lane.samples]. apply get_set_same. Qed.

Lemma lane_record_ok path cr lane : lane_ok (lane, lane_record path cr).
Proof.
  split; cbn [snd].
  - rewrite get_undetermined_lane_record. discriminate.
  - rewrite lane_record_eq. cbn [Lane.samples]. apply Forall_set.
    + eapply Forall_impl; [|apply lane_record_samples_have_files; constructor].
      intros e H. now right.
    + now left.
Qed.

Lemma lane_record_samples_NoDup path cr :
  NoDup (keys (Lane.samples (lane_record path cr))).
Proof.
  rewrite lane_record_eq. cbn [Lane.samples].
  apply NoDup_keys_set, NoDup_keys_fold_set. constructor.
Qed.

Lemma run_data_ok runId s :
  tree_ok (bcl2fastq_data s) -> Forall lane_ok (run_data runId s).
Proof.
  intros T. unfold run_data. destruct (get runId (bcl2fastq_data s)) eqn:G; [|constructor].
  apply get_In in G. unfold tree_ok in T. rewrite Forall_forall in T.
  apply (T _ G).
Qed.

Lemma tree_ok_ingest_lane runId path cr s :
  tree_ok (bcl2fastq_data s) ->
  tree_ok (bcl2fastq_data (ingest_lane runId path cr s)).
Proof.
  intros T. rewrite ingest_lane_data. apply Forall_set; auto. cbn [snd].
  apply Forall_set; [now apply run_data_ok | apply lane_record_ok].
Qed.

Lemma log_ingest_lane_mono runId path cr s m :
  In m (log s) -> In m (log (ingest_lane runId path cr s)).
Proof. intros I. rewrite ingest_lane_log. apply in_or_app. now left. Qed.

Lemma ingest_lane_frame runId path cr s :
  bcl2fastq_bylane (ingest_lane runId path cr s) = bcl2fastq_bylane s /\
  bcl2fastq_bysample (ingest_lane runId path cr s) = bcl2fastq_bysample s /\
  source_files (ingest_lane runId path cr s) = source_files s /\
  report (ingest_lane runId path cr s) = report s.
Proof. unfold ingest_lane. destruct (contains _ _); destruct s; simpl; auto. Qed.

Lemma seen_ingest_lane runId path cr s r n :
  seen r n (ingest_lane runId path cr s) =
  if reports_lane r n (runId, path, cr) then true else seen r n s.
Proof.
  unfold seen, contains. rewrite !get_run_data, lookup_lane_ingest_lane.
  unfold reports_lane. cbn [fst snd].
  rewrite lane_name_eqb, (String.eqb_sym runId), (Z.eqb_sym n).
  now destruct (_ && _).
Qed.

Lemma reported_again_split runId n b pre e1 mid e2 post :
  reports_lane runId n e1 = true -> reports_lane runId n e2 = true ->
  reported_again runId n b (pre ++ e1 :: mid ++ e2 :: post) = true.
Proof.
  intros H1 H2.
  assert (M : reported_again runId n true (mid ++ e2 :: post) = true).
  { induction mid as [|e mid IH]; simpl.
    - now rewrite H2.
    - destruct (reports_lane runId n e); auto. }
  revert b. induction pre as [|e pre IH]; intros b; simpl.
  - rewrite H1, M. apply orb_true_r.
  - destruct (reports_lane runId n e); auto. rewrite IH. apply orb_true_r.
Qed.

Lemma last_write_unmatched runId n events before :
  (forall e, In e events -> reports_lane runId n e = false) ->
  last_write runId n events before = before.
Proof.
  unfold last_write. revert before.
  induction events as [|e events IH]; intros before H; simpl; auto.
  rewrite (H e) by now left. apply IH. intros e' I. apply H. now right.
Qed.

Section InvariantFacts.

Variable json_loads : string -> option Stats.

Lemma tree_ok_ingest_file myfile s :
  tree_ok (bcl2fastq_data s) ->
  tree_ok (bcl2fastq_data (ingest_file json_loads myfile s)).
Proof.
  intros T. unfold ingest_file. destruct (json_loads (f myfile)) as [content|].
  - assert (T1 : tree_ok (bcl2fastq_data
              (if contains (RunId content) (bcl2fastq_data s) then s
               else set_data (set (RunId content) [] (bcl2fastq_data s)) s))).
    { destruct (contains _ _); auto. destruct s; simpl in *.
      apply Forall_set; [exact T | constructor]. }
    revert T1. generalize (if contains (RunId content) (bcl2fastq_data s) then s
                else set_data (set (RunId content) [] (bcl2fastq_data s)) s).
    induction (ConversionResults content) as [|cr crs IH]; intros s1 T1; simpl; auto.
    apply IH. now apply tree_ok_ingest_lane.
  - destruct s; assumption.
Qed.

Lemma tree_ok_ingest_files files s :
  tree_ok (bcl2fastq_data s) ->
  tree_ok (bcl2fastq_data
             (fold_left (fun s myfile => ingest_file json_loads myfile s) files s)).
Proof.
  revert s. induction files as [|myfile files IH]; intros s T; simpl; auto.
  apply IH. now apply tree_ok_ingest_file.
Qed.

Lemma ingest_file_frame myfile s :
  bcl2fastq_bylane (ingest_file json_loads myfile s) = bcl2fastq_bylane s /\
  bcl2fastq_bysample (ingest_file json_loads myfile s) = bcl2fastq_bysample s /\
  source_files (ingest_file json_loads myfile s) = source_files s /\
  report (ingest_file json_loads myfile s) = report s.
Proof.
  unfold ingest_file. destruct (json_loads (f myfile)) as [content|].
  - assert (F1 : forall s1 : Self,
               bcl2fastq_bylane s1 = bcl2fastq_bylane s /\
               bcl2fastq_bysample s1 = bcl2fastq_bysample s /\
               source_files s1 = source_files s /\ report s1 = report s ->
               let s2 := fold_left
                 (fun s cr => ingest_lane (RunId content) (file_path myfile) cr s)
                 (ConversionResults content) s1 in
               bcl2fastq_bylane s2 = bcl2fastq_bylane s /\
               bcl2fastq_bysample s2 = bcl2fastq_bysample s /\
               source_files s2 = source_files s /\ report s2 = report s).
    { induction (ConversionResults content) as [|cr crs IH]; intros s1 H; simpl; auto.
      apply IH.
      destruct (ingest_lane_frame (RunId content) (file_path myfile) cr s1)
        as (-> & -> & -> & ->). exact H. }
    apply F1. destruct (contains _ _); destruct s; simpl; auto.
  - destruct s; simpl; auto.
Qed.

Lemma ingest_files_frame files s :
  let s' := fold_left (fun s myfile => ingest_file json_loads myfile s) files s in
  bcl2fastq_bylane s' = bcl2fastq_bylane s /\
  bcl2fastq_bysample s' = bcl2fastq_bysample s /\
  source_files s' = source_files s /\
  report s' = report s.
Proof.
  revert s. induction files as [|myfile files IH]; intros s; simpl; auto.
  destruct (IH (ingest_file json_loads myfile s)) as (-> & -> & -> & ->).
  apply ingest_file_frame.
Qed.

Lemma log_ingest_file_mono myfile s m :
  In m (log s) -> In m (log (ingest_file json_loads myfile s)).
Proof.
  intros I. unfold ingest_file. destruct (json_loads (f myfile)) as [content|].
  - assert (I1 : In m (log (if contains (RunId content) (bcl2fastq_data s) then s
               else set_data (set (RunId content) [] (bcl2fastq_data s)) s))).
    { destruct (contains _ _); destruct s; auto. }
    revert I1. generalize (if contains (RunId content) (bcl2fastq_data s) then s
                else set_data (set (RunId content) [] (bcl2fastq_data s)) s).
    induction (ConversionResults content) as [|cr crs IH]; intros s1 I1; simpl; auto.
    apply IH. now apply log_ingest_lane_mono.
  - destruct s; simpl in *. apply in_or_app. now left.
Qed.

Lemma log_ingest_files_mono files s m :
  In m (log s) ->
  In m (log (fold_left (fun s myfile => ingest_file json_loads myfile s) files s)).
Proof.
  revert s. induction files as [|myfile files IH]; intros s I; simpl; auto.
  apply IH. now apply log_ingest_file_mono.
Qed.

(** A run-lane reported again leaves the diagnostic of line 82 in the log. *)
Lemma duplicate_logged_lanes runId n r path crs rest s :
  reported_again runId n (seen runId n s)
    (map (fun cr => (r, path, cr)) crs ++ rest) = true ->
  let s' := fold_left (fun s cr => ingest_lane r path cr s) crs s in
  In (duplicate_message runId n) (log s') \/
  reported_again runId n (seen runId n s') rest = true.
Proof.
  revert s. induction crs as [|cr crs IH]; intros s H; cbn [fold_left]; auto.
  cbn [map app reported_again] in H.
  pose proof (seen_ingest_lane r path cr s runId n) as S.
  destruct (reports_lane runId n (r, path, cr)) eqn:R.
  - destruct (seen runId n s) eqn:Sn; simpl in H.
    + left.
      assert (I : In (duplicate_message runId n) (log (ingest_lane r path cr s))).
      { rewrite ingest_lane_log. apply in_or_app. right.
        unfold reports_lane in R. cbn [fst snd] in R.
        apply andb_true_iff in R. destruct R as [R1 R2].
        apply String.eqb_eq in R1. apply Z.eqb_eq in R2. subst r n.
        unfold seen in Sn. rewrite Sn. now left. }
      clear -I. revert I. generalize (ingest_lane r path cr s).
      induction crs as [|c crs IHc]; intros s1 I; simpl; auto.
      apply IHc. now apply log_ingest_lane_mono.
    + apply IH. now rewrite S.
  - apply IH. now rewrite S.
Qed.

Lemma duplicate_logged runId n files s :
  reported_again runId n (seen runId n s) (ingested json_loads files) = true ->
  In (duplicate_message runId n)
    (log (fold_left (fun s myfile => ingest_file json_loads myfile s) files s)).
Proof.
  revert s. induction files as [|myfile files IH]; intros s H; simpl in *.
  - discriminate.
  - unfold ingest_file, file_events in *.
    destruct (json_loads (f myfile)) as [content|].
    + set (s1 := if contains (RunId content) (bcl2fastq_data s) then s
                 else set_data (set (RunId content) [] (bcl2fastq_data s)) s) in *.
      assert (E : seen runId n s1 = seen runId n s).
      { unfold seen, contains. rewrite !get_run_data.
        unfold s1. now rewrite lookup_lane_ensure_run. }
      rewrite <- E in H.
      destruct (duplicate_logged_lanes _ _ _ _ _ _ _ H) as [I|R].
      * now apply log_ingest_files_mono.
      * now apply IH.
    + apply IH. simpl in H. destruct s; exact H.
Qed.

End InvariantFacts.

(** ** The reshape, run *)

Lemma for_each_run_In {A} (body : A -> M unit) (g : Self -> A -> Self) l s :
  (forall x, In x l -> forall s, body x s = (Ok tt, g s x)) ->
  for_each l body s = (Ok tt, fold_left g l s).
Proof.
  revert s. induction l as [|x l IH]; intros s H; simpl; auto.
  unfold bind. rewrite H by now left. apply IH. intros y I. apply H. now right.
Qed.

Lemma split_sample_run runId entry s :
  sample_ok entry ->
  split_sample runId entry s = (Ok tt, reshape_sample runId s entry).
Proof.
  destruct entry as [sample rec]. unfold sample_ok. simpl.
  unfold split_sample, reshape_sample, bysample_add, sources_add, bind, gets,
    when, modify, ret, raise.
  destruct s as [dt bl bs sf lg rp]. simpl.
  destruct (contains _ bs); simpl;
    destruct (String.eqb_spec sample "undetermined") as [->|N]; simpl;
    destruct (Sample.filename rec) as [path|]; simpl;
    try reflexivity; intros [H|H]; try congruence;
    destruct (contains _ sf); reflexivity.
Qed.

Lemma split_lane_run runId entry s :
  lane_ok entry ->
  split_lane runId entry s = (Ok tt, reshape_lane runId s entry).
Proof.
  destruct entry as [lane rec]. unfold lane_ok. simpl. intros [U F].
  unfold split_lane, reshape_lane, lane_counts, bind, modify, ret.
  destruct (get "undetermined" (Lane.samples rec)) as [u|]; [|congruence].
  simpl. apply for_each_run_In. intros x I s'. apply split_sample_run.
  rewrite Forall_forall in F. auto.
Qed.

Lemma split_run_run entry s :
  Forall lane_ok (snd entry) ->
  split_run entry s = (Ok tt, reshape_run s entry).
Proof.
  destruct entry as [runId lanes]. simpl. intros F.
  apply for_each_run_In. intros x I s'. apply split_lane_run.
  rewrite Forall_forall in F. auto.
Qed.

Lemma split_data_by_lane_and_sample_run s :
  tree_ok (bcl2fastq_data s) ->
  split_data_by_lane_and_sample s = (Ok tt, reshape s).
Proof.
  intros T. unfold split_data_by_lane_and_sample, reshape, bind, gets.
  apply for_each_run_In. intros x I s'. apply split_run_run.
  unfold tree_ok in T. rewrite Forall_forall in T. auto.
Qed.

(** *** What the reshape leaves alone, and what it writes *)

Lemma reshape_sample_frame runId s entry :
  bcl2fastq_data (reshape_sample runId s entry) = bcl2fastq_data s /\
  bcl2fastq_bylane (reshape_sample runId s entry) = bcl2fastq_bylane s /\
  log (reshape_sample runId s entry) = log s /\
  report (reshape_sample runId s entry) = report s.
Proof.
  destruct entry as [sample rec]. unfold reshape_sample.
  destruct (Sample.filename rec); destruct s; simpl; auto.
Qed.

Lemma reshape_sample_bysample runId s sample rec :
  bcl2fastq_bysample (reshape_sample runId s (sample, rec)) =
  bysample_add (prepend_runid runId sample) rec (bcl2fastq_bysample s).
Proof.
  unfold reshape_sample. destruct (Sample.filename rec); destruct s; reflexivity.
Qed.

Lemma reshape_samples_frame runId sd s :
  bcl2fastq_data (fold_left (reshape_sample runId) sd s) = bcl2fastq_data s /\
  bcl2fastq_bylane (fold_left (reshape_sample runId) sd s) = bcl2fastq_bylane s /\
  log (fold_left (reshape_sample runId) sd s) = log s /\
  report (fold_left (reshape_sample runId) sd s) = report s.
Proof.
  revert s. induction sd as [|e sd IH]; intros s; simpl; auto.
  destruct (IH (reshape_sample runId s e)) as (-> & -> & -> & ->).
  apply reshape_sample_frame.
Qed.

Lemma reshape_lane_frame runId s entry :
  bcl2fastq_data (reshape_lane runId s entry) = bcl2fastq_data s /\
  log (reshape_lane runId s entry) = log s /\
  report (reshape_lane runId s entry) = report s.
Proof.
  destruct entry as [lane rec]. unfold reshape_lane.
  destruct (reshape_samples_frame runId (Lane.samples rec)
              (set_bylane (set (prepend_runid runId lane) (lane_counts rec)
                             (bcl2fastq_bylane s)) s)) as (-> & _ & -> & ->).
  destruct s; auto.
Qed.

Lemma reshape_lanes_frame runId lanes s :
  bcl2fastq_data (fold_left (reshape_lane runId) lanes s) = bcl2fastq_data s /\
  log (fold_left (reshape_lane runId) lanes s) = log s /\
  report (fold_left (reshape_lane runId) lanes s) = report s.
Proof.
  revert s. induction lanes as [|e lanes IH]; intros s; simpl; auto.
  destruct (IH (reshape_lane runId s e)) as (-> & -> & ->).
  apply reshape_lane_frame.
Qed.

Lemma reshape_runs_frame data s :
  bcl2fastq_data (fold_left reshape_run data s) = bcl2fastq_data s /\
  log (fold_left reshape_run data s) = log s /\
  report (fold_left reshape_run data s) = report s.
Proof.
  revert s. induction data as [|[runId lanes] data IH]; intros s; simpl; auto.
  destruct (IH (fold_left (reshape_lane runId) lanes s)) as (-> & -> & ->).
  apply reshape_lanes_frame.
Qed.

Lemma reshape_frame s :
  bcl2fastq_data (reshape s) = bcl2fastq_data s /\
  log (reshape s) = log s /\ report (reshape s) = report s.
Proof. apply reshape_runs_frame. Qed.

Lemma get_bysample_add k key rec b :
  get k (bysample_add key rec b) =
  if String.eqb k key then Some (counts_plus (get key b) rec) else get k b.
Proof.
  unfold bysample_add. rewrite !get_alter.
  destruct (String.eqb_spec k key) as [->|N].
  - rewrite String.eqb_refl. unfold contains. destruct (get key b) as [c|] eqn:G.
    + rewrite G. reflexivity.
    + rewrite get_set_same. reflexivity.
  - destruct (String.eqb_spec key k); [congruence|].
    destruct (contains key b); [reflexivity|].
    apply get_set_other. congruence.
Qed.

(** After the samples of one lane: the entry of a sample of that lane has
    grown by its record, the other entries of the run are as before. *)
Lemma bysample_after_samples runId sd s x :
  NoDup (keys sd) ->
  get (prepend_runid runId x)
    (bcl2fastq_bysample (fold_left (reshape_sample runId) sd s)) =
  match get x sd with
  | Some rec =>
      Some (counts_plus (get (prepend_runid runId x) (bcl2fastq_bysample s)) rec)
  | None => get (prepend_runid runId x) (bcl2fastq_bysample s)
  end.
Proof.
  revert s. induction sd as [|[y r] sd IH]; intros s ND; simpl; auto.
  inversion ND as [|? ? NI ND']; subst.
  rewrite IH by assumption. rewrite reshape_sample_bysample, get_bysample_add.
  destruct (String.eqb_spec x y) as [->|N].
  - rewrite String.eqb_refl.
    apply get_None_keys in NI. now rewrite NI.
  - destruct (String.eqb_spec (prepend_runid runId x) (prepend_runid runId y)) as [E|_].
    + apply prepend_runid_inj in E. congruence.
    + reflexivity.
Qed.

Lemma bysample_after_lanes runId lanes s x :
  Forall (fun entry => NoDup (keys (Lane.samples (snd entry)))) lanes ->
  get (prepend_runid runId x)
    (bcl2fastq_bysample (fold_left (reshape_lane runId) lanes s)) =
  fold_left
    (fun acc entry =>
       match get x (Lane.samples (snd entry)) with
       | Some rec => Some (counts_plus acc rec)
       | None => acc
       end)
    lanes (get (prepend_runid runId x) (bcl2fastq_bysample s)).
Proof.
  revert s. induction lanes as [|[lane rec] lanes IH]; intros s F; simpl; auto.
  inversion F as [|? ? ND F']; subst. simpl in ND.
  rewrite IH by assumption. f_equal.
  unfold reshape_lane. rewrite bysample_after_samples by assumption.
  destruct s; reflexivity.
Qed.

Lemma reshape_lane_bylane runId s lane rec :
  bcl2fastq_bylane (reshape_lane runId s (lane, rec)) =
  set (prepend_runid runId lane) (lane_counts rec) (bcl2fastq_bylane s).
Proof.
  unfold reshape_lane.
  destruct (reshape_samples_frame runId (Lane.samples rec)
              (set_bylane (set (prepend_runid runId lane) (lane_counts rec)
                             (bcl2fastq_bylane s)) s)) as (_ & -> & _).
  destruct s; reflexivity.
Qed.

Lemma bylane_after_lanes runId lanes s l :
  NoDup (keys lanes) ->
  get (prepend_runid runId l)
    (bcl2fastq_bylane (fold_left (reshape_lane runId) lanes s)) =
  match get l lanes with
  | Some rec => Some (lane_counts rec)
  | None => get (prepend_runid runId l) (bcl2fastq_bylane s)
  end.
Proof.
  revert s. induction lanes as [|[y r] lanes IH]; intros s ND; simpl; auto.
  inversion ND as [|? ? NI ND']; subst.
  rewrite IH by assumption. rewrite reshape_lane_bylane, get_set.
  destruct (String.eqb_spec l y) as [->|N].
  - rewrite String.eqb_refl. apply get_None_keys in NI. now rewrite NI.
  - destruct (String.eqb_spec (prepend_runid runId l) (prepend_runid runId y)) as [E|_].
    + apply prepend_runid_inj in E. congruence.
    + reflexivity.
Qed.

(** ** Ingestion followed by the reshape *)

Section Pipeline.

Variable json_loads : string -> option Stats.

Lemma gathered_tree_ok files s : tree_ok (bcl2fastq_data (gathered json_loads files s)).
Proof.
  unfold gathered. apply tree_ok_ingest_files. destruct s; constructor.
Qed.

Lemma gather_collect_run files s :
  (gather json_loads files ;; collect) s =
  (Ok tt, reshape (collected (gathered json_loads files s))).
Proof.
  unfold bind. rewrite gather_run. fold (gathered json_loads files s).
  unfold collect, bind, modify.
  rewrite split_data_by_lane_and_sample_run; [reflexivity|].
  generalize (gathered_tree_ok files s).
  destruct (gathered json_loads files s); auto.
Qed.

Lemma ingest_lanes_single runId path crs s lanes :
  bcl2fastq_data s = [(runId, lanes)] ->
  bcl2fastq_data (fold_left (fun s cr => ingest_lane runId path cr s) crs s) =
  [(runId,
    fold_left
      (fun d cr => set (lane_name (LaneNumber cr)) (lane_record path cr) d)
      crs lanes)].
Proof.
  revert s lanes. induction crs as [|cr crs IH]; intros s lanes H; simpl; auto.
  apply IH. rewrite ingest_lane_data. unfold run_data. rewrite H. simpl.
  now rewrite String.eqb_refl.
Qed.

Lemma ingest_file_first myfile content s :
  json_loads (f myfile) = Some content ->
  bcl2fastq_data s = [] ->
  bcl2fastq_data (ingest_file json_loads myfile s) =
  [(RunId content,
    fold_left
      (fun d cr =>
         set (lane_name (LaneNumber cr)) (lane_record (file_path myfile) cr) d)
      (ConversionResults content) [])].
Proof.
  intros J H. unfold ingest_file. rewrite J, H. simpl.
  apply ingest_lanes_single. destruct s; reflexivity.
Qed.

Lemma ingest_file_same_run myfile content s lanes :
  json_loads (f myfile) = Some content ->
  bcl2fastq_data s = [(RunId content, lanes)] ->
  bcl2fastq_data (ingest_file json_loads myfile s) =
  [(RunId content,
    fold_left
      (fun d cr =>
         set (lane_name (LaneNumber cr)) (lane_record (file_path myfile) cr) d)
      (ConversionResults content) lanes)].
Proof.
  intros J H. unfold ingest_file. rewrite J, H. unfold contains. simpl.
  rewrite String.eqb_refl. now apply ingest_lanes_single.
Qed.

Lemma reshape_single_run s runId lanes :
  bcl2fastq_data s = [(runId, lanes)] ->
  reshape s = fold_left (reshape_lane runId) lanes s.
Proof. intros H. unfold reshape. now rewrite H. Qed.

Lemma collected_fields s :
  bcl2fastq_data (collected s) = bcl2fastq_data s /\
  bcl2fastq_bylane (collected s) = [] /\
  bcl2fastq_bysample (collected s) = [] /\
  source_files (collected s) = [] /\
  log (collected s) = log s /\ report (collected s) = report s.
Proof. destruct s; simpl; auto 10. Qed.

Lemma NoDup_lane_names (crs : list ConversionResult) :
  NoDup (map LaneNumber crs) ->
  NoDup (map (fun cr => lane_name (LaneNumber cr)) crs).
Proof.
  induction crs as [|cr crs IH]; simpl; intros ND; [constructor|].
  inversion ND as [|? ? NI ND']; subst. constructor; auto.
  intros I. apply NI. apply in_map_iff in I. destruct I as (c & E & I).
  apply lane_name_inj in E. rewrite <- E. now apply in_map.
Qed.

(** The by-lane record of a lane of a single report. *)
Lemma bylane_of_report myfile content s cr :
  json_loads (f myfile) = Some content ->
  NoDup (map LaneNumber (ConversionResults content)) ->
  In cr (ConversionResults content) ->
  get (prepend_runid (RunId content) (lane_name (LaneNumber cr)))
    (bcl2fastq_bylane (exec (gather json_loads [myfile] ;; collect) s)) =
  Some (lane_counts (lane_record (file_path myfile) cr)).
Proof.
  intros J ND I. unfold exec. rewrite gather_collect_run. cbn [snd].
  set (g := gathered json_loads [myfile] s).
  assert (D : bcl2fastq_data g =
              [(RunId content,
                fold_left
                  (fun d cr => set (lane_name (LaneNumber cr))
                                 (lane_record (file_path myfile) cr) d)
                  (ConversionResults content) [])]).
  { unfold g, gathered. cbn [fold_left].
    apply ingest_file_first; [assumption | destruct s; reflexivity]. }
  destruct (collected_fields g) as (Dc & Bc & _).
  rewrite (reshape_single_run _ _ _ (eq_trans Dc D)).
  rewrite bylane_after_lanes by (apply NoDup_keys_fold_set; constructor).
  rewrite get_fold_set. cbn [get].
  rewrite (last_assignment_unique
             (fun cr => lane_name (LaneNumber cr))
             (fun cr => lane_record (file_path myfile) cr)); auto.
  now apply NoDup_lane_names.
Qed.

Lemma lane_counts_lane_record path cr :
  lane_counts (lane_record path cr) =
  Counts.mk (sum_Z (map NumberReads (DemuxResults cr)))
    (sum_Z (map perfect_reads (DemuxResults cr)))
    (Some (Undetermined_NumberReads cr)).
Proof.
  unfold lane_counts. rewrite get_undetermined_lane_record.
  rewrite lane_record_eq. reflexivity.
Qed.

End Pipeline.

(** ** Files that do not parse *)

Lemma reshape_sample_set_log runId l s entry :
  reshape_sample runId (set_log l s) entry = set_log l (reshape_sample runId s entry).
Proof.
  destruct entry as [sample rec]. unfold reshape_sample.
  destruct (Sample.filename rec); destruct s; reflexivity.
Qed.

Lemma reshape_lane_set_log runId l s entry :
  reshape_lane runId (set_log l s) entry = set_log l (reshape_lane runId s entry).
Proof.
  destruct entry as [lane rec]. unfold reshape_lane.
  replace (set_bylane (set (prepend_runid runId lane) (lane_counts rec)
                         (bcl2fastq_bylane (set_log l s))) (set_log l s))
    with (set_log l (set_bylane (set (prepend_runid runId lane) (lane_counts rec)
                                   (bcl2fastq_bylane s)) s))
    by (destruct s; reflexivity).
  generalize (set_bylane (set (prepend_runid runId lane) (lane_counts rec)
                            (bcl2fastq_bylane s)) s).
  induction (Lane.samples rec) as [|e sd IH]; intros s1; simpl; auto.
  now rewrite reshape_sample_set_log, IH.
Qed.

Lemma reshape_run_set_log l s entry :
  reshape_run (set_log l s) entry = set_log l (reshape_run s entry).
Proof.
  destruct entry as [runId lanes]. simpl. revert s.
  induction lanes as [|e lanes IH]; intros s; simpl; auto.
  now rewrite reshape_lane_set_log, IH.
Qed.

Lemma reshape_set_log l s : reshape (set_log l s) = set_log l (reshape s).
Proof.
  unfold reshape.
  replace (bcl2fastq_data (set_log l s)) with (bcl2fastq_data s)
    by (destruct s; reflexivity).
  generalize (bcl2fastq_data s) as data. intros data. revert s.
  induction data as [|e data IH]; intros s; simpl; auto.
  now rewrite reshape_run_set_log, IH.
Qed.

Lemma ingest_lane_data_congr runId path cr s t :
  bcl2fastq_data s = bcl2fastq_data t ->
  bcl2fastq_data (ingest_lane runId path cr s) =
  bcl2fastq_data (ingest_lane runId path cr t).
Proof. intros E. rewrite !ingest_lane_data. unfold run_data. now rewrite E. Qed.

Section Unparsable.

Variable json_loads : string -> option Stats.

Lemma ingest_file_data_congr myfile s t :
  bcl2fastq_data s = bcl2fastq_data t ->
  bcl2fastq_data (ingest_file json_loads myfile s) =
  bcl2fastq_data (ingest_file json_loads myfile t).
Proof.
  intros E. unfold ingest_file. destruct (json_loads (f myfile)) as [content|].
  - assert (E1 : bcl2fastq_data
              (if contains (RunId content) (bcl2fastq_data s) then s
               else set_data (set (RunId content) [] (bcl2fastq_data s)) s) =
            bcl2fastq_data
              (if contains (RunId content) (bcl2fastq_data t) then t
               else set_data (set (RunId content) [] (bcl2fastq_data t)) t)).
    { rewrite E. destruct (contains _ _); [exact E | reflexivity]. }
    revert E1.
    generalize (if contains (RunId content) (bcl2fastq_data s) then s
                else set_data (set (RunId content) [] (bcl2fastq_data s)) s).
    generalize (if contains (RunId content) (bcl2fastq_data t) then t
                else set_data (set (RunId content) [] (bcl2fastq_data t)) t).
    induction (ConversionResults content) as [|cr crs IH]; intros t1 s1 E1; simpl; auto.
    apply IH. now apply ingest_lane_data_congr.
  - destruct s, t; assumption.
Qed.

Lemma ingest_files_data_congr files s t :
  bcl2fastq_data s = bcl2fastq_data t ->
  bcl2fastq_data (fold_left (fun s myfile => ingest_file json_loads myfile s) files s) =
  bcl2fastq_data (fold_left (fun s myfile => ingest_file json_loads myfile s) files t).
Proof.
  revert s t. induction files as [|myfile files IH]; intros s t E; simpl; auto.
  apply IH. now apply ingest_file_data_congr.
Qed.

Lemma ingest_file_unparsable myfile s :
  json_loads (f myfile) = None ->
  ingest_file json_loads myfile s = set_log (log s ++ [unparsable_message myfile]) s.
Proof. intros J. unfold ingest_file. now rewrite J. Qed.

(** The tree is the one the parseable files alone build. *)
Lemma gathered_data_filter files s :
  bcl2fastq_data (gathered json_loads files s) =
  bcl2fastq_data (gathered json_loads (filter (parseable json_loads) files) s).
Proof.
  unfold gathered. generalize (set_data [] s) as s1.
  induction files as [|myfile files IH]; intros s1; simpl; auto.
  unfold parseable at 1. destruct (json_loads (f myfile)) eqn:J; simpl.
  - apply IH.
  - rewrite <- IH. apply ingest_files_data_congr.
    rewrite ingest_file_unparsable by assumption. destruct s1; reflexivity.
Qed.

Lemma unparsable_logged files myfile s :
  In myfile files -> json_loads (f myfile) = None ->
  In (unparsable_message myfile)
    (log (fold_left (fun s myfile => ingest_file json_loads myfile s) files s)).
Proof.
  revert s. induction files as [|x files IH]; intros s I J; simpl; [destruct I|].
  destruct I as [->|I]; [|now apply IH].
  apply log_ingest_files_mono. rewrite ingest_file_unparsable by assumption.
  destruct s; simpl. apply in_or_app. right. now left.
Qed.

(** The views depend on the tree only. *)
Lemma reshape_collected_views s t :
  bcl2fastq_data s = bcl2fastq_data t ->
  bcl2fastq_bylane (reshape (collected s)) = bcl2fastq_bylane (reshape (collected t)) /\
  bcl2fastq_bysample (reshape (collected s)) = bcl2fastq_bysample (reshape (collected t)) /\
  source_files (reshape (collected s)) = source_files (reshape (collected t)).
Proof.
  intros E.
  assert (C : forall u, collected u =
                        set_report (report u)
                          (set_log (log u)
                             (mkSelf (bcl2fastq_data u) [] [] [] [] []))).
  { intros u. destruct u; reflexivity. }
  assert (R : forall r u, reshape (set_report r u) = set_report r (reshape u)).
  { intros r u. unfold reshape.
    replace (bcl2fastq_data (set_report r u)) with (bcl2fastq_data u)
      by (destruct u; reflexivity).
    generalize (bcl2fastq_data u) as data. intros data. revert u.
    induction data as [|[runId lanes] data IH]; intros u; simpl; auto.
    rewrite <- IH. f_equal. clear IH. revert u.
    induction lanes as [|[lane rec] lanes IH]; intros u; simpl; auto.
    rewrite <- IH. f_equal. clear IH. unfold reshape_lane.
    replace (set_bylane (set (prepend_runid runId lane) (lane_counts rec)
                           (bcl2fastq_bylane (set_report r u))) (set_report r u))
      with (set_report r (set_bylane (set (prepend_runid runId lane) (lane_counts rec)
                                        (bcl2fastq_bylane u)) u))
      by (destruct u; reflexivity).
    generalize (set_bylane (set (prepend_runid runId lane) (lane_counts rec)
                              (bcl2fastq_bylane u)) u).
    induction (Lane.samples rec) as [|[x r0] sd IH]; intros u1; simpl; auto.
    rewrite <- IH. f_equal. unfold reshape_sample.
    destruct (Sample.filename r0); destruct u1; reflexivity. }
  rewrite (C s), (C t), !R, !reshape_set_log, E.
  repeat split;
    destruct (reshape (mkSelf (bcl2fastq_data t) [] [] [] [] [])); reflexivity.
Qed.

End Unparsable.

(** ** Samples across lanes *)

Lemma fold_set_fresh {X V} (key : X -> string) (val : X -> V) xs (d : dict V) :
  NoDup (keys d ++ map key xs) ->
  fold_left (fun d x => set (key x) (val x) d) xs d =
  d ++ map (fun x => (key x, val x)) xs.
Proof.
  revert d. induction xs as [|x xs IH]; intros d ND; simpl.
  - now rewrite app_nil_r.
  - assert (G : get (key x) d = None).
    { apply get_None_keys. intros I.
      apply NoDup_remove_2 in ND. apply ND. apply in_or_app. now left. }
    rewrite set_fresh by assumption. rewrite IH.
    + now rewrite <- app_assoc.
    + unfold keys in *. rewrite map_app. simpl. now rewrite <- app_assoc.
Qed.

Lemma set_in_place {V} k (v v0 : V) (d1 d2 : dict V) :
  ~ In k (keys d1) -> set k v (d1 ++ (k, v0) :: d2) = d1 ++ (k, v) :: d2.
Proof.
  induction d1 as [|[k1 v1] d1 IH]; simpl; intros NI.
  - now rewrite String.eqb_refl.
  - destruct (String.eqb_spec k k1) as [->|N]; [tauto|].
    rewrite IH; auto.
Qed.

Lemma sum_Z_app l1 l2 : sum_Z (l1 ++ l2) = sum_Z l1 + sum_Z l2.
Proof. induction l1 as [|x l1 IH]; simpl; [reflexivity | rewrite IH; lia]. Qed.

Lemma get_sources_add k sample key path src :
  k <> key -> get k (sources_add sample key path src) = get k src.
Proof.
  intros N. unfold sources_add. destruct (String.eqb sample "undetermined"); auto.
  rewrite get_alter. destruct (String.eqb_spec k key); [contradiction|].
  destruct (contains key src); auto. apply get_set_other. congruence.
Qed.

Lemma sources_after_samples runId sd s :
  get (prepend_runid runId "undetermined")
    (source_files (fold_left (reshape_sample runId) sd s)) =
  get (prepend_runid runId "undetermined") (source_files s).
Proof.
  revert s. induction sd as [|[x r] sd IH]; intros s; simpl; auto.
  rewrite IH. unfold reshape_sample.
  destruct (Sample.filename r) as [path|]; [|destruct s; reflexivity].
  replace (source_files
             (set_source_files
                (sources_add x (prepend_runid runId x) path
                   (source_files
                      (set_bysample
                         (bysample_add (prepend_runid runId x) r (bcl2fastq_bysample s)) s)))
                (set_bysample
                   (bysample_add (prepend_runid runId x) r (bcl2fastq_bysample s)) s)))
    with (sources_add x (prepend_runid runId x) path (source_files s))
    by (destruct s; reflexivity).
  destruct (String.eqb_spec x "undetermined") as [->|N].
  - unfold sources_add. reflexivity.
  - apply get_sources_add. intros E. apply prepend_runid_inj in E. congruence.
Qed.

Lemma sources_after_lanes runId lanes s :
  get (prepend_runid runId "undetermined")
    (source_files (fold_left (reshape_lane runId) lanes s)) =
  get (prepend_runid runId "undetermined") (source_files s).
Proof.
  revert s. induction lanes as [|[lane rec] lanes IH]; intros s; simpl; auto.
  rewrite IH. unfold reshape_lane. rewrite sources_after_samples.
  destruct s; reflexivity.
Qed.

Lemma undetermined_across_lanes path crs c :
  fold_left
    (fun acc (entry : string * Lane.t) =>
       match get "undetermined" (Lane.samples (snd entry)) with
       | Some rec => Some (counts_plus acc rec)
       | None => acc
       end)
    (map (fun cr => (lane_name (LaneNumber cr), lane_record path cr)) crs)
    (Some c) =
  Some (Counts.mk (Counts.total c + sum_Z (map Undetermined_NumberReads crs))
          (Counts.perfectIndex c) (Counts.undetermined c)).
Proof.
  revert c. induction crs as [|cr crs IH]; intros c; cbn [map fold_left snd].
  - simpl. rewrite Z.add_0_r. now destruct c.
  - rewrite get_undetermined_lane_record, IH. simpl. f_equal. f_equal; lia.
Qed.

(** The by-sample entry after the lanes of a run: the sum of what the lanes
    contribute, once some lane has the sample. *)
Lemma contributions_from sample (lanes : dict Lane.t) c :
  fold_left
    (fun acc (entry : string * Lane.t) =>
       match get sample (Lane.samples (snd entry)) with
       | Some rec => Some (counts_plus acc rec)
       | None => acc
       end)
    lanes (Some c) =
  Some (Counts.mk
          (Counts.total c + sum_Z (map (sample_total_in sample) (values lanes)))
          (Counts.perfectIndex c + sum_Z (map (sample_perfect_in sample) (values lanes)))
          (Counts.undetermined c)).
Proof.
  revert c. induction lanes as [|[lane rec] lanes IH]; intros c; cbn [fold_left snd].
  - simpl. rewrite !Z.add_0_r. now destruct c.
  - unfold values in *. cbn [map snd sum_Z fold_right].
    unfold sample_total_in at 1, sample_perfect_in at 1.
    destruct (get sample (Lane.samples rec)) as [r|]; rewrite IH; simpl;
      f_equal; f_equal; unfold sum_Z; lia.
Qed.

Lemma contributions sample (lanes : dict Lane.t) :
  Exists (fun rec => get sample (Lane.samples rec) <> None) (values lanes) ->
  fold_left
    (fun acc (entry : string * Lane.t) =>
       match get sample (Lane.samples (snd entry)) with
       | Some rec => Some (counts_plus acc rec)
       | None => acc
       end)
    lanes None =
  Some (Counts.mk (sum_Z (map (sample_total_in sample) (values lanes)))
          (sum_Z (map (sample_perfect_in sample) (values lanes))) None).
Proof.
  induction lanes as [|[lane rec] lanes IH]; intros E; [inversion E|].
  cbn [fold_left snd]. unfold values in *. cbn [map snd sum_Z fold_right].
  unfold sample_total_in at 1, sample_perfect_in at 1.
  destruct (get sample (Lane.samples rec)) as [r|] eqn:G.
  - rewrite contributions_from. reflexivity.
  - rewrite IH; [reflexivity|].
    inversion E as [? ? H|? ? H]; subst; [congruence | exact H].
Qed.

Lemma filter_named_none sample (ds : list DemuxResult) :
  ~ In sample (map SampleName ds) ->
  filter (fun d => String.eqb (SampleName d) sample) ds = [].
Proof.
  induction ds as [|d ds IH]; simpl; auto.
  intros NI. destruct (String.eqb_spec (SampleName d) sample) as [E|N]; [tauto|].
  apply IH. tauto.
Qed.

(** With unique names, the record of a name in the samples mapping is that of
    its one [DemuxResults] entry. *)
Lemma contribution_of_lane path cr sample :
  sample <> "undetermined" ->
  NoDup (map SampleName (DemuxResults cr)) ->
  sample_total_in sample (lane_record path cr) = reads_of sample cr /\
  sample_perfect_in sample (lane_record path cr) = perfect_of sample cr /\
  (get sample (Lane.samples (lane_record path cr)) <> None <->
   In sample (map SampleName (DemuxResults cr))).
Proof.
  intros NU ND. unfold sample_total_in, sample_perfect_in, reads_of, perfect_of, named.
  rewrite lane_record_eq. cbn [Lane.samples].
  rewrite get_set_other by congruence. rewrite get_fold_set. cbn [get].
  destruct (in_dec string_dec sample (map SampleName (DemuxResults cr))) as [I|NI].
  - apply in_map_iff in I. destruct I as (d & E & I). subst sample.
    rewrite (last_assignment_unique SampleName (sample_record path)) by assumption.
    destruct (in_split _ _ I) as (pre & post & S). rewrite S in *.
    rewrite map_app in ND. cbn [map] in ND.
    assert (N1 : ~ In (SampleName d) (map SampleName pre)).
    { apply NoDup_remove_2 in ND. intros H. apply ND. apply in_or_app. now left. }
    assert (N2 : ~ In (SampleName d) (map SampleName post)).
    { apply NoDup_remove_2 in ND. intros H. apply ND. apply in_or_app. now right. }
    rewrite filter_app. cbn [filter]. rewrite String.eqb_refl.
    rewrite (filter_named_none _ pre N1), (filter_named_none _ post N2).
    simpl. repeat split; try lia; try discriminate.
    intros _. apply in_map. apply in_or_app. right. now left.
  - rewrite no_assignment by assumption.
    rewrite (filter_named_none _ _ NI). simpl. repeat split; tauto.
Qed.

(** ** Binary64: integers below [2^1023] convert to finite floats *)

Lemma digits2_pos_size p : digits2_pos p = Pos.size p.
Proof. induction p; simpl; congruence. Qed.

Lemma size_bounds p : 2 ^ (Zpos (Pos.size p) - 1) <= Zpos p < 2 ^ Zpos (Pos.size p).
Proof.
  pose proof (Pos.size_gt p) as G. pose proof (Pos.size_le p) as L.
  apply Pos2Z.pos_lt_pos in G. apply Pos2Z.pos_le_pos in L.
  rewrite Pos2Z.inj_pow in G, L. change (Z.pos p~0) with (2 * Z.pos p) in L.
  split; [|exact G].
  replace (Zpos (Pos.size p)) with (Z.succ (Zpos (Pos.size p) - 1)) in L by lia.
  rewrite Z.pow_succ_r in L by lia. lia.
Qed.

Lemma size_unique p n : 0 < n -> 2 ^ (n - 1) <= Zpos p < 2 ^ n -> Zpos (Pos.size p) = n.
Proof.
  intros Hn [L U]. destruct (size_bounds p) as [L' U'].
  assert (A : n - 1 < Zpos (Pos.size p)).
  { apply (Z.pow_lt_mono_r_iff 2); lia. }
  assert (B : Zpos (Pos.size p) - 1 < n).
  { apply (Z.pow_lt_mono_r_iff 2); lia. }
  lia.
Qed.

Lemma shr_m_shr_1 mrs : 0 <= shr_m mrs -> shr_m (shr_1 mrs) = shr_m mrs / 2.
Proof.
  destruct mrs as [m r s]. simpl. intros H.
  destruct m as [|[p|p|]|p]; simpl; try reflexivity; try lia.
  - rewrite Pos2Z.inj_xI. symmetry. rewrite Z.mul_comm, Z.add_comm.
    rewrite Z.div_add by lia. reflexivity.
  - rewrite Pos2Z.inj_xO. rewrite Z.mul_comm. now rewrite Z.div_mul by lia.
Qed.

Lemma shr_m_iter k : forall mrs, 0 <= shr_m mrs ->
  shr_m (iter_pos shr_1 k mrs) = shr_m mrs / 2 ^ Zpos k.
Proof.
  induction k as [k IH|k IH|]; intros mrs H; simpl iter_pos.
  - assert (H1 : 0 <= shr_m (shr_1 mrs)).
    { rewrite shr_m_shr_1 by assumption. apply Z.div_pos; lia. }
    assert (H2 : 0 <= shr_m (iter_pos shr_1 k (shr_1 mrs))).
    { rewrite IH by assumption. apply Z.div_pos; lia. }
    rewrite IH, IH, shr_m_shr_1 by assumption.
    rewrite !Z.div_div by lia.
    f_equal. change (Zpos k~1) with (2 * Zpos k + 1).
    replace (2 * Zpos k + 1) with (1 + Zpos k + Zpos k) by lia.
    rewrite !Z.pow_add_r by lia. lia.
  - assert (H2 : 0 <= shr_m (iter_pos shr_1 k mrs)).
    { rewrite IH by assumption. apply Z.div_pos; lia. }
    rewrite IH, IH by assumption.
    rewrite !Z.div_div by lia.
    f_equal. change (Zpos k~0) with (2 * Zpos k).
    replace (2 * Zpos k) with (Zpos k + Zpos k) by lia.
    rewrite !Z.pow_add_r by lia. lia.
  - rewrite shr_m_shr_1 by assumption. reflexivity.
Qed.

Lemma digits_iter_xO p k :
  Zpos (digits2_pos (Pos.iter xO p k)) = Zpos (digits2_pos p) + Zpos k.
Proof.
  induction k as [|k IH] using Pos.peano_ind.
  - simpl. lia.
  - rewrite Pos.iter_succ. simpl digits2_pos. lia.
Qed.

Lemma binary_round_aux_finish s m e l :
  binary_round_aux prec emax s m e l =
  let '(mrs', e') := shr_fexp prec emax m e l in
  finish s (shr_fexp prec emax
              (round_nearest_even (shr_m mrs') (loc_of_shr_record mrs')) e' loc_Exact).
Proof.
  unfold binary_round_aux, finish.
  destruct (shr_fexp prec emax m e l) as [mrs' e'].
  destruct (shr_fexp prec emax _ e' loc_Exact) as [mrs'' e'']. reflexivity.
Qed.

(** A mantissa of 53 or 54 bits needs at most one more shift. *)
Lemma finish_normal s q e :
  2 ^ 52 <= Zpos q <= 2 ^ 53 -> -1074 <= e <= 970 ->
  exists m e', finish s (shr_fexp prec emax (Zpos q) e loc_Exact) = S754_finite s m e'.
Proof.
  intros [L U] He.
  assert (C : Zpos q < 2 ^ 53 \/ Zpos q = 2 ^ 53) by lia.
  destruct C as [C|C].
  - assert (D : Zpos (digits2_pos q) = 53).
    { rewrite digits2_pos_size. apply size_unique; [lia|]. simpl Z.sub. lia. }
    unfold shr_fexp. cbn [Zdigits2]. rewrite D.
    replace (fexp prec emax (53 + e) - e) with 0
      by (unfold fexp, emin, prec, emax; lia).
    cbn [shr shr_record_of_loc finish shr_m].
    exists q, e.
    replace (e <=? emax - prec) with true; [reflexivity|].
    symmetry. apply Z.leb_le. unfold emax, prec. lia.
  - injection C as ->.
    unfold shr_fexp. cbn [Zdigits2 digits2_pos Pos.succ].
    replace (fexp prec emax (54 + e) - e) with 1
      by (unfold fexp, emin, prec, emax; lia).
    cbn [shr shr_record_of_loc iter_pos shr_1 finish shr_m orb].
    eexists _, (e + 1).
    replace (e + 1 <=? emax - prec) with true; [reflexivity|].
    symmetry. apply Z.leb_le. unfold emax, prec. lia.
Qed.

Lemma round_nearest_even_cases m l :
  round_nearest_even m l = m \/ round_nearest_even m l = m + 1.
Proof.
  unfold round_nearest_even. destruct l as [|[]]; auto. destruct (Z.even m); auto.
Qed.

Lemma binary_round_finite s p :
  Zpos p < 2 ^ 1023 -> exists m e, binary_round prec emax s p 0 = S754_finite s m e.
Proof.
  intros B. unfold binary_round.
  destruct (size_bounds p) as [L U]. rewrite <- digits2_pos_size in L, U.
  set (d := Zpos (digits2_pos p)) in *.
  assert (Hd : 1 <= d <= 1023).
  { split; [unfold d; lia|].
    assert (d - 1 < 1023) by (apply (Z.pow_lt_mono_r_iff 2); lia). lia. }
  destruct (Z_le_gt_dec d 53) as [Hs|Hb].
  - (* at most 53 bits: the conversion is exact *)
    replace (fexp prec emax (d + 0)) with (d - 53)
      by (unfold fexp, emin, prec, emax; lia).
    unfold shl_align.
    destruct (d - 53 - 0) as [|k|k] eqn:E; try lia.
    + rewrite binary_round_aux_finish.
      unfold shr_fexp at 1. cbn [Zdigits2]. fold d.
      replace (fexp prec emax (d + 0) - 0) with 0
        by (unfold fexp, emin, prec, emax; lia).
      cbn [shr shr_record_of_loc shr_m loc_of_shr_record round_nearest_even].
      apply finish_normal; [|lia].
      replace 53 with d by lia. replace 52 with (d - 1) by lia. lia.
    + rewrite binary_round_aux_finish.
      unfold shr_fexp at 1. cbn [Zdigits2]. rewrite digits_iter_xO. fold d.
      replace (fexp prec emax (d + Zpos k + (d - 53)) - (d - 53)) with 0
        by (unfold fexp, emin, prec, emax; lia).
      cbn [shr shr_record_of_loc shr_m loc_of_shr_record round_nearest_even].
      apply finish_normal; [|lia].
      assert (I : Zpos (Pos.iter xO p k) = Zpos p * 2 ^ Zpos k).
      { clear. induction k as [|k IH] using Pos.peano_ind.
        - simpl. lia.
        - rewrite Pos.iter_succ. change (Zpos (Pos.iter xO p k)~0) with (2 * Zpos (Pos.iter xO p k)).
          rewrite IH, Pos2Z.inj_succ, Z.pow_succ_r by lia. lia. }
      rewrite I.
      replace 53 with (d + Zpos k) by lia. replace 52 with (d - 1 + Zpos k) by lia.
      rewrite !Z.pow_add_r by lia. nia.
  - (* more than 53 bits: rounded to 53 bits *)
    replace (fexp prec emax (d + 0)) with (d - 53)
      by (unfold fexp, emin, prec, emax; lia).
    unfold shl_align.
    destruct (d - 53 - 0) as [|k|k] eqn:E; try lia.
    rewrite binary_round_aux_finish.
    unfold shr_fexp at 1. cbn [Zdigits2]. fold d.
    replace (fexp prec emax (d + 0) - 0) with (Zpos k)
      by (unfold fexp, emin, prec, emax; lia).
    cbn [shr shr_record_of_loc].
    set (mrs := iter_pos shr_1 k {| shr_m := Zpos p; shr_r := false; shr_s := false |}).
    assert (M : shr_m mrs = Zpos p / 2 ^ Zpos k).
    { unfold mrs. rewrite shr_m_iter; simpl; [reflexivity | lia]. }
    assert (R : 2 ^ 52 <= shr_m mrs < 2 ^ 53).
    { rewrite M. split.
      - apply Z.div_le_lower_bound; [lia|].
        rewrite <- Z.pow_add_r by lia. replace (Zpos k + 52) with (d - 1) by lia. lia.
      - apply Z.div_lt_upper_bound; [lia|].
        rewrite <- Z.pow_add_r by lia. replace (Zpos k + 53) with d by lia. lia. }
    destruct (round_nearest_even_cases (shr_m mrs) (loc_of_shr_record mrs)) as [-> | ->].
    + destruct (shr_m mrs) as [|q|q] eqn:Q; try lia.
      apply finish_normal; lia.
    + destruct (shr_m mrs + 1) as [|q|q] eqn:Q; try lia.
      apply finish_normal; lia.
Qed.

Lemma float_of_int_finite z :
  z <> 0 -> Z.abs z < 2 ^ 1023 ->
  exists s m e,
    binary_normalize prec emax z 0 false = S754_finite s m e /\
    float_of_int z = Ok (S754_finite s m e).
Proof.
  intros N B. unfold float_of_int.
  destruct z as [|p|p]; [congruence| |]; cbn [binary_normalize].
  - destruct (binary_round_finite false p) as (m & e & ->); [lia|]. eauto.
  - destruct (binary_round_finite true p) as (m & e & ->); [lia|]. eauto.
Qed.

Lemma perfectPercent_in_range perfectIndex total :
  Z.abs perfectIndex < 2 ^ 1023 -> Z.abs total < 2 ^ 1023 ->
  perfectPercent perfectIndex total =
  if total =? 0 then Raise ZeroDivisionError
  else Ok (percent_string perfectIndex total).
Proof.
  intros Bp Bt. unfold perfectPercent, percent_string.
  assert (P : exists x, float_of_int perfectIndex = Ok x /\
                        binary_normalize prec emax perfectIndex 0 false = x).
  { destruct (Z.eq_dec perfectIndex 0) as [->|N].
    - eexists. split; reflexivity.
    - destruct (float_of_int_finite perfectIndex N Bp) as (s & m & e & E1 & E2).
      eauto. }
  destruct P as (x & -> & ->).
  destruct (Z.eqb_spec total 0) as [->|N].
  - reflexivity.
  - destruct (float_of_int_finite total N Bt) as (s & m & e & -> & ->).
    reflexivity.
Qed.

Lemma perfectPercent_raises perfectIndex total e :
  perfectPercent perfectIndex total = Raise e ->
  e = ZeroDivisionError \/ e = OverflowError.
Proof.
  unfold perfectPercent, float_of_int.
  destruct (binary_normalize prec emax perfectIndex 0 false);
    destruct (binary_normalize prec emax total 0 false);
    intros [= <-]; auto.
Qed.

Lemma general_stats_data_raises bysample e :
  general_stats_data bysample = Raise e ->
  e = ZeroDivisionError \/ e = OverflowError.
Proof.
  induction bysample as [|[key c] rest IH]; simpl; [discriminate|].
  destruct (perfectPercent _ _) eqn:P.
  - destruct (general_stats_data rest); [discriminate|]. intros [= <-]. auto.
  - intros [= <-]. now apply perfectPercent_raises in P.
Qed.

Lemma general_stats_data_in_range bysample :
  Forall in_float_range bysample ->
  (general_stats_data bysample = Raise ZeroDivisionError <->
   Exists (fun entry => Counts.total (snd entry) = 0) bysample) /\
  (Forall (fun entry => Counts.total (snd entry) <> 0) bysample ->
   general_stats_data bysample = Ok (map stats_row bysample)) /\
  (forall e, general_stats_data bysample = Raise e -> e = ZeroDivisionError).
Proof.
  induction 1 as [|[key c] rest [Bt Bp] F IH]; simpl.
  - repeat split; try discriminate; auto. intros E. inversion E.
  - cbn [snd] in Bt, Bp. rewrite (perfectPercent_in_range _ _ Bp Bt).
    destruct IH as (IH1 & IH2 & IH3).
    destruct (Z.eqb_spec (Counts.total c) 0) as [Z|N].
    + split; [|split].
      * split; [intros _; now left | reflexivity].
      * intros A. inversion A; subst. cbn [snd] in *. congruence.
      * now intros e [= <-].
    + split; [|split].
      * split.
        -- destruct (general_stats_data rest) eqn:G; [discriminate|].
           intros [= ->]. right. now apply IH1.
        -- intros E. inversion E as [? ? Hz|? ? Hr]; subst; [cbn [snd] in Hz; congruence|].
           apply IH1 in Hr. now rewrite Hr.
      * intros A. inversion A as [|? ? _ A']; subst.
        rewrite (IH2 A'). reflexivity.
      * intros e. destruct (general_stats_data rest) eqn:G; [discriminate|].
        intros [= <-]. now apply IH3.
Qed.

(** The formatter on a few quotients, as CPython prints them: 0.05 and 0.15
    are not binary64 numbers (the nearest ones are above and below), 0.25 is
    one and the tie goes to the even digit. *)
Lemma perfectPercent_examples :
  perfectPercent 1 3 = Ok "33.3" /\
  perfectPercent 2 3 = Ok "66.7" /\
  perfectPercent 1 2000 = Ok "0.1" /\
  perfectPercent 3 2000 = Ok "0.1" /\
  perfectPercent 1 400 = Ok "0.2" /\
  perfectPercent 7 7 = Ok "100.0" /\
  perfectPercent 5 0 = Raise ZeroDivisionError /\
  perfectPercent (2 ^ 1024) 1 = Raise OverflowError.
Proof. vm_compute. repeat split. Qed.

(** ** The constructor, run *)

Lemma for_each_ext {A} (b1 b2 : A -> M unit) l s :
  (forall x s, b1 x s = b2 x s) -> for_each l b1 s = for_each l b2 s.
Proof.
  intros H. revert s. induction l as [|x l IH]; intros s; simpl; auto.
  unfold bind. rewrite H. destruct (b2 x s) as [[[]|e] s']; auto.
Qed.

Lemma emit_each_run {A} (o : A -> output) l s :
  for_each l (fun x => emit (o x)) s =
  (Ok tt, set_report (report s ++ map o l) s).
Proof.
  revert s. induction l as [|x l IH]; intros s; simpl.
  - rewrite app_nil_r. destruct s; reflexivity.
  - unfold bind, emit at 1, modify. rewrite IH. destruct s; simpl.
    now rewrite <- app_assoc.
Qed.

Section Constructor.

Variable json_loads : string -> option Stats.
Variable ignore_samples : dict Counts.t -> dict Counts.t.
Variables analysis_dir read_count_prefix : string.

Lemma add_general_stats_run s :
  add_general_stats read_count_prefix s =
  match general_stats_data (bcl2fastq_bysample s) with
  | Ok data =>
      (Ok tt,
       set_report (report s ++ [general_stats_addcols data (headers read_count_prefix)]) s)
  | Raise e => (Raise e, s)
  end.
Proof.
  unfold add_general_stats, bind, gets, lift, emit, modify.
  now destruct (general_stats_data (bcl2fastq_bysample s)).
Qed.

Lemma produce_run s :
  produce read_count_prefix s =
  match general_stats_data (bcl2fastq_bysample s) with
  | Ok data =>
      (Ok tt,
       set_report
         (report s ++ data_sources s
          ++ general_stats_addcols data (headers read_count_prefix)
          :: exports_and_sections s) s)
  | Raise e => (Raise e, set_report (report s ++ data_sources s) s)
  end.
Proof.
  unfold produce. unfold bind at 1. unfold gets at 1.
  unfold bind at 1.
  rewrite (for_each_ext _
             (fun entry => emit (add_data_source (fst entry)
                                   (nodup string_dec (snd entry)))))
    by (intros [? ?] ?; reflexivity).
  rewrite emit_each_run. fold (data_sources s).
  unfold bind at 1. rewrite add_general_stats_run.
  replace (bcl2fastq_bysample (set_report (report s ++ data_sources s) s))
    with (bcl2fastq_bysample s) by (destruct s; reflexivity).
  destruct (general_stats_data (bcl2fastq_bysample s)) as [data|e]; [|reflexivity].
  unfold bind, gets, emit, modify, exports_and_sections.
  destruct s; simpl. rewrite <- !app_assoc. reflexivity.
Qed.

Lemma MultiqcModule_init_run files s :
  MultiqcModule_init json_loads ignore_samples analysis_dir read_count_prefix files s =
  let sf := filtered json_loads ignore_samples files s in
  if (len (bcl2fastq_bylane sf) =? 0) && (len (bcl2fastq_bysample sf) =? 0)
  then (Raise UserWarning,
        set_log (log sf ++ [(DEBUG,
                             ("Could not find any bcl2fastq data in "
                              ++ analysis_dir)%string)]) sf)
  else produce read_count_prefix sf.
Proof.
  unfold MultiqcModule_init.
  unfold bind at 1. rewrite gather_run. fold (gathered json_loads files s).
  unfold bind at 1.
  assert (C : collect (gathered json_loads files s) =
              (Ok tt, reshape (collected (gathered json_loads files s)))).
  { unfold collect, bind, modify.
    rewrite split_data_by_lane_and_sample_run; [reflexivity|].
    generalize (gathered_tree_ok json_loads files s).
    destruct (gathered json_loads files s); auto. }
  rewrite C. unfold bind, modify, gets, when. cbn zeta.
  fold (filtered json_loads ignore_samples files s).
  replace (set_bysample
             (ignore_samples
                (bcl2fastq_bysample
                   (set_bylane
                      (ignore_samples
                         (bcl2fastq_bylane
                            (reshape (collected (gathered json_loads files s)))))
                      (reshape (collected (gathered json_loads files s))))))
             (set_bylane
                (ignore_samples
                   (bcl2fastq_bylane
                      (reshape (collected (gathered json_loads files s)))))
                (reshape (collected (gathered json_loads files s)))))
    with (filtered json_loads ignore_samples files s)
    by (unfold filtered;
        destruct (reshape (collected (gathered json_loads files s))); reflexivity).
  destruct ((len (bcl2fastq_bylane (filtered json_loads ignore_samples files s)) =? 0)
            && (len (bcl2fastq_bysample (filtered json_loads ignore_samples files s)) =? 0)).
  - unfold log_debug, raise, modify. reflexivity.
  - unfold ret. destruct (produce read_count_prefix _) as [[[]|e] s']; reflexivity.
Qed.

End Constructor.

(** ** The properties of the specification *)

Section Properties.

Variable json_loads : string -> option Stats.
Variable ignore_samples : dict Counts.t -> dict Counts.t.
Variables analysis_dir read_count_prefix : string.

(** C1. The end-to-end example: for a single file whose report has RunId
    "RUN1", one lane 1 with 10 undetermined reads and one sample "S1" of
    100 reads, 90 of them without index mismatch, ingestion followed by the
    reshape succeeds and yields exactly the by-lane mapping
    "RUN1 - L1" -> (100, 90, undetermined 10) and the by-sample mapping
    "RUN1 - S1" -> (100, 90), "RUN1 - undetermined" -> (10, 0). *)
Theorem C1_end_to_end_example (myfile : logfile) :
  json_loads (f myfile) = Some example_stats ->
  let run := (gather json_loads [myfile] ;; collect) in
  outcome run new_self = Ok tt /\
  bcl2fastq_bylane (exec run new_self) =
    [("RUN1 - L1", Counts.mk 100 90 (Some 10))] /\
  bcl2fastq_bysample (exec run new_self) =
    [("RUN1 - S1", Counts.mk 100 90 None);
     ("RUN1 - undetermined", Counts.mk 10 0 None)].
Proof.
  intros J run. unfold run, outcome, exec. rewrite gather_collect_run.
  unfold gathered. cbn [fold_left]. unfold ingest_file. rewrite J.
  repeat split.
Qed.

(** C2. For a report whose lanes have distinct numbers and every lane of
    it, the by-lane record has as total the sum of NumberReads over the
    lane's DemuxResults entries only (and as perfectIndex the sum of their
    zero-mismatch counts); the undetermined reads are not part of the
    total, they are the record's separate undetermined field. *)
Theorem C2_bylane_total_excludes_undetermined
    (myfile : logfile) (content : Stats) (cr : ConversionResult) :
  json_loads (f myfile) = Some content ->
  NoDup (map LaneNumber (ConversionResults content)) ->
  In cr (ConversionResults content) ->
  let run := (gather json_loads [myfile] ;; collect) in
  outcome run new_self = Ok tt /\
  get (prepend_runid (RunId content) (lane_name (LaneNumber cr)))
    (bcl2fastq_bylane (exec run new_self)) =
  Some (Counts.mk (sum_Z (map NumberReads (DemuxResults cr)))
          (sum_Z (map perfect_reads (DemuxResults cr)))
          (Some (Undetermined_NumberReads cr))).
Proof.
  intros J ND I run. split.
  - unfold run, outcome. now rewrite gather_collect_run.
  - unfold run. rewrite (bylane_of_report json_loads myfile content); auto.
    now rewrite lane_counts_lane_record.
Qed.

(** C3.  Two files with the same RunId report lanes with pairwise distinct
    lane numbers.  For a sample name that occurs in the lanes, the by-sample
    entry under "<RunId> - <sampleName>" has total and perfectIndex equal to
    the sums, over the lanes of both files, of what each lane contributes:
    the counts of the sample's record in that lane's samples mapping (nothing
    for a lane without the sample).  When sample names are unique within
    every lane and the name is not the synthetic "undetermined", the
    contribution of a lane is the NumberReads and the zero-mismatch count of
    its DemuxResults entry of that name. *)
Theorem C3_bysample_sums_over_lanes
    (file1 file2 : logfile) (c1 c2 : Stats) (sample : string) :
  json_loads (f file1) = Some c1 ->
  json_loads (f file2) = Some c2 ->
  RunId c1 = RunId c2 ->
  NoDup (map LaneNumber (ConversionResults c1 ++ ConversionResults c2)) ->
  let run := (gather json_loads [file1; file2] ;; collect) in
  let merged :=
    get (prepend_runid (RunId c1) sample) (bcl2fastq_bysample (exec run new_self)) in
  let lanes := ConversionResults c1 ++ ConversionResults c2 in
  let records :=
    map (lane_record (file_path file1)) (ConversionResults c1)
    ++ map (lane_record (file_path file2)) (ConversionResults c2) in
  (Exists (fun rec => get sample (Lane.samples rec) <> None) records ->
   merged = Some (Counts.mk (sum_Z (map (sample_total_in sample) records))
                    (sum_Z (map (sample_perfect_in sample) records)) None)) /\
  (sample <> "undetermined" ->
   Forall (fun cr => NoDup (map SampleName (DemuxResults cr))) lanes ->
   Exists (fun cr => In sample (map SampleName (DemuxResults cr))) lanes ->
   merged = Some (Counts.mk (sum_Z (map (reads_of sample) lanes))
                    (sum_Z (map (perfect_of sample) lanes)) None)).
Proof.
  intros J1 J2 R ND run merged lanes records.
  set (entry1 := fun cr => (lane_name (LaneNumber cr), lane_record (file_path file1) cr)).
  set (entry2 := fun cr => (lane_name (LaneNumber cr), lane_record (file_path file2) cr)).
  assert (NDn : NoDup (map (fun cr => lane_name (LaneNumber cr)) (ConversionResults c1)
                       ++ map (fun cr => lane_name (LaneNumber cr)) (ConversionResults c2))).
  { rewrite <- map_app. now apply NoDup_lane_names. }
  assert (M : Exists (fun rec => get sample (Lane.samples rec) <> None) records ->
              merged = Some (Counts.mk (sum_Z (map (sample_total_in sample) records))
                               (sum_Z (map (sample_perfect_in sample) records)) None)).
  { intros E. unfold merged, run, exec. rewrite gather_collect_run. cbn [snd].
    set (g := gathered json_loads [file1; file2] new_self).
    assert (D : bcl2fastq_data g =
                [(RunId c1, map entry1 (ConversionResults c1)
                            ++ map entry2 (ConversionResults c2))]).
    { unfold g, gathered. cbn [fold_left]. rewrite R.
      rewrite (ingest_file_same_run json_loads file2 c2 _
                 (map entry1 (ConversionResults c1)) J2).
      - rewrite fold_set_fresh; [reflexivity|].
        unfold keys, entry1. rewrite map_map. exact NDn.
      - rewrite <- R.
        rewrite (ingest_file_first json_loads file1 c1 (set_data [] new_self) J1 eq_refl).
        rewrite fold_set_fresh; [reflexivity|]. cbn [keys map app].
        apply NoDup_app_remove_r in NDn. exact NDn. }
    destruct (collected_fields g) as (Dc & _ & Bc & _).
    rewrite (reshape_single_run _ _ _ (eq_trans Dc D)).
    assert (V : values (map entry1 (ConversionResults c1)
                        ++ map entry2 (ConversionResults c2)) = records).
    { unfold values, records, entry1, entry2. now rewrite map_app, !map_map. }
    rewrite bysample_after_lanes.
    - rewrite Bc. cbn [get]. rewrite contributions; rewrite V; auto.
    - apply Forall_forall. intros e Ie. apply in_app_or in Ie.
      destruct Ie as [Ie|Ie]; apply in_map_iff in Ie; destruct Ie as (c & <- & _);
        apply lane_record_samples_NoDup. }
  split; [exact M|].
  intros NU U P.
  assert (T : forall path crs,
             Forall (fun cr => NoDup (map SampleName (DemuxResults cr))) crs ->
             map (sample_total_in sample) (map (lane_record path) crs) =
               map (reads_of sample) crs /\
             map (sample_perfect_in sample) (map (lane_record path) crs) =
               map (perfect_of sample) crs).
  { intros path crs F. induction F as [|cr crs H F IH]; simpl; auto.
    destruct IH as [-> ->].
    destruct (contribution_of_lane path cr sample NU H) as (-> & -> & _). auto. }
  unfold lanes in U. apply Forall_app in U. destruct U as [U1 U2].
  destruct (T (file_path file1) _ U1) as [T1 P1].
  destruct (T (file_path file2) _ U2) as [T2 P2].
  rewrite M.
  - unfold records, lanes. rewrite !map_app, T1, T2, P1, P2. reflexivity.
  - unfold records. unfold lanes in P. apply Exists_app in P. apply Exists_app.
    destruct P as [P|P]; [left|right]; apply Exists_exists in P;
      destruct P as (cr & I & S); apply Exists_exists;
      [exists (lane_record (file_path file1) cr) | exists (lane_record (file_path file2) cr)];
      (split; [now apply in_map|]).
    + rewrite Forall_forall in U1.
      now apply (contribution_of_lane (file_path file1) cr sample NU (U1 _ I)).
    + rewrite Forall_forall in U2.
      now apply (contribution_of_lane (file_path file2) cr sample NU (U2 _ I)).
Qed.

(** C4. Last write wins: when two ingested ConversionResults entries carry
    the same RunId and lane number, in one file or in two, and no later
    entry does, then after ingestion the record of that run-lane (total,
    perfectIndex and samples) is the one built from the second entry alone,
    and the log has the diagnostic that names the qualified run-lane key. *)
Theorem C4_duplicate_lane_last_write_wins
    (files : list logfile) (runId : string) (n : Z)
    (pre mid post : list (string * string * ConversionResult))
    (path1 path2 : string) (cr1 cr2 : ConversionResult) :
  ingested json_loads files =
    pre ++ (runId, path1, cr1) :: mid ++ (runId, path2, cr2) :: post ->
  LaneNumber cr1 = n -> LaneNumber cr2 = n ->
  (forall e, In e post -> reports_lane runId n e = false) ->
  let s := exec (gather json_loads files) new_self in
  lookup_lane runId (lane_name n) (bcl2fastq_data s) = Some (lane_record path2 cr2) /\
  In (DEBUG,
      ("Duplicate runId/lane combination found! Overwriting: "
       ++ runId ++ " - L" ++ str_of_int n)%string) (log s).
Proof.
  intros E N1 N2 P s. unfold s, exec. rewrite gather_run. cbn [snd].
  assert (M1 : reports_lane runId n (runId, path1, cr1) = true).
  { unfold reports_lane. cbn [fst snd]. rewrite String.eqb_refl, N1. apply Z.eqb_refl. }
  assert (M2 : reports_lane runId n (runId, path2, cr2) = true).
  { unfold reports_lane. cbn [fst snd]. rewrite String.eqb_refl, N2. apply Z.eqb_refl. }
  split.
  - rewrite lookup_lane_ingest_files, E.
    rewrite last_write_app. cbn [app].
    change ((runId, path1, cr1) :: mid ++ (runId, path2, cr2) :: post)
      with (((runId, path1, cr1) :: mid) ++ (runId, path2, cr2) :: post).
    rewrite last_write_app.
    change ((runId, path2, cr2) :: post) with ([(runId, path2, cr2)] ++ post).
    rewrite last_write_app, (last_write_unmatched _ _ post) by assumption.
    unfold last_write at 1. cbn [fold_left]. now rewrite M2.
  - change (In (duplicate_message runId n)
              (log (fold_left (fun s myfile => ingest_file json_loads myfile s)
                      files (set_data [] new_self)))).
    apply duplicate_logged. rewrite E. now apply reported_again_split.
Qed.

(** C5 (amended).  The general-statistics computation raises nothing but
    ZeroDivisionError and OverflowError.  On a by-sample mapping whose counts
    are below 2^1023 in magnitude (so that they convert to binary64), it
    raises ZeroDivisionError if and only if some sample of the mapping has
    total 0; when all totals are positive it succeeds and hands over, for
    each sample, its total and the binary64 quotient
    100.0 * perfectIndex / total formatted with one digit after the point;
    total 200 with perfectIndex 150 renders as "75.0". *)
Theorem C5_general_stats_division_by_zero (s : Self) :
  (forall e, outcome (add_general_stats read_count_prefix) s = Raise e ->
     e = ZeroDivisionError \/ e = OverflowError) /\
  (Forall in_float_range (bcl2fastq_bysample s) ->
   (outcome (add_general_stats read_count_prefix) s = Raise ZeroDivisionError <->
    Exists (fun entry => Counts.total (snd entry) = 0) (bcl2fastq_bysample s)) /\
   (Forall (fun entry => 0 < Counts.total (snd entry)) (bcl2fastq_bysample s) ->
    outcome (add_general_stats read_count_prefix) s = Ok tt /\
    report (exec (add_general_stats read_count_prefix) s) =
      report s ++ [general_stats_addcols (map stats_row (bcl2fastq_bysample s))
                     (headers read_count_prefix)])) /\
  percent_string 150 200 = "75.0".
Proof.
  unfold outcome, exec. rewrite add_general_stats_run.
  split; [|split].
  - intros e. destruct (general_stats_data (bcl2fastq_bysample s)) eqn:G; simpl.
    + discriminate.
    + intros [= <-]. now apply general_stats_data_raises in G.
  - intros R. destruct (general_stats_data_in_range _ R) as (I & P & _).
    split.
    + rewrite <- I. destruct (general_stats_data (bcl2fastq_bysample s)); simpl.
      * split; discriminate.
      * split; congruence.
    + intros Pos. rewrite P.
      * destruct s; simpl. auto.
      * eapply Forall_impl; [|exact Pos]. simpl. intros e H. lia.
  - vm_compute. reflexivity.
Qed.

(** C6 (amended).  When both the by-lane and the by-sample mapping are empty
    after the ignore filter, the constructor raises UserWarning (the host's
    signal for "nothing to report") after a debug message, and has handed
    nothing to the host: no section, no general-statistics column, no
    data-file export.  When one of them is not empty, it does not raise
    UserWarning and goes on to the output phase: it registers the data
    sources and computes the general statistics; when these are computed it
    returns normally, having added the general-statistics columns, both
    exports and both sections; when their computation raises, that error
    ends the constructor and the data sources are all the host has got. *)
Theorem C6_nothing_to_report (files : list logfile) :
  let sf := filtered json_loads ignore_samples files new_self in
  let run :=
    MultiqcModule_init json_loads ignore_samples analysis_dir read_count_prefix files in
  (bcl2fastq_bylane sf = [] -> bcl2fastq_bysample sf = [] ->
   outcome run new_self = Raise UserWarning /\
   report (exec run new_self) = [] /\
   In (DEBUG, ("Could not find any bcl2fastq data in " ++ analysis_dir)%string)
     (log (exec run new_self))) /\
  (bcl2fastq_bylane sf <> [] \/ bcl2fastq_bysample sf <> [] ->
   run new_self = produce read_count_prefix sf /\
   outcome run new_self <> Raise UserWarning /\
   match general_stats_data (bcl2fastq_bysample sf) with
   | Ok data =>
       outcome run new_self = Ok tt /\
       report (exec run new_self) =
         data_sources sf
         ++ general_stats_addcols data (headers read_count_prefix)
         :: exports_and_sections sf
   | Raise e =>
       outcome run new_self = Raise e /\
       report (exec run new_self) = data_sources sf
   end).
Proof.
  intros sf run.
  assert (Rp : report sf = []).
  { unfold sf, filtered.
    destruct (reshape_frame (collected (gathered json_loads files new_self)))
      as (_ & _ & Rr).
    destruct (collected_fields (gathered json_loads files new_self))
      as (_ & _ & _ & _ & _ & Rc).
    destruct (ingest_files_frame json_loads files (set_data [] new_self))
      as (_ & _ & _ & Rg).
    fold (gathered json_loads files new_self) in Rg.
    rewrite Rc, Rg in Rr. simpl in Rr.
    destruct (reshape (collected (gathered json_loads files new_self))); exact Rr. }
  unfold run, outcome, exec. rewrite MultiqcModule_init_run. cbn zeta. fold sf.
  clearbody sf. clear run.
  destruct sf as [dt bl bs sf lg rp]. simpl in Rp. subst rp. cbn [bcl2fastq_bylane bcl2fastq_bysample].
  split.
  - intros -> ->. simpl. repeat split.
    apply in_or_app. right. now left.
  - intros NE.
    assert (G : (len bl =? 0) && (len bs =? 0) = false).
    { apply andb_false_iff. unfold len.
      destruct NE as [NE|NE]; [left|right]; apply Z.eqb_neq;
        [destruct bl | destruct bs]; try congruence; simpl; lia. }
    rewrite G. split; [reflexivity|].
    rewrite produce_run. cbn [bcl2fastq_bysample report app].
    destruct (general_stats_data bs) as [data|e] eqn:E; simpl.
    + repeat split; discriminate.
    + repeat split.
      apply general_stats_data_raises in E. destruct E as [-> | ->]; discriminate.
Qed.

(** C7. Ingestion never raises; every file that fails to parse leaves its
    warning in the log, and the tree and the views built from all the files
    are those built from the parseable files alone. *)
Theorem C7_unparsable_files_are_skipped (files : list logfile) :
  let good := filter (parseable json_loads) files in
  let all_run := (gather json_loads files ;; collect) in
  let good_run := (gather json_loads good ;; collect) in
  outcome (gather json_loads files) new_self = Ok tt /\
  outcome all_run new_self = outcome good_run new_self /\
  bcl2fastq_data (exec all_run new_self) = bcl2fastq_data (exec good_run new_self) /\
  bcl2fastq_bylane (exec all_run new_self) = bcl2fastq_bylane (exec good_run new_self) /\
  bcl2fastq_bysample (exec all_run new_self) = bcl2fastq_bysample (exec good_run new_self) /\
  source_files (exec all_run new_self) = source_files (exec good_run new_self) /\
  (forall myfile, In myfile files -> parseable json_loads myfile = false ->
     In (unparsable_message myfile) (log (exec (gather json_loads files) new_self))).
Proof.
  intros good all_run good_run. unfold all_run, good_run, exec, outcome.
  rewrite !gather_collect_run, gather_run. cbn [fst snd].
  pose proof (gathered_data_filter json_loads files new_self) as D.
  fold good in D.
  destruct (reshape_collected_views _ _ D) as (BL & BS & SF).
  repeat split; auto.
  - destruct (reshape_frame (collected (gathered json_loads files new_self))) as (-> & _).
    destruct (reshape_frame (collected (gathered json_loads good new_self))) as (-> & _).
    destruct (collected_fields (gathered json_loads files new_self)) as (-> & _).
    destruct (collected_fields (gathered json_loads good new_self)) as (-> & _).
    exact D.
  - intros myfile I P. apply unparsable_logged; auto.
    unfold parseable in P. now destruct (json_loads (f myfile)).
Qed.

(** C8. Every lane record that ingestion builds has the synthetic
    "undetermined" entry (total = Undetermined.NumberReads, perfectIndex 0),
    also for a lane without DemuxResults; every lane of the ingested tree
    has it, so the reshape never fails on that lookup and returns normally;
    and a lane without DemuxResults yields the by-lane record
    (total 0, perfectIndex 0, undetermined = Undetermined.NumberReads). *)
Theorem C8_undetermined_entry_always_present (files : list logfile) :
  (forall path cr,
     get "undetermined" (Lane.samples (lane_record path cr)) =
     Some (Sample.mk (Undetermined_NumberReads cr) 0 None)) /\
  (forall runId lanes lane rec,
     In (runId, lanes) (bcl2fastq_data (exec (gather json_loads files) new_self)) ->
     In (lane, rec) lanes ->
     get "undetermined" (Lane.samples rec) <> None) /\
  outcome (gather json_loads files ;; collect) new_self = Ok tt /\
  (forall myfile content cr,
     json_loads (f myfile) = Some content ->
     NoDup (map LaneNumber (ConversionResults content)) ->
     In cr (ConversionResults content) ->
     DemuxResults cr = [] ->
     get (prepend_runid (RunId content) (lane_name (LaneNumber cr)))
       (bcl2fastq_bylane (exec (gather json_loads [myfile] ;; collect) new_self)) =
     Some (Counts.mk 0 0 (Some (Undetermined_NumberReads cr)))).
Proof.
  repeat split.
  - apply get_undetermined_lane_record.
  - intros runId lanes lane rec I1 I2.
    unfold exec in I1. rewrite gather_run in I1. cbn [snd] in I1.
    pose proof (gathered_tree_ok json_loads files new_self) as T.
    unfold tree_ok, gathered in T. rewrite Forall_forall in T.
    specialize (T _ I1). cbn [snd] in T. rewrite Forall_forall in T.
    apply (T _ I2).
  - unfold outcome. now rewrite gather_collect_run.
  - intros myfile content cr J ND I D.
    rewrite (bylane_of_report json_loads myfile content); auto.
    rewrite lane_counts_lane_record, D. reflexivity.
Qed.

(** C9 (amended).  A DemuxResults entry named "undetermined", in a lane of
    a report with distinct lane numbers: its NumberReads and zero-mismatch
    counts are part of the lane's total and perfectIndex; its per-sample
    record is replaced by the synthetic entry (Undetermined.NumberReads,
    0), so the by-sample entry "<RunId> - undetermined" holds the
    undetermined reads of the lanes only and the source-file index has no
    such key; and, sample names being unique within the lane, the lane
    total exceeds the sum of the per-sample totals of the entries other
    than "undetermined" by that entry's NumberReads, while the sum over the
    whole samples mapping exceeds it by Undetermined.NumberReads. *)
Theorem C9_sample_named_undetermined
    (myfile : logfile) (content : Stats) (cr : ConversionResult)
    (pre post : list DemuxResult) (d : DemuxResult) :
  json_loads (f myfile) = Some content ->
  NoDup (map LaneNumber (ConversionResults content)) ->
  In cr (ConversionResults content) ->
  DemuxResults cr = pre ++ d :: post ->
  SampleName d = "undetermined" ->
  let rec := lane_record (file_path myfile) cr in
  let run := (gather json_loads [myfile] ;; collect) in
  let key := prepend_runid (RunId content) "undetermined" in
  Lane.total rec =
    sum_Z (map NumberReads pre) + NumberReads d + sum_Z (map NumberReads post) /\
  Lane.perfectIndex rec =
    sum_Z (map perfect_reads pre) + perfect_reads d + sum_Z (map perfect_reads post) /\
  get "undetermined" (Lane.samples rec) =
    Some (Sample.mk (Undetermined_NumberReads cr) 0 None) /\
  get key (bcl2fastq_bysample (exec run new_self)) =
    Some (Counts.mk
            (sum_Z (map Undetermined_NumberReads (ConversionResults content)))
            0 None) /\
  get key (source_files (exec run new_self)) = None /\
  (NoDup (map SampleName (DemuxResults cr)) ->
   Lane.total rec = real_samples_total rec + NumberReads d /\
   samples_total rec = real_samples_total rec + Undetermined_NumberReads cr).
Proof.
  intros J ND I DR U rec run key.
  assert (T : Lane.total rec =
              sum_Z (map NumberReads pre) + NumberReads d + sum_Z (map NumberReads post)).
  { unfold rec. rewrite lane_record_eq, DR. cbn [Lane.total].
    rewrite map_app, sum_Z_app. simpl. lia. }
  split; [exact T|]. split.
  { unfold rec. rewrite lane_record_eq, DR. cbn [Lane.perfectIndex].
    rewrite map_app, sum_Z_app. simpl. lia. }
  split; [apply get_undetermined_lane_record|].
  assert (D : bcl2fastq_data (gathered json_loads [myfile] new_self) =
              [(RunId content,
                map (fun cr => (lane_name (LaneNumber cr),
                                lane_record (file_path myfile) cr))
                  (ConversionResults content))]).
  { unfold gathered. cbn [fold_left].
    rewrite (ingest_file_first json_loads myfile content (set_data [] new_self) J eq_refl).
    rewrite fold_set_fresh; [reflexivity|]. cbn [keys map app].
    now apply NoDup_lane_names. }
  destruct (collected_fields (gathered json_loads [myfile] new_self))
    as (Dc & _ & Bc & Sc & _).
  split; [|split].
  - unfold run, key, exec. rewrite gather_collect_run. cbn [snd].
    rewrite (reshape_single_run _ _ _ (eq_trans Dc D)).
    rewrite bysample_after_lanes.
    + rewrite Bc. cbn [get].
      destruct (ConversionResults content) as [|cr0 crs]; [destruct I|].
      cbn [map fold_left snd]. rewrite get_undetermined_lane_record.
      rewrite undetermined_across_lanes. reflexivity.
    + apply Forall_forall. intros e Ie. apply in_map_iff in Ie.
      destruct Ie as (c & <- & _). apply lane_record_samples_NoDup.
  - unfold run, key, exec. rewrite gather_collect_run. cbn [snd].
    rewrite (reshape_single_run _ _ _ (eq_trans Dc D)).
    rewrite sources_after_lanes. now rewrite Sc.
  - intros NDs.
    assert (S : Lane.samples rec =
                map (fun d => (SampleName d, sample_record (file_path myfile) d)) pre
                ++ ("undetermined", Sample.mk (Undetermined_NumberReads cr) 0 None)
                :: map (fun d => (SampleName d, sample_record (file_path myfile) d)) post).
    { unfold rec. rewrite lane_record_eq. cbn [Lane.samples].
      rewrite fold_set_fresh by exact NDs. cbn [app].
      rewrite DR, map_app. cbn [map]. rewrite U. apply set_in_place.
      unfold keys. rewrite map_map. cbn [fst].
      rewrite DR, map_app in NDs. cbn [map] in NDs. rewrite U in NDs.
      apply NoDup_remove_2 in NDs. intros H. apply NDs. apply in_or_app. now left. }
    assert (K : forall ds : list DemuxResult,
               ~ In "undetermined" (map SampleName ds) ->
               filter (fun e : string * Sample.t => negb (String.eqb (fst e) "undetermined"))
                 (map (fun d => (SampleName d, sample_record (file_path myfile) d)) ds) =
               map (fun d => (SampleName d, sample_record (file_path myfile) d)) ds).
    { induction ds as [|x ds IH]; simpl; intros NI; auto.
      destruct (String.eqb_spec (SampleName x) "undetermined") as [E|N]; [tauto|].
      simpl. rewrite IH; tauto. }
    assert (V : forall ds : list DemuxResult,
               sum_Z (map Sample.total
                        (values (map (fun d => (SampleName d,
                                                sample_record (file_path myfile) d)) ds))) =
               sum_Z (map NumberReads ds)).
    { intros ds. unfold values. rewrite !map_map. reflexivity. }
    rewrite DR, map_app in NDs. cbn [map] in NDs. rewrite U in NDs.
    assert (N1 : ~ In "undetermined" (map SampleName pre)).
    { apply NoDup_remove_2 in NDs. intros H. apply NDs. apply in_or_app. now left. }
    assert (N2 : ~ In "undetermined" (map SampleName post)).
    { apply NoDup_remove_2 in NDs. intros H. apply NDs. apply in_or_app. now right. }
    unfold real_samples_total, samples_total. rewrite S, T.
    rewrite filter_app. cbn [filter fst]. rewrite String.eqb_refl. cbn [negb].
    rewrite (K pre N1), (K post N2).
    unfold values. rewrite !map_app, !sum_Z_app. cbn [map snd sum_Z fold_right Sample.total].
    fold (values (map (fun d => (SampleName d, sample_record (file_path myfile) d)) pre)).
    fold (values (map (fun d => (SampleName d, sample_record (file_path myfile) d)) post)).
    rewrite !V. unfold sum_Z. lia.
Qed.

(** C10. When the content of a file fails to parse as JSON,
    [parse_file_as_json] returns normally with the per-run tree, the two
    views, the source-file index and the report exactly as they were: the
    only effect is the warning appended to the log. *)
Theorem C10_unparsable_file_changes_nothing (myfile : logfile) (s : Self) :
  json_loads (f myfile) = None ->
  let s' := exec (parse_file_as_json json_loads myfile) s in
  outcome (parse_file_as_json json_loads myfile) s = Ok tt /\
  bcl2fastq_data s' = bcl2fastq_data s /\
  bcl2fastq_bylane s' = bcl2fastq_bylane s /\
  bcl2fastq_bysample s' = bcl2fastq_bysample s /\
  source_files s' = source_files s /\
  report s' = report s /\
  log s' = log s ++ [unparsable_message myfile].
Proof.
  intros J s'. unfold s', exec, outcome, parse_file_as_json. rewrite J.
  destruct s; simpl. auto 10.
Qed.

End Properties.

(** ** The properties on the example reports *)

Lemma C1_witness :
  let run := (gather example_loads [example_file] ;; collect) in
  outcome run new_self = Ok tt /\
  bcl2fastq_bylane (exec run new_self) =
    [("RUN1 - L1", Counts.mk 100 90 (Some 10))] /\
  bcl2fastq_bysample (exec run new_self) =
    [("RUN1 - S1", Counts.mk 100 90 None);
     ("RUN1 - undetermined", Counts.mk 10 0 None)].
Proof.
  apply (C1_end_to_end_example example_loads example_file). reflexivity.
Defined.

Lemma C2_witness :
  get "RUN1 - L1"
    (bcl2fastq_bylane (exec (gather example_loads [example_file] ;; collect) new_self)) =
  Some (Counts.mk 100 90 (Some 10)).
Proof.
  refine (proj2 (C2_bylane_total_excludes_undetermined example_loads
                   example_file example_stats example_lane _ _ _)).
  - reflexivity.
  - simpl. repeat constructor. simpl. tauto.
  - simpl. now left.
Defined.

Lemma C3_witness :
  get "RUN1 - S1"
    (bcl2fastq_bysample
       (exec (gather example_loads [example_file; second_file] ;; collect) new_self)) =
  Some (Counts.mk (100 + 50) (90 + 40) None).
Proof.
  pose proof (C3_bysample_sums_over_lanes example_loads example_file second_file
                example_stats second_stats "S1" eq_refl eq_refl eq_refl) as H.
  cbv zeta in H.
  assert (N : NoDup (map LaneNumber
                       (ConversionResults example_stats ++ ConversionResults second_stats))).
  { simpl. repeat constructor; simpl; intuition discriminate. }
  apply (proj2 (H N)).
  - discriminate.
  - simpl. repeat constructor; simpl; tauto.
  - left. simpl. now left.
Defined.

Lemma C4_witness :
  let s := exec (gather example_loads [example_file; example_file]) new_self in
  lookup_lane "RUN1" "L1" (bcl2fastq_data s) =
    Some (lane_record "/data/run1/lane1/Stats.json" example_lane) /\
  In (DEBUG, "Duplicate runId/lane combination found! Overwriting: RUN1 - L1") (log s).
Proof.
  refine (C4_duplicate_lane_last_write_wins example_loads
            [example_file; example_file] "RUN1" 1 [] [] []
            "/data/run1/lane1/Stats.json" "/data/run1/lane1/Stats.json"
            example_lane example_lane _ _ _ _).
  - reflexivity.
  - reflexivity.
  - reflexivity.
  - intros e [].
Defined.

Lemma C5_witness :
  let s := set_bysample [("RUN1 - S1", Counts.mk 200 150 None)] new_self in
  outcome (add_general_stats "M") s = Ok tt /\
  report (exec (add_general_stats "M") s) =
    [general_stats_addcols [("RUN1 - S1", StatsRow.mk 200 "75.0")] (headers "M")].
Proof.
  refine (proj2 (proj1 (proj2 (C5_general_stats_division_by_zero "M"
                          (set_bysample [("RUN1 - S1", Counts.mk 200 150 None)] new_self)))
                   _) _).
  - repeat constructor.
  - repeat constructor.
Defined.

Lemma C6_witness :
  (outcome (MultiqcModule_init example_loads ignore_nothing "['.']" "M" [broken_file])
     new_self = Raise UserWarning /\
   report (exec (MultiqcModule_init example_loads ignore_nothing "['.']" "M" [broken_file])
             new_self) = []) /\
  outcome (MultiqcModule_init example_loads ignore_nothing "['.']" "M" [example_file])
    new_self = Ok tt.
Proof.
  split.
  - assert (E1 : bcl2fastq_bylane
                   (filtered example_loads ignore_nothing [broken_file] new_self) = [])
      by (vm_compute; reflexivity).
    assert (E2 : bcl2fastq_bysample
                   (filtered example_loads ignore_nothing [broken_file] new_self) = [])
      by (vm_compute; reflexivity).
    pose proof (proj1 (C6_nothing_to_report example_loads ignore_nothing
                         "['.']" "M" [broken_file]) E1 E2) as (H1 & H2 & _).
    split; assumption.
  - assert (N : bcl2fastq_bylane
                  (filtered example_loads ignore_nothing [example_file] new_self) <> [])
      by (vm_compute; discriminate).
    pose proof (proj2 (C6_nothing_to_report example_loads ignore_nothing
                         "['.']" "M" [example_file]) (or_introl N)) as (_ & _ & H).
    assert (G : general_stats_data
                  (bcl2fastq_bysample
                     (filtered example_loads ignore_nothing [example_file] new_self)) =
                Ok [("RUN1 - S1", StatsRow.mk 100 "90.0");
                    ("RUN1 - undetermined", StatsRow.mk 10 "0.0")])
      by (vm_compute; reflexivity).
    rewrite G in H. apply H.
Defined.

Lemma C7_witness :
  bcl2fastq_bysample
    (exec (gather example_loads [broken_file; example_file; broken_file] ;; collect)
       new_self) =
  bcl2fastq_bysample (exec (gather example_loads [example_file] ;; collect) new_self) /\
  In (WARNING, "Could not parse file as json: Broken.json")
    (log (exec (gather example_loads [broken_file; example_file; broken_file]) new_self)).
Proof.
  pose proof (C7_unparsable_files_are_skipped example_loads
                [broken_file; example_file; broken_file]) as H.
  cbv zeta in H. destruct H as (_ & _ & _ & _ & B & _ & L).
  split.
  - exact B.
  - apply (L broken_file); [now left | reflexivity].
Defined.

Lemma C8_witness :
  get "RUN2 - L3"
    (bcl2fastq_bylane (exec (gather example_loads [empty_file] ;; collect) new_self)) =
  Some (Counts.mk 0 0 (Some 0)).
Proof.
  refine (proj2 (proj2 (proj2 (C8_undetermined_entry_always_present example_loads [])))
            empty_file empty_stats empty_lane _ _ _ _).
  - reflexivity.
  - simpl. repeat constructor. simpl. tauto.
  - simpl. now left.
  - reflexivity.
Defined.

Lemma C9_witness :
  let rec := lane_record "/data/run3/Stats.json" clash_lane in
  let run := (gather example_loads [clash_file] ;; collect) in
  Lane.total rec = 107 /\
  Lane.perfectIndex rec = 94 /\
  get "undetermined" (Lane.samples rec) = Some (Sample.mk 10 0 None) /\
  get "RUN3 - undetermined" (bcl2fastq_bysample (exec run new_self)) =
    Some (Counts.mk 10 0 None) /\
  get "RUN3 - undetermined" (source_files (exec run new_self)) = None /\
  real_samples_total rec = 100 /\ samples_total rec = 110.
Proof.
  pose proof (C9_sample_named_undetermined example_loads clash_file clash_stats
                clash_lane [example_sample] [] named_undetermined
                eq_refl) as H.
  cbv zeta in H.
  assert (N : NoDup (map LaneNumber (ConversionResults clash_stats))).
  { simpl. repeat constructor. simpl. tauto. }
  specialize (H N (or_introl eq_refl) eq_refl eq_refl).
  destruct H as (T & P & U & B & S & R).
  repeat split; try assumption; reflexivity.
Defined.

Lemma C10_witness :
  let s' := exec (parse_file_as_json example_loads broken_file) new_self in
  outcome (parse_file_as_json example_loads broken_file) new_self = Ok tt /\
  bcl2fastq_data s' = [] /\
  log s' = [(WARNING, "Could not parse file as json: Broken.json")].
Proof.
  pose proof (C10_unparsable_file_changes_nothing example_loads broken_file new_self
                eq_refl) as H.
  cbv zeta in H. destruct H as (O & D & _ & _ & _ & _ & L).
  repeat split; assumption.
Defined.

(** ** Three statements that fail as they are worded *)

(** C5: a count of 2^1024 does not convert to binary64.  With all totals
    positive the computation raises OverflowError instead of succeeding; and
    with a sample of total 0 after it, it raises OverflowError, not
    ZeroDivisionError. *)
Lemma C5_counterexample :
  (Forall (fun entry => 0 < Counts.total (snd entry)) [huge_sample] /\
   outcome (add_general_stats "M") (set_bysample [huge_sample] new_self)
   = Raise OverflowError) /\
  (Exists (fun entry => Counts.total (snd entry) = 0) [huge_sample; empty_sample] /\
   outcome (add_general_stats "M") (set_bysample [huge_sample; empty_sample] new_self)
   = Raise OverflowError).
Proof.
  split; split.
  - repeat constructor.
  - vm_compute. reflexivity.
  - right. left. reflexivity.
  - vm_compute. reflexivity.
Qed.

(** C6: a report whose only lane has no sample and no undetermined read.
    Both mappings are non-empty after the filter, yet the constructor ends
    in ZeroDivisionError and has handed nothing to the host. *)
Lemma C6_counterexample :
  let sf := filtered example_loads ignore_nothing [empty_file] new_self in
  let run := MultiqcModule_init example_loads ignore_nothing "['.']" "M" [empty_file] in
  bcl2fastq_bylane sf = [("RUN2 - L3", Counts.mk 0 0 (Some 0))] /\
  bcl2fastq_bysample sf = [("RUN2 - undetermined", Counts.mk 0 0 None)] /\
  outcome run new_self = Raise ZeroDivisionError /\
  report (exec run new_self) = [].
Proof.
  vm_compute. repeat split.
Qed.

(** C9: a sample named "undetermined" without reads, in a lane without
    undetermined reads: the lane total equals the sum of the per-sample
    totals of its samples mapping, with or without the synthetic entry. *)
Lemma C9_counterexample :
  let rec := lane_record "/data/Stats.json" zero_undetermined_lane in
  In zero_reads_sample (DemuxResults zero_undetermined_lane) /\
  SampleName zero_reads_sample = "undetermined" /\
  Lane.total rec = samples_total rec /\
  Lane.total rec = real_samples_total rec.
Proof.
  repeat split. now left.
Qed.

(** * Further properties of the module *)

(** ** [get_bar_data_from_counts] *)

Lemma bar_data_from (counts : dict Counts.t) (bars : dict Bar.t) :
  NoDup (keys bars ++ keys counts) ->
  fold_left
    (fun bar_data '(key, value) =>
       set key
         (Bar.mk (Counts.perfectIndex value)
            (Counts.total value - Counts.perfectIndex value)
            (Counts.undetermined value))
         bar_data)
    counts bars =
  bars ++ map (fun entry => (fst entry, bar_of (snd entry))) counts.
Proof.
  revert bars. induction counts as [|[key value] counts IH]; intros bars ND; simpl.
  - now rewrite app_nil_r.
  - assert (G : get key bars = None).
    { apply get_None_keys. intros I. simpl in ND.
      apply NoDup_remove_2 in ND. apply ND. apply in_or_app. now left. }
    rewrite set_fresh by assumption. rewrite IH.
    + rewrite <- app_assoc. reflexivity.
    + unfold keys in *. rewrite map_app. simpl in *. now rewrite <- app_assoc.
Qed.

Lemma get_map_values {V W} (g : V -> W) (d : dict V) k :
  get k (map (fun entry => (fst entry, g (snd entry))) d) = option_map g (get k d).
Proof.
  induction d as [|[k0 v0] d IH]; simpl; auto.
  destruct (String.eqb k k0); auto.
Qed.

(** X1. On a mapping with pairwise distinct keys, [get_bar_data_from_counts]
    returns one bar per record, under the same keys in the same order; the
    bar of a record has perfect = perfectIndex, perfect + imperfect = total,
    and the undetermined category exactly when the record has the
    undetermined field, with its value. *)
Theorem X1_bar_data_of_counts (counts : dict Counts.t) :
  NoDup (keys counts) ->
  keys (get_bar_data_from_counts counts) = keys counts /\
  (forall key value,
     get key counts = Some value ->
     exists bar,
       get key (get_bar_data_from_counts counts) = Some bar /\
       Bar.perfect bar = Counts.perfectIndex value /\
       Bar.perfect bar + Bar.imperfect bar = Counts.total value /\
       Bar.undetermined bar = Counts.undetermined value) /\
  (forall key, get key counts = None ->
     get key (get_bar_data_from_counts counts) = None).
Proof.
  intros ND. unfold get_bar_data_from_counts.
  rewrite bar_data_from by exact ND. cbn [app].
  split; [|split].
  - unfold keys. rewrite map_map. reflexivity.
  - intros key value G. exists (bar_of value).
    rewrite get_map_values, G. simpl. repeat split. lia.
  - intros key G. now rewrite get_map_values, G.
Qed.

Lemma X1_witness :
  get_bar_data_from_counts
    [("RUN1 - L1", Counts.mk 100 90 (Some 10)); ("RUN1 - L2", Counts.mk 50 40 (Some 5))] =
  [("RUN1 - L1", Bar.mk 90 10 (Some 10)); ("RUN1 - L2", Bar.mk 40 10 (Some 5))] /\
  keys (get_bar_data_from_counts
          [("RUN1 - L1", Counts.mk 100 90 (Some 10)); ("RUN1 - L2", Counts.mk 50 40 (Some 5))]) =
  ["RUN1 - L1"; "RUN1 - L2"].
Proof.
  split; [reflexivity|].
  apply (X1_bar_data_of_counts
           [("RUN1 - L1", Counts.mk 100 90 (Some 10)); ("RUN1 - L2", Counts.mk 50 40 (Some 5))]).
  simpl. repeat constructor; simpl; intuition discriminate.
Defined.

(** ** The undetermined category of the two sections *)

Lemma Forall_alter {V} (P : string * V -> Prop) g k (d : dict V) :
  Forall P d -> (forall v, P (k, v) -> P (k, g v)) -> Forall P (alter g k d).
Proof.
  induction 1 as [|[k0 v0] d H HF IH]; simpl; intros Hg.
  - constructor.
  - destruct (String.eqb_spec k k0) as [->|N]; constructor; auto.
Qed.

Lemma bysample_add_no_undetermined key rec b :
  Forall (fun e : string * Counts.t => Counts.undetermined (snd e) = None) b ->
  Forall (fun e : string * Counts.t => Counts.undetermined (snd e) = None)
    (bysample_add key rec b).
Proof.
  intros F. unfold bysample_add.
  apply Forall_alter; [apply Forall_alter|]; auto.
  destruct (contains key b); auto. apply Forall_set; auto.
Qed.

Lemma reshape_runs_no_undetermined data s :
  Forall (fun e : string * Counts.t => Counts.undetermined (snd e) = None)
    (bcl2fastq_bysample s) ->
  Forall (fun e : string * Counts.t => Counts.undetermined (snd e) = None)
    (bcl2fastq_bysample (fold_left reshape_run data s)).
Proof.
  revert s. induction data as [|[runId lanes] data IH]; intros s F; simpl; auto.
  apply IH. clear IH. revert s F.
  induction lanes as [|[lane rec] lanes IH]; intros s F; simpl; auto.
  apply IH. clear IH. unfold reshape_lane.
  assert (F1 : Forall (fun e : string * Counts.t => Counts.undetermined (snd e) = None)
                 (bcl2fastq_bysample
                    (set_bylane (set (prepend_runid runId lane) (lane_counts rec)
                                   (bcl2fastq_bylane s)) s)))
    by (destruct s; exact F).
  revert F1.
  generalize (set_bylane (set (prepend_runid runId lane) (lane_counts rec)
                            (bcl2fastq_bylane s)) s).
  induction (Lane.samples rec) as [|[x r] sd IH]; intros s1 F1; simpl; auto.
  apply IH. rewrite reshape_sample_bysample. now apply bysample_add_no_undetermined.
Qed.

Lemma reshape_runs_bylane_undetermined data s :
  tree_ok data ->
  Forall (fun e : string * Counts.t => Counts.undetermined (snd e) <> None)
    (bcl2fastq_bylane s) ->
  Forall (fun e : string * Counts.t => Counts.undetermined (snd e) <> None)
    (bcl2fastq_bylane (fold_left reshape_run data s)).
Proof.
  intros T. revert s. induction T as [|[runId lanes] data OK T IH]; intros s F; simpl; auto.
  apply IH. clear IH T. cbn [snd] in OK. revert s F.
  induction OK as [|[lane rec] lanes [U _] OK IH]; intros s F; simpl; auto.
  apply IH. rewrite reshape_lane_bylane. apply Forall_set; auto.
  cbn [snd] in *. unfold lane_counts. simpl.
  destruct (get "undetermined" (Lane.samples rec)); [discriminate | congruence].
Qed.

Lemma bars_Forall (P : Counts.t -> Prop) (Q : Bar.t -> Prop) counts :
  (forall value, P value -> Q (bar_of value)) ->
  Forall (fun e => P (snd e)) counts ->
  Forall (fun e => Q (snd e)) (get_bar_data_from_counts counts).
Proof.
  intros PQ. unfold get_bar_data_from_counts.
  assert (G : forall bars, Forall (fun e : string * Bar.t => Q (snd e)) bars ->
              Forall (fun e => P (snd e)) counts ->
              Forall (fun e : string * Bar.t => Q (snd e))
                (fold_left
                   (fun bar_data '(key, value) =>
                      set key
                        (Bar.mk (Counts.perfectIndex value)
                           (Counts.total value - Counts.perfectIndex value)
                           (Counts.undetermined value))
                        bar_data)
                   counts bars)).
  { induction counts as [|[key value] counts IH]; intros bars FB FC; simpl; auto.
    inversion FC; subst. apply IH; auto. apply Forall_set; auto.
    apply (PQ value). assumption. }
  apply G. constructor.
Qed.

Section Sections.

Variable json_loads : string -> option Stats.
Variable ignore_samples : dict Counts.t -> dict Counts.t.
Variables analysis_dir read_count_prefix : string.

Lemma filtered_report files :
  report (filtered json_loads ignore_samples files new_self) = [].
Proof.
  unfold filtered.
  destruct (reshape_frame (collected (gathered json_loads files new_self)))
    as (_ & _ & Rr).
  destruct (collected_fields (gathered json_loads files new_self))
    as (_ & _ & _ & _ & _ & Rc).
  destruct (ingest_files_frame json_loads files (set_data [] new_self))
    as (_ & _ & _ & Rg).
  fold (gathered json_loads files new_self) in Rg.
  rewrite Rc, Rg in Rr. simpl in Rr.
  destruct (reshape (collected (gathered json_loads files new_self))); exact Rr.
Qed.

Lemma reshaped_views_undetermined files :
  let r := reshape (collected (gathered json_loads files new_self)) in
  Forall (fun e : string * Counts.t => Counts.undetermined (snd e) <> None)
    (bcl2fastq_bylane r) /\
  Forall (fun e : string * Counts.t => Counts.undetermined (snd e) = None)
    (bcl2fastq_bysample r).
Proof.
  intros r. unfold r, reshape.
  destruct (collected_fields (gathered json_loads files new_self))
    as (Dc & Bl & Bs & _).
  split.
  - apply reshape_runs_bylane_undetermined.
    + rewrite Dc. apply gathered_tree_ok.
    + rewrite Bl. constructor.
  - apply reshape_runs_no_undetermined. rewrite Bs. constructor.
Qed.

(** X2. With a filter that only removes entries, every bar of the section
    "Clusters by lane" has the undetermined category and no bar of the
    section "Clusters by sample" has it; the constructor adds no other
    section. *)
Theorem X2_sections_undetermined_category
    (files : list logfile) (name anchor : string) (plot : dict Bar.t)
    (categories : list (string * string)) :
  (forall d entry, In entry (ignore_samples d) -> In entry d) ->
  In (add_section name anchor plot categories)
    (report (exec (MultiqcModule_init json_loads ignore_samples analysis_dir
                     read_count_prefix files) new_self)) ->
  (anchor = "bcl2fastq-bylane" /\
   Forall (fun e => Bar.undetermined (snd e) <> None) plot) \/
  (anchor = "bcl2fastq-bysample" /\
   Forall (fun e => Bar.undetermined (snd e) = None) plot).
Proof.
  intros Sub. unfold exec. rewrite MultiqcModule_init_run. cbn zeta.
  pose proof (filtered_report files) as Rp.
  pose proof (reshaped_views_undetermined files) as [FL FS]. cbn zeta in FL, FS.
  assert (FL' : Forall (fun e : string * Counts.t => Counts.undetermined (snd e) <> None)
                  (bcl2fastq_bylane (filtered json_loads ignore_samples files new_self))).
  { unfold filtered.
    replace (bcl2fastq_bylane _)
      with (ignore_samples
              (bcl2fastq_bylane (reshape (collected (gathered json_loads files new_self)))))
      by (destruct (reshape (collected (gathered json_loads files new_self))); reflexivity).
    apply Forall_forall. intros e I. apply Sub in I.
    rewrite Forall_forall in FL. now apply FL. }
  assert (FS' : Forall (fun e : string * Counts.t => Counts.undetermined (snd e) = None)
                  (bcl2fastq_bysample (filtered json_loads ignore_samples files new_self))).
  { unfold filtered.
    replace (bcl2fastq_bysample _)
      with (ignore_samples
              (bcl2fastq_bysample (reshape (collected (gathered json_loads files new_self)))))
      by (destruct (reshape (collected (gathered json_loads files new_self))); reflexivity).
    apply Forall_forall. intros e I. apply Sub in I.
    rewrite Forall_forall in FS. now apply FS. }
  set (sf := filtered json_loads ignore_samples files new_self) in *.
  destruct ((len (bcl2fastq_bylane sf) =? 0) && (len (bcl2fastq_bysample sf) =? 0)).
  - cbn [snd]. destruct sf; simpl in *. rewrite Rp. intros [].
  - rewrite produce_run, Rp. cbn [app].
    destruct (general_stats_data (bcl2fastq_bysample sf)) as [data|e]; cbn [snd].
    + replace (report (set_report (data_sources sf
                 ++ general_stats_addcols data (headers read_count_prefix)
                 :: exports_and_sections sf) sf))
        with (data_sources sf
              ++ general_stats_addcols data (headers read_count_prefix)
              :: exports_and_sections sf) by (destruct sf; reflexivity).
      intros I. apply in_app_or in I. destruct I as [I|I].
      * unfold data_sources in I. apply in_map_iff in I.
        destruct I as (x & E & _). discriminate.
      * unfold exports_and_sections in I. simpl in I.
        destruct I as [E|[E|[E|[E|[E|[]]]]]]; try discriminate;
          injection E as <- <- <- <-.
        -- left. split; [reflexivity|].
           apply (bars_Forall (fun c => Counts.undetermined c <> None)
                    (fun b => Bar.undetermined b <> None)); auto.
        -- right. split; [reflexivity|].
           apply (bars_Forall (fun c => Counts.undetermined c = None)
                    (fun b => Bar.undetermined b = None)); auto.
    + replace (report (set_report (data_sources sf) sf)) with (data_sources sf)
        by (destruct sf; reflexivity).
      intros I. unfold data_sources in I. apply in_map_iff in I.
      destruct I as (x & E & _). discriminate.
Qed.

End Sections.

Lemma X2_witness :
  Forall (fun e => Bar.undetermined (snd e) <> None)
    [("RUN1 - L1", Bar.mk 90 10 (Some 10))].
Proof.
  assert (I : In (add_section "Clusters by lane" "bcl2fastq-bylane"
                    [("RUN1 - L1", Bar.mk 90 10 (Some 10))] cats)
                (report (exec (MultiqcModule_init example_loads ignore_nothing
                                 "['.']" "M" [example_file]) new_self)))
    by (vm_compute; tauto).
  destruct (X2_sections_undetermined_category example_loads ignore_nothing
              "['.']" "M" [example_file] _ _ _ _ (fun d entry H => H) I)
    as [[_ F]|[E _]].
  - exact F.
  - discriminate E.
Defined.

(** ** Qualified lane keys *)

Lemma append_assoc_s (a b c : string) : ((a ++ b) ++ c = a ++ (b ++ c))%string.
Proof. induction a; simpl; congruence. Qed.

Lemma length_append (a b : string) :
  String.length (a ++ b) = (String.length a + String.length b)%nat.
Proof. induction a; simpl; congruence. Qed.

Lemma append_inj_l (a b c : string) : (a ++ c = b ++ c)%string -> a = b.
Proof.
  revert b. induction a as [|x a IH]; intros [|y b] H; simpl in H.
  - reflexivity.
  - apply (f_equal String.length) in H. simpl in H. rewrite length_append in H. lia.
  - apply (f_equal String.length) in H. simpl in H. rewrite length_append in H. lia.
  - injection H as -> H. f_equal. now apply IH.
Qed.

Lemma has_char_append c (a b : string) :
  has_char c (a ++ b) = has_char c a || has_char c b.
Proof. induction a; simpl; auto. rewrite IHa. apply orb_assoc. Qed.

(** Cutting two strings at a character that occurs in neither tail. *)
Lemma split_at_char c (a b x y : string) :
  has_char c x = false -> has_char c y = false ->
  (a ++ String c x = b ++ String c y)%string -> a = b /\ x = y.
Proof.
  intros Hx Hy. revert b. induction a as [|a0 a IH]; intros [|b0 b] H; simpl in H.
  - injection H as ->. auto.
  - injection H as -> ->. rewrite has_char_append in Hx. simpl in Hx.
    rewrite Ascii.eqb_refl in Hx. simpl in Hx.
    rewrite orb_true_r in Hx. discriminate.
  - injection H as -> <-. rewrite has_char_append in Hy. simpl in Hy.
    rewrite Ascii.eqb_refl in Hy. simpl in Hy.
    rewrite orb_true_r in Hy. discriminate.
  - injection H as -> H. destruct (IH b H) as [-> ->]. auto.
Qed.

Lemma string_of_uint_no_L u : has_char "L" (NilEmpty.string_of_uint u) = false.
Proof. induction u; simpl; auto. Qed.

Lemma str_of_int_no_L n : has_char "L" (str_of_int n) = false.
Proof.
  unfold str_of_int, NilZero.string_of_int, NilZero.string_of_uint.
  destruct (Z.to_int n) as [u|u]; destruct u; simpl; auto;
    apply string_of_uint_no_L.
Qed.

Lemma lane_key_inj r1 n1 r2 n2 :
  prepend_runid r1 (lane_name n1) = prepend_runid r2 (lane_name n2) ->
  r1 = r2 /\ n1 = n2.
Proof.
  unfold prepend_runid, lane_name. intros H.
  change ("L" ++ str_of_int n1)%string with (String "L" (str_of_int n1)) in H.
  change ("L" ++ str_of_int n2)%string with (String "L" (str_of_int n2)) in H.
  rewrite <- !append_assoc_s in H.
  apply split_at_char in H; try apply str_of_int_no_L.
  destruct H as [H1 H2]. split.
  - now apply append_inj_l in H1.
  - now apply str_of_int_inj.
Qed.

(** X3. The qualified key of a lane, [str(runId) + " - " + 'L{}'.format(n)]
    for an integer lane number, determines both the run and the lane
    number: by-lane keys of different run-lanes never collide, whatever the
    RunId contains. *)
Theorem X3_lane_keys_never_collide (runId1 runId2 : string) (n1 n2 : Z) :
  prepend_runid runId1 (lane_name n1) = prepend_runid runId2 (lane_name n2) ->
  runId1 = runId2 /\ n1 = n2.
Proof. apply lane_key_inj. Qed.

Lemma X3_witness : "RUN1 - L1 - x" = "RUN1 - L1 - x" /\ 12 = 12.
Proof.
  apply (X3_lane_keys_never_collide "RUN1 - L1 - x" "RUN1 - L1 - x" 12 12).
  reflexivity.
Defined.

(** ** The by-lane view of any files *)

Lemma run_data_keys_ok runId s :
  tree_keys_ok (bcl2fastq_data s) ->
  NoDup (keys (run_data runId s)) /\ lanes_named (run_data runId s).
Proof.
  intros [_ T]. unfold run_data.
  destruct (get runId (bcl2fastq_data s)) eqn:G.
  - apply get_In in G. rewrite Forall_forall in T. apply (T _ G).
  - split; constructor.
Qed.

Lemma tree_keys_ok_ingest_lane runId path cr s :
  tree_keys_ok (bcl2fastq_data s) ->
  tree_keys_ok (bcl2fastq_data (ingest_lane runId path cr s)).
Proof.
  intros T. destruct (run_data_keys_ok runId s T) as [N L].
  destruct T as [ND F]. rewrite ingest_lane_data. split.
  - now apply NoDup_keys_set.
  - apply Forall_set; auto. cbn [snd]. split.
    + now apply NoDup_keys_set.
    + apply Forall_set; auto. cbn [fst]. eauto.
Qed.

Section TreeKeys.

Variable json_loads : string -> option Stats.

Lemma tree_keys_ok_ingest_file myfile s :
  tree_keys_ok (bcl2fastq_data s) ->
  tree_keys_ok (bcl2fastq_data (ingest_file json_loads myfile s)).
Proof.
  intros T. unfold ingest_file. destruct (json_loads (f myfile)) as [content|].
  - assert (T1 : tree_keys_ok (bcl2fastq_data
              (if contains (RunId content) (bcl2fastq_data s) then s
               else set_data (set (RunId content) [] (bcl2fastq_data s)) s))).
    { destruct (contains _ _); auto. destruct s; simpl in *.
      destruct T as [ND F]. split.
      - now apply NoDup_keys_set.
      - apply Forall_set; auto. cbn [snd]. split; constructor. }
    revert T1. generalize (if contains (RunId content) (bcl2fastq_data s) then s
                else set_data (set (RunId content) [] (bcl2fastq_data s)) s).
    induction (ConversionResults content) as [|cr crs IH]; intros s1 T1; simpl; auto.
    apply IH. now apply tree_keys_ok_ingest_lane.
  - destruct s; assumption.
Qed.

Lemma gathered_tree_keys_ok files s :
  tree_keys_ok (bcl2fastq_data (gathered json_loads files s)).
Proof.
  unfold gathered.
  assert (T : tree_keys_ok (bcl2fastq_data (set_data [] s)))
    by (destruct s; split; constructor).
  revert T. generalize (set_data [] s).
  induction files as [|myfile files IH]; intros s1 T; simpl; auto.
  apply IH. now apply tree_keys_ok_ingest_file.
Qed.

End TreeKeys.

Lemma bylane_other_run runId lanes s r n :
  lanes_named lanes -> runId <> r ->
  get (prepend_runid r (lane_name n))
    (bcl2fastq_bylane (fold_left (reshape_lane runId) lanes s)) =
  get (prepend_runid r (lane_name n)) (bcl2fastq_bylane s).
Proof.
  intros L N. revert s. induction L as [|[lane rec] lanes [m E] L IH]; intros s; simpl; auto.
  rewrite IH, reshape_lane_bylane. cbn [fst] in E. subst lane.
  apply get_set_other. intros H. apply lane_key_inj in H. tauto.
Qed.

Lemma lookup_lane_absent r l (data : dict (dict Lane.t)) :
  ~ In r (keys data) -> lookup_lane r l data = None.
Proof. intros NI. unfold lookup_lane. apply get_None_keys in NI. now rewrite NI. Qed.

Lemma bylane_after_runs data s r n :
  tree_keys_ok data ->
  get (prepend_runid r (lane_name n))
    (bcl2fastq_bylane (fold_left reshape_run data s)) =
  match lookup_lane r (lane_name n) data with
  | Some rec => Some (lane_counts rec)
  | None => get (prepend_runid r (lane_name n)) (bcl2fastq_bylane s)
  end.
Proof.
  intros [ND F]. revert s.
  induction F as [|[runId lanes] data [NL LN] F IH]; intros s; simpl; auto.
  inversion ND as [|? ? NI ND']; subst. cbn [snd] in *.
  rewrite (IH ND').
  assert (E : lookup_lane r (lane_name n) ((runId, lanes) :: data) =
              if String.eqb r runId then get (lane_name n) lanes
              else lookup_lane r (lane_name n) data).
  { unfold lookup_lane. cbn [get]. now destruct (String.eqb r runId). }
  rewrite E. clear E.
  destruct (String.eqb_spec r runId) as [->|N].
  - rewrite (lookup_lane_absent runId _ data NI).
    now apply bylane_after_lanes.
  - destruct (lookup_lane r (lane_name n) data); auto.
    apply bylane_other_run; auto.
Qed.

Section ByLane.

Variable json_loads : string -> option Stats.

Lemma bylane_of_files files r n :
  get (prepend_runid r (lane_name n))
    (bcl2fastq_bylane (exec (gather json_loads files ;; collect) new_self)) =
  option_map lane_counts (last_write r n (ingested json_loads files) None).
Proof.
  unfold exec. rewrite gather_collect_run. cbn [snd]. unfold reshape.
  destruct (collected_fields (gathered json_loads files new_self)) as (Dc & Bl & _).
  rewrite Dc at 1. rewrite bylane_after_runs by apply gathered_tree_keys_ok.
  rewrite Bl. cbn [get]. unfold gathered.
  rewrite lookup_lane_ingest_files. cbn [bcl2fastq_data set_data new_self].
  unfold lookup_lane at 1. cbn [get].
  now destruct (last_write r n (ingested json_loads files) None).
Qed.

(** X4. Over any files and runs: the by-lane record under
    "<RunId> - L<n>" is built from the last ingested ConversionResults entry
    of that run and lane number alone (total = sum of its NumberReads,
    perfectIndex = sum of its zero-mismatch counts, undetermined = its
    Undetermined.NumberReads), and there is no record under that key when no
    ingested entry reports that run and lane. *)
Theorem X4_bylane_record_of_any_files
    (files : list logfile) (runId : string) (n : Z) :
  let bylane :=
    bcl2fastq_bylane (exec (gather json_loads files ;; collect) new_self) in
  (forall pre path cr post,
     ingested json_loads files = pre ++ (runId, path, cr) :: post ->
     LaneNumber cr = n ->
     (forall e, In e post -> reports_lane runId n e = false) ->
     get (prepend_runid runId (lane_name n)) bylane =
     Some (Counts.mk (sum_Z (map NumberReads (DemuxResults cr)))
             (sum_Z (map perfect_reads (DemuxResults cr)))
             (Some (Undetermined_NumberReads cr)))) /\
  ((forall e, In e (ingested json_loads files) -> reports_lane runId n e = false) ->
   get (prepend_runid runId (lane_name n)) bylane = None).
Proof.
  intros bylane. unfold bylane. rewrite bylane_of_files. split.
  - intros pre path cr post E N P. rewrite E.
    change ((runId, path, cr) :: post) with ([(runId, path, cr)] ++ post).
    rewrite !last_write_app, (last_write_unmatched _ _ post) by assumption.
    unfold last_write at 1. cbn [fold_left]. unfold reports_lane. cbn [fst snd].
    rewrite String.eqb_refl, N, Z.eqb_refl. cbn [andb option_map].
    now rewrite lane_counts_lane_record.
  - intros P. now rewrite last_write_unmatched.
Qed.

End ByLane.

Lemma X4_witness :
  let bylane :=
    bcl2fastq_bylane
      (exec (gather example_loads [example_file; clash_file; second_file; example_file]
             ;; collect) new_self) in
  get "RUN1 - L2" bylane = Some (Counts.mk 50 40 (Some 5)) /\
  get "RUN1 - L7" bylane = None.
Proof.
  split.
  - refine (proj1 (X4_bylane_record_of_any_files example_loads
                     [example_file; clash_file; second_file; example_file] "RUN1" 2)
              [("RUN1", file_path example_file, example_lane);
               ("RUN3", file_path clash_file, clash_lane)]
              (file_path second_file) second_lane
              [("RUN1", file_path example_file, example_lane)] _ _ _).
    + reflexivity.
    + reflexivity.
    + intros e [<-|[]]. reflexivity.
  - refine (proj2 (X4_bylane_record_of_any_files example_loads
                     [example_file; clash_file; second_file; example_file] "RUN1" 7) _).
    intros e I. vm_compute in I.
    destruct I as [<-|[<-|[<-|[<-|[]]]]]; reflexivity.
Defined.

(** ** Nothing is lost between the tree and the by-sample view *)

Lemma sum_values_set_fresh {V} (h : V -> Z) k v (d : dict V) :
  get k d = None ->
  sum_Z (map h (values (set k v d))) = sum_Z (map h (values d)) + h v.
Proof.
  intros G. rewrite set_fresh by assumption. unfold values.
  rewrite !map_app, sum_Z_app. simpl. lia.
Qed.

Lemma sum_values_alter {V} (h : V -> Z) g k (d : dict V) delta :
  (forall v, h (g v) = h v + delta) ->
  get k d <> None ->
  sum_Z (map h (values (alter g k d))) = sum_Z (map h (values d)) + delta.
Proof.
  intros Hg. unfold values.
  induction d as [|[k0 v0] d IH]; simpl; [congruence|].
  destruct (String.eqb k k0); simpl; intros G.
  - rewrite Hg. lia.
  - rewrite IH by assumption. lia.
Qed.

Lemma bysample_add_sums key rec b :
  counts_total (bysample_add key rec b) = counts_total b + Sample.total rec /\
  counts_perfect (bysample_add key rec b) = counts_perfect b + Sample.perfectIndex rec.
Proof.
  unfold bysample_add, counts_total, counts_perfect.
  set (b0 := if contains key b then b else set key (Counts.mk 0 0 None) b).
  assert (P : get key b0 <> None).
  { unfold b0, contains. destruct (get key b) eqn:G; [congruence|].
    rewrite get_set_same. discriminate. }
  assert (S : sum_Z (map Counts.total (values b0)) = sum_Z (map Counts.total (values b)) /\
              sum_Z (map Counts.perfectIndex (values b0)) =
              sum_Z (map Counts.perfectIndex (values b))).
  { unfold b0, contains. destruct (get key b) eqn:G; [auto|].
    rewrite !sum_values_set_fresh by assumption. simpl. lia. }
  destruct S as [S1 S2].
  assert (P1 : get key
                 (alter (fun c => Counts.mk (Counts.total c + Sample.total rec)
                                    (Counts.perfectIndex c) (Counts.undetermined c))
                    key b0) <> None).
  { rewrite get_alter, String.eqb_refl. destruct (get key b0); [discriminate|congruence]. }
  split.
  - rewrite (sum_values_alter Counts.total _ _ _ 0) by (auto; intros; simpl; lia).
    rewrite (sum_values_alter Counts.total _ _ _ (Sample.total rec))
      by (auto; intros; simpl; lia).
    lia.
  - rewrite (sum_values_alter Counts.perfectIndex _ _ _ (Sample.perfectIndex rec))
      by (auto; intros; simpl; lia).
    rewrite (sum_values_alter Counts.perfectIndex _ _ _ 0) by (auto; intros; simpl; lia).
    lia.
Qed.

Lemma reshape_runs_sums data s :
  counts_total (bcl2fastq_bysample (fold_left reshape_run data s)) =
    counts_total (bcl2fastq_bysample s) + tree_total data /\
  counts_perfect (bcl2fastq_bysample (fold_left reshape_run data s)) =
    counts_perfect (bcl2fastq_bysample s) + tree_perfect data.
Proof.
  revert s. induction data as [|[runId lanes] data IH]; intros s.
  - simpl. unfold tree_total, tree_perfect. simpl. lia.
  - cbn [fold_left reshape_run].
    destruct (IH (fold_left (reshape_lane runId) lanes s)) as [-> ->].
    assert (L : counts_total (bcl2fastq_bysample (fold_left (reshape_lane runId) lanes s)) =
                  counts_total (bcl2fastq_bysample s)
                  + sum_Z (map samples_total (values lanes)) /\
                counts_perfect (bcl2fastq_bysample (fold_left (reshape_lane runId) lanes s)) =
                  counts_perfect (bcl2fastq_bysample s)
                  + sum_Z (map samples_perfect (values lanes))).
    { clear IH. revert s. induction lanes as [|[lane rec] lanes IHl]; intros s.
      - simpl. lia.
      - cbn [fold_left]. destruct (IHl (reshape_lane runId s (lane, rec))) as [-> ->].
        assert (S : counts_total (bcl2fastq_bysample (reshape_lane runId s (lane, rec))) =
                      counts_total (bcl2fastq_bysample s) + samples_total rec /\
                    counts_perfect (bcl2fastq_bysample (reshape_lane runId s (lane, rec))) =
                      counts_perfect (bcl2fastq_bysample s) + samples_perfect rec).
        { unfold reshape_lane, samples_total, samples_perfect.
          replace (bcl2fastq_bysample s)
            with (bcl2fastq_bysample
                    (set_bylane (set (prepend_runid runId lane) (lane_counts rec)
                                   (bcl2fastq_bylane s)) s))
            by (destruct s; reflexivity).
          generalize (set_bylane (set (prepend_runid runId lane) (lane_counts rec)
                                    (bcl2fastq_bylane s)) s).
          induction (Lane.samples rec) as [|[x r] sd IHs]; intros s1.
          - simpl. lia.
          - cbn [fold_left]. destruct (IHs (reshape_sample runId s1 (x, r))) as [-> ->].
            rewrite reshape_sample_bysample.
            destruct (bysample_add_sums (prepend_runid runId x) r (bcl2fastq_bysample s1))
              as [-> ->].
            unfold values. simpl. lia. }
        destruct S as [-> ->]. unfold values. simpl. lia. }
    destruct L as [-> ->]. unfold tree_total, tree_perfect, values. simpl. lia.
Qed.

(** A lane as the report has it: sample names unique, none "undetermined". *)
Lemma well_formed_lane_samples path cr :
  NoDup (map SampleName (DemuxResults cr)) ->
  ~ In "undetermined" (map SampleName (DemuxResults cr)) ->
  Lane.samples (lane_record path cr) =
  map (fun d => (SampleName d, sample_record path d)) (DemuxResults cr)
  ++ [("undetermined", Sample.mk (Undetermined_NumberReads cr) 0 None)].
Proof.
  intros ND NU. rewrite lane_record_eq. cbn [Lane.samples].
  rewrite fold_set_fresh by exact ND. cbn [app].
  apply set_fresh. apply get_None_keys. unfold keys. now rewrite map_map.
Qed.

Section Conservation.

Variable json_loads : string -> option Stats.

(** X5. Whatever the files, the totals of the by-sample view add up to the
    totals of all per-sample records of the tree, the synthetic undetermined
    records included, and so do the perfectIndex counts: the merge across
    lanes neither drops nor double counts a record, also when qualified keys
    coincide. *)
Theorem X5_bysample_view_conserves_counts (files : list logfile) :
  let s := exec (gather json_loads files ;; collect) new_self in
  counts_total (bcl2fastq_bysample s) = tree_total (bcl2fastq_data s) /\
  counts_perfect (bcl2fastq_bysample s) = tree_perfect (bcl2fastq_data s).
Proof.
  intros s. unfold s, exec. rewrite gather_collect_run. cbn [snd].
  destruct (reshape_frame (collected (gathered json_loads files new_self))) as (-> & _).
  unfold reshape.
  destruct (reshape_runs_sums
              (bcl2fastq_data (collected (gathered json_loads files new_self)))
              (collected (gathered json_loads files new_self))) as [-> ->].
  destruct (collected_fields (gathered json_loads files new_self)) as (_ & _ & -> & _).
  unfold counts_total, counts_perfect. simpl. lia.
Qed.

End Conservation.

Lemma lane_record_sums path cr :
  NoDup (map SampleName (DemuxResults cr)) ->
  ~ In "undetermined" (map SampleName (DemuxResults cr)) ->
  let rec := lane_record path cr in
  Lane.total rec = real_samples_total rec /\
  Lane.perfectIndex rec = samples_perfect rec /\
  samples_total rec = Lane.total rec + Undetermined_NumberReads cr.
Proof.
  intros ND NU rec.
  assert (K : filter (fun e : string * Sample.t => negb (String.eqb (fst e) "undetermined"))
                (map (fun d => (SampleName d, sample_record path d)) (DemuxResults cr)) =
              map (fun d => (SampleName d, sample_record path d)) (DemuxResults cr)).
  { revert NU. clear. induction (DemuxResults cr) as [|x ds IH]; simpl; intros NI; auto.
    destruct (String.eqb_spec (SampleName x) "undetermined") as [E|N]; [tauto|].
    simpl. rewrite IH; tauto. }
  unfold real_samples_total, samples_perfect, samples_total, rec.
  rewrite well_formed_lane_samples by assumption.
  rewrite filter_app, K. cbn [filter fst]. rewrite String.eqb_refl. cbn [negb].
  rewrite lane_record_eq. cbn [Lane.total Lane.perfectIndex].
  unfold values. rewrite !map_app, !map_map, !sum_Z_app.
  change (fun x => Sample.total (snd (SampleName x, sample_record path x)))
    with NumberReads.
  change (fun x => Sample.perfectIndex (snd (SampleName x, sample_record path x)))
    with perfect_reads.
  cbn [map sum_Z fold_right snd Sample.total Sample.perfectIndex].
  repeat split; lia.
Qed.

(** X6. For a lane whose sample names are pairwise distinct and none of which
    is "undetermined", ingestion keeps the lane record consistent with its
    samples mapping: the lane total is the sum of the totals of the real
    samples, the lane perfectIndex the sum of their perfectIndex, and the
    whole mapping sums to the lane total plus Undetermined.NumberReads. *)
Theorem X6_lane_record_consistent (path : string) (cr : ConversionResult) :
  NoDup (map SampleName (DemuxResults cr)) ->
  ~ In "undetermined" (map SampleName (DemuxResults cr)) ->
  let rec := lane_record path cr in
  Lane.total rec = real_samples_total rec /\
  Lane.perfectIndex rec = samples_perfect rec /\
  samples_total rec = Lane.total rec + Undetermined_NumberReads cr.
Proof. exact (lane_record_sums path cr). Qed.

Lemma X6_witness :
  let rec := lane_record "/data/run1/lane1/Stats.json" example_lane in
  Lane.total rec = real_samples_total rec /\
  Lane.perfectIndex rec = samples_perfect rec /\
  samples_total rec = Lane.total rec + 10.
Proof.
  apply (X6_lane_record_consistent "/data/run1/lane1/Stats.json" example_lane).
  - simpl. repeat constructor. simpl. tauto.
  - simpl. intros [H|[]]. discriminate.
Defined.

(** ** The by-lane view, as a whole *)

Lemma bylane_fold_lanes runId lanes s :
  bcl2fastq_bylane (fold_left (reshape_lane runId) lanes s) =
  fold_left (fun b e => set (fst e) (snd e) b)
    (map (fun lane => (prepend_runid runId (fst lane), lane_counts (snd lane))) lanes)
    (bcl2fastq_bylane s).
Proof.
  revert s. induction lanes as [|[lane rec] lanes IH]; intros s; simpl; auto.
  now rewrite IH, reshape_lane_bylane.
Qed.

Lemma bylane_fold_runs data s :
  bcl2fastq_bylane (fold_left reshape_run data s) =
  fold_left (fun b e => set (fst e) (snd e) b) (bylane_of_tree data) (bcl2fastq_bylane s).
Proof.
  revert s. induction data as [|[runId lanes] data IH]; intros s; simpl; auto.
  now rewrite fold_left_app, IH, bylane_fold_lanes.
Qed.

Lemma keys_bylane_of_tree data :
  keys (bylane_of_tree data) =
  flat_map (fun run => map (prepend_runid (fst run)) (keys (snd run))) data.
Proof.
  unfold keys, bylane_of_tree.
  induction data as [|[runId lanes] data IH]; simpl; auto.
  now rewrite map_app, IH, !map_map.
Qed.

Lemma NoDup_map_injective {A B} (g : A -> B) (l : list A) :
  (forall a b, g a = g b -> a = b) -> NoDup l -> NoDup (map g l).
Proof.
  intros Inj. induction 1 as [|x l NI ND IH]; simpl; constructor; auto.
  intros I. apply in_map_iff in I. destruct I as (y & E & Iy).
  apply Inj in E. now subst y.
Qed.

Lemma NoDup_bylane_of_tree data :
  tree_keys_ok data -> NoDup (keys (bylane_of_tree data)).
Proof.
  rewrite keys_bylane_of_tree. intros [ND F].
  induction data as [|[runId lanes] data IH]; simpl; [constructor|].
  inversion ND as [|? ? NI ND']; subst. inversion F as [|? ? [NL L] F']; subst.
  cbn [fst snd] in *. apply NoDup_app.
  - apply NoDup_map_injective; auto.
    intros a b. apply prepend_runid_inj.
  - now apply IH.
  - intros k I1 I2. apply in_map_iff in I1. destruct I1 as (l & <- & Il).
    apply in_flat_map in I2. destruct I2 as ([r2 lanes2] & Ir & I2). cbn [fst snd] in I2.
    apply in_map_iff in I2. destruct I2 as (l2 & E & Il2).
    unfold keys in Il, Il2. apply in_map_iff in Il, Il2.
    destruct Il as ([l' rec] & <- & Irec). destruct Il2 as ([l2' rec2] & <- & Irec2).
    unfold lanes_named in L. rewrite Forall_forall in L.
    destruct (L _ Irec) as [n En]. cbn [fst] in *.
    rewrite Forall_forall in F'. destruct (F' _ Ir) as [_ L2]. cbn [snd] in L2.
    unfold lanes_named in L2. rewrite Forall_forall in L2.
    destruct (L2 _ Irec2) as [n2 En2]. cbn [fst] in *. subst l' l2'.
    apply lane_key_inj in E. destruct E as [-> _].
    apply NI. unfold keys. apply in_map_iff. exists (runId, lanes2). auto.
Qed.

Lemma bylane_view_of_tree data s :
  tree_keys_ok data -> bcl2fastq_bylane s = [] ->
  bcl2fastq_bylane (fold_left reshape_run data s) = bylane_of_tree data.
Proof.
  intros T E. rewrite bylane_fold_runs, E.
  rewrite (fold_set_fresh fst snd) by (simpl; now apply NoDup_bylane_of_tree).
  simpl. rewrite <- (map_id (bylane_of_tree data)) at 2.
  apply map_ext. now intros [k v].
Qed.

Section ByLaneView.

Variable json_loads : string -> option Stats.

Lemma bylane_gathered files :
  let s := exec (gather json_loads files ;; collect) new_self in
  bcl2fastq_bylane s = bylane_of_tree (bcl2fastq_data s).
Proof.
  intros s. unfold s, exec. rewrite gather_collect_run. cbn [snd].
  destruct (reshape_frame (collected (gathered json_loads files new_self))) as (-> & _).
  unfold reshape.
  destruct (collected_fields (gathered json_loads files new_self)) as (D & B & _).
  rewrite D. apply bylane_view_of_tree.
  - apply gathered_tree_keys_ok.
  - exact B.
Qed.

(** X7. Whatever the files, the by-lane view is the tree read run by run and
    lane by lane: one record per lane of the tree, in the order of the tree,
    under the key of its run and lane, holding the lane's total, its
    perfectIndex and the total of its undetermined entry.  No two lanes share
    a key, so the view has as many records as the tree has lanes. *)
Theorem X7_bylane_view_is_the_tree (files : list logfile) :
  let s := exec (gather json_loads files ;; collect) new_self in
  bcl2fastq_bylane s = bylane_of_tree (bcl2fastq_data s) /\
  NoDup (keys (bcl2fastq_bylane s)) /\
  len (bcl2fastq_bylane s) =
    sum_Z (map (fun lanes => len lanes) (values (bcl2fastq_data s))).
Proof.
  intros s. pose proof (bylane_gathered files) as E. cbv zeta in E. fold s in E.
  split; [exact E|]. rewrite E. split.
  - apply NoDup_bylane_of_tree. unfold s, exec. rewrite gather_collect_run. cbn [snd].
    destruct (reshape_frame (collected (gathered json_loads files new_self))) as (-> & _).
    destruct (collected_fields (gathered json_loads files new_self)) as (-> & _).
    apply gathered_tree_keys_ok.
  - clear E. unfold len, bylane_of_tree, values.
    induction (bcl2fastq_data s) as [|[runId lanes] data IH]; simpl; auto.
    rewrite length_app, length_map, Nat2Z.inj_add. unfold len in IH. rewrite IH.
    reflexivity.
Qed.

End ByLaneView.

(** ** Where the lanes of the tree come from *)

Section Provenance.

Variable json_loads : string -> option Stats.
Variable all : list logfile.

Lemma run_data_from runId s :
  tree_from json_loads all (bcl2fastq_data s) ->
  Forall (lane_from json_loads all runId) (run_data runId s).
Proof.
  intros T. unfold run_data. destruct (get runId (bcl2fastq_data s)) eqn:G; [|constructor].
  apply get_In in G. unfold tree_from in T. rewrite Forall_forall in T.
  apply (T _ G).
Qed.

Lemma tree_from_ingest_lane runId path cr s :
  tree_from json_loads all (bcl2fastq_data s) ->
  lane_from json_loads all runId (lane_name (LaneNumber cr), lane_record path cr) ->
  tree_from json_loads all (bcl2fastq_data (ingest_lane runId path cr s)).
Proof.
  intros T L. rewrite ingest_lane_data. apply Forall_set; auto. cbn [fst snd].
  apply Forall_set; auto. now apply run_data_from.
Qed.

Lemma tree_from_ingest_file myfile s :
  In myfile all ->
  tree_from json_loads all (bcl2fastq_data s) ->
  tree_from json_loads all (bcl2fastq_data (ingest_file json_loads myfile s)).
Proof.
  intros I T. unfold ingest_file. destruct (json_loads (f myfile)) as [content|] eqn:J.
  - assert (T1 : tree_from json_loads all (bcl2fastq_data
              (if contains (RunId content) (bcl2fastq_data s) then s
               else set_data (set (RunId content) [] (bcl2fastq_data s)) s))).
    { destruct (contains _ _); auto. destruct s; simpl in *.
      apply Forall_set; [exact T | constructor]. }
    revert T1. generalize (if contains (RunId content) (bcl2fastq_data s) then s
                else set_data (set (RunId content) [] (bcl2fastq_data s)) s).
    assert (Sub : incl (ConversionResults content) (ConversionResults content))
      by apply incl_refl.
    revert Sub. generalize (ConversionResults content) at 1 3.
    induction l as [|cr crs IH]; intros Sub s1 T1; simpl; auto.
    apply IH.
    + intros x Ix. apply Sub. now right.
    + apply tree_from_ingest_lane; auto.
      exists myfile, content, cr. repeat split; auto. apply Sub. now left.
  - destruct s; assumption.
Qed.

Lemma tree_from_ingest_files files s :
  incl files all ->
  tree_from json_loads all (bcl2fastq_data s) ->
  tree_from json_loads all
    (bcl2fastq_data (fold_left (fun s myfile => ingest_file json_loads myfile s) files s)).
Proof.
  revert s. induction files as [|myfile files IH]; intros s Sub T; simpl; auto.
  apply IH.
  - intros x Ix. apply Sub. now right.
  - apply tree_from_ingest_file; auto. apply Sub. now left.
Qed.

End Provenance.

Lemma gathered_tree_from json_loads files s :
  tree_from json_loads files (bcl2fastq_data (gathered json_loads files s)).
Proof.
  unfold gathered. apply tree_from_ingest_files.
  - apply incl_refl.
  - destruct s; constructor.
Qed.

(** ** The two views account for the same reads *)

Lemma bylane_of_tree_sums data :
  Forall (fun run =>
            Forall (fun lane : string * Lane.t =>
                      get "undetermined" (Lane.samples (snd lane)) <> None /\
                      samples_total (snd lane) =
                        Lane.total (snd lane)
                        + match get "undetermined" (Lane.samples (snd lane)) with
                          | Some u => Sample.total u
                          | None => 0
                          end /\
                      samples_perfect (snd lane) = Lane.perfectIndex (snd lane))
              (snd run)) data ->
  tree_total data =
    counts_total (bylane_of_tree data) + counts_undetermined (bylane_of_tree data) /\
  tree_perfect data = counts_perfect (bylane_of_tree data).
Proof.
  unfold tree_total, tree_perfect, counts_total, counts_undetermined, counts_perfect,
    bylane_of_tree, values.
  induction 1 as [|[runId lanes] data L F IH]; simpl; [split; reflexivity|].
  destruct IH as [IH1 IH2]. unfold values in *.
  rewrite !map_app, !sum_Z_app, IH1, IH2. cbn [snd fst] in L.
  assert (E : sum_Z (map samples_total (map snd lanes)) =
              sum_Z (map Counts.total
                       (map snd (map (fun lane : string * Lane.t =>
                                        (prepend_runid runId (fst lane),
                                         lane_counts (snd lane))) lanes)))
              + sum_Z (map (fun c => match Counts.undetermined c with
                                     | Some u => u | None => 0 end)
                         (map snd (map (fun lane : string * Lane.t =>
                                          (prepend_runid runId (fst lane),
                                           lane_counts (snd lane))) lanes))) /\
              sum_Z (map samples_perfect (map snd lanes)) =
              sum_Z (map Counts.perfectIndex
                       (map snd (map (fun lane : string * Lane.t =>
                                        (prepend_runid runId (fst lane),
                                         lane_counts (snd lane))) lanes)))).
  { clear -L. induction L as [|[lane rec] lanes (U & S & P) L IH]; simpl; [split; reflexivity|].
    destruct IH as [-> ->]. cbn [snd] in *. rewrite S, P.
    destruct (get "undetermined" (Lane.samples rec)); simpl; split; lia. }
  destruct E as [-> ->]. split; lia.
Qed.

Section Reconciliation.

Variable json_loads : string -> option Stats.

(** X8. When every lane of every parseable file is as bcl2fastq writes it
    (sample names pairwise distinct, none named "undetermined"), the two views
    account for the same reads: the totals of the by-sample view add up to the
    totals plus the undetermined counts of the by-lane view, and the
    perfectIndex counts of both views add up to the same number. *)
Theorem X8_views_account_for_the_same_reads (files : list logfile) :
  (forall myfile content cr,
     In myfile files -> json_loads (f myfile) = Some content ->
     In cr (ConversionResults content) -> well_formed_lane cr) ->
  let s := exec (gather json_loads files ;; collect) new_self in
  counts_total (bcl2fastq_bysample s) =
    counts_total (bcl2fastq_bylane s) + counts_undetermined (bcl2fastq_bylane s) /\
  counts_perfect (bcl2fastq_bysample s) = counts_perfect (bcl2fastq_bylane s).
Proof.
  intros W s.
  pose proof (bylane_gathered json_loads files) as B. cbv zeta in B. fold s in B.
  rewrite B. clear B.
  assert (D : bcl2fastq_data s = bcl2fastq_data (gathered json_loads files new_self)).
  { unfold s, exec. rewrite gather_collect_run. cbn [snd].
    destruct (reshape_frame (collected (gathered json_loads files new_self))) as (-> & _).
    now destruct (collected_fields (gathered json_loads files new_self)) as (-> & _). }
  assert (V : counts_total (bcl2fastq_bysample s) = tree_total (bcl2fastq_data s) /\
              counts_perfect (bcl2fastq_bysample s) = tree_perfect (bcl2fastq_data s)).
  { unfold s, exec. rewrite gather_collect_run. cbn [snd].
    destruct (reshape_frame (collected (gathered json_loads files new_self))) as (-> & _).
    unfold reshape.
    destruct (reshape_runs_sums
                (bcl2fastq_data (collected (gathered json_loads files new_self)))
                (collected (gathered json_loads files new_self))) as [-> ->].
    destruct (collected_fields (gathered json_loads files new_self)) as (_ & _ & -> & _).
    unfold counts_total, counts_perfect. simpl. lia. }
  destruct V as [-> ->]. apply bylane_of_tree_sums. rewrite D.
  pose proof (gathered_tree_from json_loads files new_self) as T.
  unfold tree_from in T. eapply Forall_impl; [|exact T].
  intros [runId lanes] L. cbn [fst snd] in *. eapply Forall_impl; [|exact L].
  intros [lane rec] (myfile & content & cr & I & J & Icr & _ & _ & E).
  cbn [snd] in *. subst rec. destruct (W _ _ _ I J Icr) as [ND NU].
  destruct (lane_record_sums (file_path myfile) cr ND NU) as (_ & P & S).
  rewrite get_undetermined_lane_record. cbn [Sample.total].
  repeat split; auto. discriminate.
Qed.

End Reconciliation.

Lemma X8_witness :
  let s := exec (gather example_loads [example_file; second_file] ;; collect) new_self in
  counts_total (bcl2fastq_bysample s) =
    counts_total (bcl2fastq_bylane s) + counts_undetermined (bcl2fastq_bylane s) /\
  counts_perfect (bcl2fastq_bysample s) = counts_perfect (bcl2fastq_bylane s).
Proof.
  apply (X8_views_account_for_the_same_reads example_loads [example_file; second_file]).
  intros myfile content cr [<-|[<-|[]]] J I; vm_compute in J; injection J as <-;
    destruct I as [<-|[]]; split; simpl.
  - repeat constructor. simpl. tauto.
  - intros [H|[]]; discriminate.
  - repeat constructor. simpl. tauto.
  - intros [H|[]]; discriminate.
Defined.

(** ** The reshape on any tree *)

Lemma for_each_spec {A} (body : A -> M unit) (P : A -> Prop) (Q : exn -> Prop) :
  (forall x s,
     match body x s with
     | (Ok _, s') => P x /\ untouched s s'
     | (Raise e, s') => ~ P x /\ Q e /\ untouched s s'
     end) ->
  forall l s,
    match for_each l body s with
    | (Ok _, s') => Forall P l /\ untouched s s'
    | (Raise e, s') => ~ Forall P l /\ Q e /\ untouched s s'
    end.
Proof.
  intros H. induction l as [|x l IH]; intros s; simpl.
  - unfold ret. repeat split; auto.
  - unfold bind. specialize (H x s). destruct (body x s) as [[[]|e] s1].
    + destruct H as [Px (D1 & L1 & R1)]. specialize (IH s1).
      destruct (for_each l body s1) as [[[]|e] s2].
      * destruct IH as [F (D2 & L2 & R2)]. split; [now constructor|].
        repeat split; congruence.
      * destruct IH as (NF & Qe & D2 & L2 & R2). split; [|split]; auto.
        -- intros F. inversion F; auto.
        -- repeat split; congruence.
    + destruct H as (NP & Qe & U). split; [|split]; auto.
      intros F. inversion F; auto.
Qed.

Lemma split_sample_spec runId entry s :
  match split_sample runId entry s with
  | (Ok _, s') => sample_ok entry /\ untouched s s'
  | (Raise e, s') => ~ sample_ok entry /\ e = KeyError "filename" /\ untouched s s'
  end.
Proof.
  destruct entry as [sample rec]. unfold sample_ok, untouched. cbn [fst snd].
  unfold split_sample, bind, gets, when, modify, ret, raise.
  destruct s as [dt bl bs sf lg rp]. simpl.
  destruct (contains _ bs); simpl;
    destruct (String.eqb_spec sample "undetermined") as [->|N]; simpl;
    destruct (Sample.filename rec) as [path|]; simpl;
    try (destruct (contains _ sf); simpl);
    repeat split; auto; try (right; discriminate); intros [H|H]; congruence.
Qed.

Lemma split_lane_spec runId entry s :
  match split_lane runId entry s with
  | (Ok _, s') => lane_ok entry /\ untouched s s'
  | (Raise e, s') => ~ lane_ok entry /\ missing_key e /\ untouched s s'
  end.
Proof.
  destruct entry as [lane rec]. unfold lane_ok, missing_key. cbn [snd].
  unfold split_lane, bind, modify, ret, raise.
  destruct (get "undetermined" (Lane.samples rec)) as [u|].
  - pose proof (for_each_spec (split_sample runId) sample_ok
                  (fun e => e = KeyError "filename") (split_sample_spec runId)
                  (Lane.samples rec)
                  (set_bylane
                     (set (prepend_runid runId lane)
                        (Counts.mk (Lane.total rec) (Lane.perfectIndex rec)
                           (Some (Sample.total u)))
                        (bcl2fastq_bylane s)) s)) as H.
    destruct (for_each _ _ _) as [[[]|e] s'].
    + destruct H as [F U]. split; [split; [discriminate | exact F]|].
      destruct s; exact U.
    + destruct H as (NF & -> & U). split; [tauto|]. split; [now right|].
      destruct s; exact U.
  - split; [tauto|]. split; [now left|]. unfold untouched. auto.
Qed.

Lemma split_run_spec entry s :
  match split_run entry s with
  | (Ok _, s') => Forall lane_ok (snd entry) /\ untouched s s'
  | (Raise e, s') => ~ Forall lane_ok (snd entry) /\ missing_key e /\ untouched s s'
  end.
Proof.
  destruct entry as [runId lanes]. cbn [snd split_run].
  apply (for_each_spec (split_lane runId) lane_ok missing_key (split_lane_spec runId)).
Qed.

Lemma split_data_spec s :
  match split_data_by_lane_and_sample s with
  | (Ok _, s') => tree_ok (bcl2fastq_data s) /\ untouched s s'
  | (Raise e, s') => ~ tree_ok (bcl2fastq_data s) /\ missing_key e /\ untouched s s'
  end.
Proof.
  unfold split_data_by_lane_and_sample, bind, gets.
  apply (for_each_spec split_run (fun run => Forall lane_ok (snd run)) missing_key
           split_run_spec).
Qed.

(** X9. On any state, the reshape returns normally exactly when every lane of
    the tree has its "undetermined" entry and every other sample its file
    name; otherwise it raises KeyError, for the key "undetermined" or for the
    key "filename", and nothing else.  Whether it returns or raises, it
    leaves the tree, the log and the report as they were. *)
Theorem X9_reshape_raises_on_missing_keys (s : Self) :
  (outcome split_data_by_lane_and_sample s = Ok tt <-> tree_ok (bcl2fastq_data s)) /\
  (forall e, outcome split_data_by_lane_and_sample s = Raise e ->
     e = KeyError "undetermined" \/ e = KeyError "filename") /\
  bcl2fastq_data (exec split_data_by_lane_and_sample s) = bcl2fastq_data s /\
  log (exec split_data_by_lane_and_sample s) = log s /\
  report (exec split_data_by_lane_and_sample s) = report s.
Proof.
  unfold outcome, exec. pose proof (split_data_spec s) as H.
  destruct (split_data_by_lane_and_sample s) as [[[]|e] s']; cbn [fst snd].
  - destruct H as [T U]. split; [tauto|]. split; [discriminate|]. exact U.
  - destruct H as (NT & Q & U). split; [|split].
    + split; [discriminate | tauto].
    + intros e' [= <-]. exact Q.
    + exact U.
Qed.

Lemma X9_witness :
  ~ tree_ok no_undetermined_tree /\
  outcome split_data_by_lane_and_sample (set_data no_undetermined_tree new_self) =
    Raise (KeyError "undetermined") /\
  ~ tree_ok no_filename_tree /\
  outcome split_data_by_lane_and_sample (set_data no_filename_tree new_self) =
    Raise (KeyError "filename").
Proof.
  pose proof (X9_reshape_raises_on_missing_keys (set_data no_undetermined_tree new_self))
    as [[_ H1] _].
  pose proof (X9_reshape_raises_on_missing_keys (set_data no_filename_tree new_self))
    as [[_ H2] _].
  repeat split.
  - intros T. specialize (H1 T). vm_compute in H1. discriminate.
  - intros T. specialize (H2 T). vm_compute in H2. discriminate.
Defined.

(** ** The source-file index *)

Lemma In_set {V} k (v : V) d e : In e (set k v d) -> e = (k, v) \/ In e d.
Proof.
  induction d as [|[k0 v0] d IH]; simpl.
  - intros [<-|[]]. now left.
  - destruct (String.eqb k k0); simpl.
    + intros [<-|I]; auto.
    + intros [<-|I]; auto. destruct (IH I); auto.
Qed.

Lemma In_fold_set {X V} (key : X -> string) (val : X -> V) xs d e :
  In e (fold_left (fun d x => set (key x) (val x) d) xs d) ->
  In e d \/ exists x, In x xs /\ e = (key x, val x).
Proof.
  revert d. induction xs as [|x xs IH]; intros d; simpl; auto.
  intros I. destruct (IH _ I) as [I'|(y & Iy & ->)].
  - apply In_set in I'. destruct I' as [->|I']; eauto.
  - eauto.
Qed.

Lemma sources_ok_add (Q : string -> string -> Prop) sample key path src :
  sources_ok Q src ->
  (sample <> "undetermined" -> Q key path) ->
  sources_ok Q (sources_add sample key path src).
Proof.
  intros S H. unfold sources_add.
  destruct (String.eqb_spec sample "undetermined") as [E|N]; auto.
  intros k paths. rewrite get_alter.
  destruct (String.eqb_spec k key) as [->|Nk].
  - unfold contains. destruct (get key src) as [l|] eqn:G.
    + rewrite G. cbn [option_map]. intros [= <-]. destruct (S _ _ G) as [_ Ql]. split.
      * now destruct l.
      * intros p I. apply in_app_iff in I. destruct I as [I|[<-|[]]]; auto.
    + rewrite get_set_same. cbn [option_map app]. intros [= <-]. split; [discriminate|].
      intros p [<-|[]]. auto.
  - destruct (contains key src); [apply S|].
    rewrite get_set_other by auto. apply S.
Qed.

Lemma lane_record_samples_from path cr x r p :
  In (x, r) (Lane.samples (lane_record path cr)) ->
  Sample.filename r = Some p ->
  p = path /\ exists d, In d (DemuxResults cr) /\ SampleName d = x.
Proof.
  rewrite lane_record_eq. cbn [Lane.samples]. intros I F.
  apply In_set in I. destruct I as [[= -> ->]|I]; [discriminate|].
  apply In_fold_set in I. destruct I as [[]|(d & Id & [= -> ->])].
  cbn in F. injection F as <-. eauto.
Qed.

Section SourceIndex.

Variable json_loads : string -> option Stats.
Variable files : list logfile.

Lemma sources_ok_samples runId sd s :
  sources_ok (sample_from json_loads files) (source_files s) ->
  (forall x r p, In (x, r) sd -> Sample.filename r = Some p -> x <> "undetermined" ->
     sample_from json_loads files (prepend_runid runId x) p) ->
  sources_ok (sample_from json_loads files)
    (source_files (fold_left (reshape_sample runId) sd s)).
Proof.
  revert s. induction sd as [|[x r] sd IH]; intros s S H; simpl; auto.
  apply IH.
  - unfold reshape_sample. destruct (Sample.filename r) as [p|] eqn:F.
    + destruct s; cbn. apply sources_ok_add; auto.
      intros N. apply (H x r p); auto. now left.
    + destruct s; exact S.
  - intros y r' p I. apply H. now right.
Qed.

Lemma sources_ok_lanes runId lanes s :
  sources_ok (sample_from json_loads files) (source_files s) ->
  Forall (lane_from json_loads files runId) lanes ->
  sources_ok (sample_from json_loads files)
    (source_files (fold_left (reshape_lane runId) lanes s)).
Proof.
  intros S F. revert s S.
  induction F as [|[lane rec] lanes L F IH]; intros s S; simpl; auto.
  apply IH. unfold reshape_lane. apply sources_ok_samples.
  - destruct s; exact S.
  - destruct L as (myfile & content & cr & I & J & Icr & -> & _ & E).
    cbn [snd] in E. subst rec. intros x r p Ix Fp N.
    destruct (lane_record_samples_from _ _ _ _ _ Ix Fp) as (-> & d & Id & <-).
    exists myfile, content, cr, d. repeat split; auto.
Qed.

Lemma sources_ok_runs data s :
  sources_ok (sample_from json_loads files) (source_files s) ->
  tree_from json_loads files data ->
  sources_ok (sample_from json_loads files)
    (source_files (fold_left reshape_run data s)).
Proof.
  intros S T. revert s S.
  induction T as [|[runId lanes] data L T IH]; intros s S; simpl; auto.
  apply IH. now apply sources_ok_lanes.
Qed.

(** X10. Whatever the files, every path the source-file index lists under a
    key is the path of a parseable input file that reports, under the run of
    the key, a sample of that name other than "undetermined"; and no key of
    the index has an empty list. *)
Theorem X10_source_files_name_reporting_files (key : string) (paths : list string) :
  get key (source_files (exec (gather json_loads files ;; collect) new_self)) =
    Some paths ->
  paths <> [] /\
  forall path, In path paths ->
    exists myfile content cr d,
      In myfile files /\ json_loads (f myfile) = Some content /\
      In cr (ConversionResults content) /\ In d (DemuxResults cr) /\
      SampleName d <> "undetermined" /\
      key = prepend_runid (RunId content) (SampleName d) /\
      path = file_path myfile.
Proof.
  unfold exec. rewrite gather_collect_run. cbn [snd]. unfold reshape.
  apply (sources_ok_runs
           (bcl2fastq_data (collected (gathered json_loads files new_self)))
           (collected (gathered json_loads files new_self))).
  - destruct (collected_fields (gathered json_loads files new_self))
      as (_ & _ & _ & -> & _).
    intros k l. discriminate.
  - destruct (collected_fields (gathered json_loads files new_self)) as (-> & _).
    apply gathered_tree_from.
Qed.

End SourceIndex.

Lemma X10_witness :
  exists paths,
    get "RUN1 - S1"
      (source_files
         (exec (gather example_loads [example_file; second_file] ;; collect) new_self)) =
      Some paths /\
    paths <> [] /\
    forall path, In path paths ->
      exists myfile content cr d,
        In myfile [example_file; second_file] /\
        example_loads (f myfile) = Some content /\
        In cr (ConversionResults content) /\ In d (DemuxResults cr) /\
        SampleName d <> "undetermined" /\
        "RUN1 - S1" = prepend_runid (RunId content) (SampleName d) /\
        path = file_path myfile.
Proof.
  eexists. split; [vm_compute; reflexivity|].
  apply (X10_source_files_name_reporting_files example_loads
           [example_file; second_file] "RUN1 - S1").
  vm_compute. reflexivity.
Defined.

(** ** What reading one file changes *)

Lemma set_set {V} k (v1 v2 : V) d : set k v2 (set k v1 d) = set k v2 d.
Proof.
  induction d as [|[k0 v0] d IH]; simpl.
  - now rewrite String.eqb_refl.
  - destruct (String.eqb k k0) eqn:E; simpl.
    + now rewrite String.eqb_refl.
    + now rewrite E, IH.
Qed.

Lemma set_get_same {V} k (v : V) d : get k d = Some v -> set k v d = d.
Proof.
  induction d as [|[k0 v0] d IH]; simpl; [discriminate|].
  destruct (String.eqb_spec k k0) as [->|N].
  - now intros [= ->].
  - intros G. now rewrite IH.
Qed.

Lemma ingest_lanes_data runId path crs s lanes :
  get runId (bcl2fastq_data s) = Some lanes ->
  bcl2fastq_data (fold_left (fun s cr => ingest_lane runId path cr s) crs s) =
  set runId (lanes_after path crs lanes) (bcl2fastq_data s).
Proof.
  revert s lanes. induction crs as [|cr crs IH]; intros s lanes G; simpl.
  - symmetry. now apply set_get_same.
  - rewrite (IH _ (set (lane_name (LaneNumber cr)) (lane_record path cr) lanes)).
    + rewrite ingest_lane_data, set_set. reflexivity.
    + rewrite ingest_lane_data, get_set_same. unfold run_data. now rewrite G.
Qed.

Lemma ingest_lanes_log runId path crs s :
  exists msgs,
    log (fold_left (fun s cr => ingest_lane runId path cr s) crs s) = log s ++ msgs /\
    Forall (fun m => exists cr, In cr crs /\ m = duplicate_message runId (LaneNumber cr))
      msgs.
Proof.
  revert s. induction crs as [|cr crs IH]; intros s; simpl.
  - exists []. now rewrite app_nil_r.
  - destruct (IH (ingest_lane runId path cr s)) as (msgs & -> & F).
    rewrite ingest_lane_log.
    exists ((if contains (lane_name (LaneNumber cr)) (run_data runId s)
             then [duplicate_message runId (LaneNumber cr)] else []) ++ msgs).
    split; [now rewrite app_assoc|].
    apply Forall_app. split.
    + destruct (contains _ _); constructor; eauto.
    + eapply Forall_impl; [|exact F]. intros m (c & I & ->). eauto.
Qed.

Section OneFile.

Variable json_loads : string -> option Stats.

Lemma ingest_file_data myfile content s :
  json_loads (f myfile) = Some content ->
  bcl2fastq_data (ingest_file json_loads myfile s) =
  set (RunId content)
    (lanes_after (file_path myfile) (ConversionResults content)
       (run_data (RunId content) s))
    (bcl2fastq_data s).
Proof.
  intros J. unfold ingest_file. rewrite J. unfold contains, run_data.
  destruct (get (RunId content) (bcl2fastq_data s)) as [lanes|] eqn:G.
  - now apply ingest_lanes_data.
  - rewrite (ingest_lanes_data _ _ _ _ []).
    + destruct s; simpl. apply set_set.
    + destruct s; simpl. apply get_set_same.
Qed.

(** X11. Reading a parseable file never raises and changes the tree in one
    place only, the lane mapping of the file's own run: the run keeps its
    position or, when new, goes last, also when the file reports no lane;
    every other run's mapping is the same object as before; in the file's run
    every lane the file does not report is as before; the views, the
    source-file index and the report are as before, and the log has grown by
    duplicate diagnostics for lanes of this file at most. *)
Theorem X11_reading_a_file_is_local (myfile : logfile) (content : Stats) (s : Self) :
  json_loads (f myfile) = Some content ->
  let s' := exec (parse_file_as_json json_loads myfile) s in
  outcome (parse_file_as_json json_loads myfile) s = Ok tt /\
  keys (bcl2fastq_data s') =
    (if contains (RunId content) (bcl2fastq_data s) then keys (bcl2fastq_data s)
     else keys (bcl2fastq_data s) ++ [RunId content]) /\
  (forall runId, runId <> RunId content ->
     get runId (bcl2fastq_data s') = get runId (bcl2fastq_data s)) /\
  (forall lane,
     ~ In lane (map (fun cr => lane_name (LaneNumber cr)) (ConversionResults content)) ->
     lookup_lane (RunId content) lane (bcl2fastq_data s') =
     lookup_lane (RunId content) lane (bcl2fastq_data s)) /\
  bcl2fastq_bylane s' = bcl2fastq_bylane s /\
  bcl2fastq_bysample s' = bcl2fastq_bysample s /\
  source_files s' = source_files s /\
  report s' = report s /\
  exists msgs, log s' = log s ++ msgs /\ Forall (duplicate_of content) msgs.
Proof.
  intros J s'. unfold s', exec, outcome. rewrite parse_file_as_json_run. cbn [fst snd].
  split; [reflexivity|].
  rewrite (ingest_file_data myfile content s J).
  split; [|split; [|split]].
  - unfold contains. destruct (get (RunId content) (bcl2fastq_data s)) eqn:G.
    + apply keys_set_in. congruence.
    + rewrite set_fresh by assumption. unfold keys. now rewrite map_app.
  - intros runId N. apply get_set_other. congruence.
  - intros lane NI. unfold lookup_lane at 1. rewrite get_set_same.
    unfold lanes_after.
    rewrite (get_fold_set (fun cr => lane_name (LaneNumber cr))
               (fun cr => lane_record (file_path myfile) cr)).
    rewrite no_assignment by assumption. apply get_run_data.
  - destruct (ingest_file_frame json_loads myfile s) as (-> & -> & -> & ->).
    repeat split.
    unfold ingest_file. rewrite J.
    destruct (ingest_lanes_log (RunId content) (file_path myfile)
                (ConversionResults content)
                (if contains (RunId content) (bcl2fastq_data s) then s
                 else set_data (set (RunId content) [] (bcl2fastq_data s)) s))
      as (msgs & E & F).
    exists msgs. split; [|exact F].
    rewrite E. destruct (contains _ _); destruct s; reflexivity.
Qed.

End OneFile.

Lemma X11_witness :
  let s := exec (parse_file_as_json example_loads example_file) new_self in
  let s' := exec (parse_file_as_json example_loads second_file) s in
  outcome (parse_file_as_json example_loads second_file) s = Ok tt /\
  keys (bcl2fastq_data s') = ["RUN1"] /\
  lookup_lane "RUN1" "L1" (bcl2fastq_data s') =
    Some (lane_record (file_path example_file) example_lane) /\
  bcl2fastq_bylane s' = [] /\ report s' = [].
Proof.
  intros s s'.
  pose proof (X11_reading_a_file_is_local example_loads second_file second_stats s
                eq_refl) as H.
  cbv zeta in H. fold s' in H.
  destruct H as (O & K & _ & L & B & _ & _ & R & _).
  split; [exact O|]. split; [exact K|]. split; [|split; [exact B | exact R]].
  change (RunId second_stats) with "RUN1" in L. rewrite (L "L1").
  - reflexivity.
  - simpl. intros [H|[]]. discriminate.
Defined.

(** ** Input without lanes *)

Section NoLanes.

Variable json_loads : string -> option Stats.

Lemma ingest_file_no_lanes myfile s :
  reports_no_lane json_loads myfile ->
  no_lanes (bcl2fastq_data s) ->
  no_lanes (bcl2fastq_data (ingest_file json_loads myfile s)) /\
  log (ingest_file json_loads myfile s) =
    log s ++ map unparsable_message (unparsable json_loads [myfile]).
Proof.
  intros H N. unfold ingest_file, unparsable, parseable. cbn [filter].
  destruct (json_loads (f myfile)) as [content|] eqn:J.
  - rewrite (H content J). cbn [fold_left negb map]. rewrite app_nil_r.
    destruct (contains _ _); [auto|]. destruct s; simpl in *. split; auto.
    apply Forall_set; auto.
  - cbn [negb map]. destruct s; simpl. auto.
Qed.

Lemma ingest_files_no_lanes files s :
  Forall (reports_no_lane json_loads) files ->
  no_lanes (bcl2fastq_data s) ->
  let s' := fold_left (fun s myfile => ingest_file json_loads myfile s) files s in
  no_lanes (bcl2fastq_data s') /\
  log s' = log s ++ map unparsable_message (unparsable json_loads files).
Proof.
  intros F. revert s. induction F as [|myfile files H F IH]; intros s N; cbn [fold_left].
  - simpl. split; auto. now rewrite app_nil_r.
  - destruct (ingest_file_no_lanes myfile s H N) as [N1 L1].
    destruct (IH _ N1) as [N2 L2]. split; auto.
    rewrite L2, L1, <- app_assoc, <- map_app. f_equal. f_equal.
    unfold unparsable. cbn [filter]. now destruct (negb (parseable json_loads myfile)).
Qed.

Lemma reshape_no_lanes data s : no_lanes data -> fold_left reshape_run data s = s.
Proof.
  induction 1 as [|[runId lanes] data E N IH]; simpl; auto.
  cbn [snd] in E. subst lanes. exact IH.
Qed.

End NoLanes.

Lemma last_write_Some runId n events rec :
  last_write runId n events (Some rec) <> None.
Proof.
  revert rec. induction events as [|e events IH]; intros rec; simpl; [discriminate|].
  destruct (reports_lane runId n e); apply IH.
Qed.

Lemma last_write_reported runId n events before e :
  In e events -> reports_lane runId n e = true ->
  last_write runId n events before <> None.
Proof.
  intros I R. destruct (in_split _ _ I) as (pre & post & ->).
  change (e :: post) with ([e] ++ post). rewrite !last_write_app.
  unfold last_write at 2. cbn [fold_left]. rewrite R. apply last_write_Some.
Qed.

Lemma alter_nonempty {V} (g : V -> V) k d : d <> [] -> alter g k d <> [].
Proof.
  destruct d as [|[k0 v0] d]; simpl; [congruence|].
  destruct (String.eqb k k0); discriminate.
Qed.

Lemma bysample_add_nonempty key rec b : bysample_add key rec b <> [].
Proof.
  unfold bysample_add. apply alter_nonempty, alter_nonempty.
  unfold contains. destruct (get key b) eqn:G.
  - destruct b; [discriminate | discriminate].
  - rewrite set_fresh by assumption. now destruct b.
Qed.

Lemma bysample_nonempty_samples runId sd s :
  bcl2fastq_bysample s <> [] \/ sd <> [] ->
  bcl2fastq_bysample (fold_left (reshape_sample runId) sd s) <> [].
Proof.
  revert s. induction sd as [|[x r] sd IH]; intros s H; simpl.
  - destruct H; congruence.
  - apply IH. left. rewrite reshape_sample_bysample. apply bysample_add_nonempty.
Qed.

Lemma bysample_nonempty_lanes runId lanes s :
  bcl2fastq_bysample s <> [] \/
  Exists (fun lane : string * Lane.t => Lane.samples (snd lane) <> []) lanes ->
  bcl2fastq_bysample (fold_left (reshape_lane runId) lanes s) <> [].
Proof.
  revert s. induction lanes as [|[lane rec] lanes IH]; intros s H; simpl.
  - destruct H as [H|H]; [exact H | inversion H].
  - apply IH. destruct H as [H|H].
    + left. unfold reshape_lane. apply bysample_nonempty_samples. left.
      destruct s; exact H.
    + inversion H as [? ? H1|? ? H1]; subst; auto.
      left. unfold reshape_lane. apply bysample_nonempty_samples. now right.
Qed.

Lemma bysample_nonempty_runs data s :
  bcl2fastq_bysample s <> [] \/
  Exists (fun run : string * dict Lane.t =>
            Exists (fun lane : string * Lane.t => Lane.samples (snd lane) <> [])
              (snd run)) data ->
  bcl2fastq_bysample (fold_left reshape_run data s) <> [].
Proof.
  revert s. induction data as [|[runId lanes] data IH]; intros s H; simpl.
  - destruct H as [H|H]; [exact H | inversion H].
  - apply IH. destruct H as [H|H].
    + left. apply bysample_nonempty_lanes. now left.
    + inversion H as [? ? H1|? ? H1]; subst; auto.
      left. apply bysample_nonempty_lanes. now right.
Qed.

Section NothingToReport.

Variable json_loads : string -> option Stats.
Variable ignore_samples : dict Counts.t -> dict Counts.t.
Variables analysis_dir read_count_prefix : string.

(** X12. When no file reports a lane (each file fails to parse or has an
    empty ConversionResults list; the empty file list included) and the host's
    filter maps the empty mapping to itself, the constructor raises
    UserWarning with nothing handed to the host, and its log is the warnings
    of the files that did not parse, in order, followed by the debug message
    naming the analysis directory.  When some parseable file reports a lane,
    both views are non-empty before the filter. *)
Theorem X12_no_lane_nothing_to_report (files : list logfile) :
  let run :=
    MultiqcModule_init json_loads ignore_samples analysis_dir read_count_prefix files in
  let views := exec (gather json_loads files ;; collect) new_self in
  (Forall (reports_no_lane json_loads) files -> ignore_samples [] = [] ->
   outcome run new_self = Raise UserWarning /\
   report (exec run new_self) = [] /\
   log (exec run new_self) =
     map unparsable_message (unparsable json_loads files)
     ++ [(DEBUG, ("Could not find any bcl2fastq data in " ++ analysis_dir)%string)]) /\
  ((exists myfile content,
      In myfile files /\ json_loads (f myfile) = Some content /\
      ConversionResults content <> []) ->
   bcl2fastq_bylane views <> [] /\ bcl2fastq_bysample views <> []).
Proof.
  intros run views. split.
  - intros F I. unfold run, outcome, exec. rewrite MultiqcModule_init_run. cbv zeta.
    unfold filtered.
    assert (N : no_lanes (bcl2fastq_data (set_data [] new_self))) by constructor.
    destruct (ingest_files_no_lanes json_loads files (set_data [] new_self) F N)
      as [N1 L1].
    fold (gathered json_loads files new_self) in N1, L1.
    unfold reshape.
    destruct (collected_fields (gathered json_loads files new_self))
      as (D & B & S & _ & L & R).
    rewrite D, (reshape_no_lanes _ _ N1), B, S, I.
    cbn [bcl2fastq_bylane bcl2fastq_bysample set_bylane set_bysample len List.length
         Z.of_nat Z.eqb andb fst snd log report set_log].
    rewrite L, R, L1.
    assert (R0 : report (gathered json_loads files new_self) = []).
    { unfold gathered.
      now destruct (ingest_files_frame json_loads files (set_data [] new_self))
        as (_ & _ & _ & ->). }
    rewrite R0. repeat split.
  - intros (myfile & content & I & J & NE).
    destruct (ConversionResults content) as [|cr crs] eqn:C; [congruence|].
    assert (W : last_write (RunId content) (LaneNumber cr) (ingested json_loads files)
                  None <> None).
    { apply (last_write_reported _ _ _ _ (RunId content, file_path myfile, cr)).
      - unfold ingested. apply in_flat_map. exists myfile. split; auto.
        unfold file_events. rewrite J, C. now left.
      - unfold reports_lane. cbn [fst snd]. now rewrite String.eqb_refl, Z.eqb_refl. }
    split.
    + intros E.
      pose proof (bylane_of_files json_loads files (RunId content) (LaneNumber cr)) as G.
      fold views in G. rewrite E in G. cbn [get] in G.
      destruct (last_write _ _ _ None); [discriminate | congruence].
    + unfold views, exec. rewrite gather_collect_run. cbn [snd]. unfold reshape.
      apply bysample_nonempty_runs. right.
      destruct (collected_fields (gathered json_loads files new_self)) as (-> & _).
      pose proof (lookup_lane_ingest_files json_loads files (set_data [] new_self)
                    (RunId content) (LaneNumber cr)) as G.
      fold (gathered json_loads files new_self) in G.
      cbn [bcl2fastq_data set_data new_self] in G.
      unfold lookup_lane at 2 in G. cbn [get] in G.
      destruct (last_write _ _ _ None) as [rec|] eqn:LW; [|congruence].
      unfold lookup_lane in G.
      destruct (get (RunId content) (bcl2fastq_data (gathered json_loads files new_self)))
        as [lanes|] eqn:GR; [|discriminate].
      apply get_In in GR. apply get_In in G.
      apply Exists_exists. exists (RunId content, lanes). split; auto.
      apply Exists_exists. exists (lane_name (LaneNumber cr), rec). split; auto.
      cbn [snd].
      pose proof (gathered_tree_ok json_loads files new_self) as T.
      unfold tree_ok in T. rewrite Forall_forall in T. specialize (T _ GR).
      rewrite Forall_forall in T. destruct (T _ G) as [U _]. cbn [snd] in U.
      intros E. rewrite E in U. now apply U.
Qed.

End NothingToReport.

Lemma X12_witness :
  let run :=
    MultiqcModule_init laneless_loads ignore_nothing "/data" "M" [broken_file; laneless_file] in
  outcome run new_self = Raise UserWarning /\
  report (exec run new_self) = [] /\
  log (exec run new_self) =
    [unparsable_message broken_file;
     (DEBUG, "Could not find any bcl2fastq data in /data")].
Proof.
  apply (X12_no_lane_nothing_to_report laneless_loads ignore_nothing "/data" "M"
           [broken_file; laneless_file]).
  - repeat constructor; intros content J; vm_compute in J; [discriminate|].
    now injection J as <-.
  - reflexivity.
Defined.

(** ** Binary64: no integer but 0 converts to a zero *)

Lemma finish_not_zero s q e :
  2 ^ 52 <= Zpos q <= 2 ^ 53 -> -1074 <= e ->
  match finish s (shr_fexp prec emax (Zpos q) e loc_Exact) with
  | S754_finite _ _ _ | S754_infinity _ => True
  | _ => False
  end.
Proof.
  intros [L U] He.
  assert (C : Zpos q < 2 ^ 53 \/ Zpos q = 2 ^ 53) by lia.
  destruct C as [C|C].
  - assert (D : Zpos (digits2_pos q) = 53).
    { rewrite digits2_pos_size. apply size_unique; [lia|]. simpl Z.sub. lia. }
    unfold shr_fexp. cbn [Zdigits2]. rewrite D.
    replace (fexp prec emax (53 + e) - e) with 0
      by (unfold fexp, emin, prec, emax; lia).
    cbn [shr shr_record_of_loc finish shr_m].
    destruct (e <=? emax - prec); exact I.
  - injection C as ->.
    unfold shr_fexp. cbn [Zdigits2 digits2_pos Pos.succ].
    replace (fexp prec emax (54 + e) - e) with 1
      by (unfold fexp, emin, prec, emax; lia).
    cbn [shr shr_record_of_loc iter_pos shr_1 finish shr_m orb].
    destruct (e + 1 <=? emax - prec); exact I.
Qed.

Lemma binary_round_not_zero s p :
  match binary_round prec emax s p 0 with
  | S754_finite _ _ _ | S754_infinity _ => True
  | _ => False
  end.
Proof.
  unfold binary_round.
  destruct (size_bounds p) as [L U]. rewrite <- digits2_pos_size in L, U.
  set (d := Zpos (digits2_pos p)) in *.
  assert (Hd : 1 <= d) by (unfold d; lia).
  destruct (Z_le_gt_dec d 53) as [Hs|Hb].
  - replace (fexp prec emax (d + 0)) with (d - 53)
      by (unfold fexp, emin, prec, emax; lia).
    unfold shl_align.
    destruct (d - 53 - 0) as [|k|k] eqn:E; try lia.
    + rewrite binary_round_aux_finish.
      unfold shr_fexp at 1. cbn [Zdigits2]. fold d.
      replace (fexp prec emax (d + 0) - 0) with 0
        by (unfold fexp, emin, prec, emax; lia).
      cbn [shr shr_record_of_loc shr_m loc_of_shr_record round_nearest_even].
      apply finish_not_zero; [|lia].
      replace 53 with d by lia. replace 52 with (d - 1) by lia. lia.
    + rewrite binary_round_aux_finish.
      unfold shr_fexp at 1. cbn [Zdigits2]. rewrite digits_iter_xO. fold d.
      replace (fexp prec emax (d + Zpos k + (d - 53)) - (d - 53)) with 0
        by (unfold fexp, emin, prec, emax; lia).
      cbn [shr shr_record_of_loc shr_m loc_of_shr_record round_nearest_even].
      apply finish_not_zero; [|lia].
      assert (I : Zpos (Pos.iter xO p k) = Zpos p * 2 ^ Zpos k).
      { clear. induction k as [|k IH] using Pos.peano_ind.
        - simpl. lia.
        - rewrite Pos.iter_succ.
          change (Zpos (Pos.iter xO p k)~0) with (2 * Zpos (Pos.iter xO p k)).
          rewrite IH, Pos2Z.inj_succ, Z.pow_succ_r by lia. lia. }
      rewrite I.
      replace 53 with (d + Zpos k) by lia. replace 52 with (d - 1 + Zpos k) by lia.
      rewrite !Z.pow_add_r by lia. nia.
  - replace (fexp prec emax (d + 0)) with (d - 53)
      by (unfold fexp, emin, prec, emax; lia).
    unfold shl_align.
    destruct (d - 53 - 0) as [|k|k] eqn:E; try lia.
    rewrite binary_round_aux_finish.
    unfold shr_fexp at 1. cbn [Zdigits2]. fold d.
    replace (fexp prec emax (d + 0) - 0) with (Zpos k)
      by (unfold fexp, emin, prec, emax; lia).
    cbn [shr shr_record_of_loc].
    set (mrs := iter_pos shr_1 k {| shr_m := Zpos p; shr_r := false; shr_s := false |}).
    assert (M : shr_m mrs = Zpos p / 2 ^ Zpos k).
    { unfold mrs. rewrite shr_m_iter; simpl; [reflexivity | lia]. }
    assert (R : 2 ^ 52 <= shr_m mrs < 2 ^ 53).
    { rewrite M. split.
      - apply Z.div_le_lower_bound; [lia|].
        rewrite <- Z.pow_add_r by lia. replace (Zpos k + 52) with (d - 1) by lia. lia.
      - apply Z.div_lt_upper_bound; [lia|].
        rewrite <- Z.pow_add_r by lia. replace (Zpos k + 53) with d by lia. lia. }
    destruct (round_nearest_even_cases (shr_m mrs) (loc_of_shr_record mrs)) as [-> | ->].
    + destruct (shr_m mrs) as [|q|q] eqn:Q; try lia.
      apply finish_not_zero; lia.
    + destruct (shr_m mrs + 1) as [|q|q] eqn:Q; try lia.
      apply finish_not_zero; lia.
Qed.

Lemma float_of_int_zero z b : float_of_int z = Ok (S754_zero b) -> z = 0.
Proof.
  unfold float_of_int. destruct z as [|p|p]; [reflexivity| |]; cbn [binary_normalize].
  - pose proof (binary_round_not_zero false p) as H.
    destruct (binary_round prec emax false p 0); try discriminate; contradiction.
  - pose proof (binary_round_not_zero true p) as H.
    destruct (binary_round prec emax true p 0); try discriminate; contradiction.
Qed.

Lemma float_of_int_cases z :
  float_of_int z = Raise OverflowError \/
  (z = 0 /\ float_of_int z = Ok (S754_zero false)) \/
  (z <> 0 /\ exists s m e, float_of_int z = Ok (S754_finite s m e)).
Proof.
  unfold float_of_int. destruct z as [|p|p]; cbn [binary_normalize].
  - right. left. split; reflexivity.
  - pose proof (binary_round_not_zero false p) as H.
    destruct (binary_round prec emax false p 0); try contradiction; [now left|].
    right. right. split; [discriminate | eauto].
  - pose proof (binary_round_not_zero true p) as H.
    destruct (binary_round prec emax true p 0); try contradiction; [now left|].
    right. right. split; [discriminate | eauto].
Qed.

Lemma perfectPercent_cases perfectIndex total :
  match perfectPercent perfectIndex total with
  | Ok _ => total <> 0
  | Raise ZeroDivisionError => total = 0
  | Raise _ => True
  end.
Proof.
  unfold perfectPercent.
  destruct (float_of_int_cases perfectIndex) as [-> | [[_ ->] | [_ (s & m & e & ->)]]];
    [exact I| |];
    destruct (float_of_int_cases total) as [-> | [[Z ->] | [N (s' & m' & e' & ->)]]];
    auto.
Qed.

Lemma general_stats_data_cases bysample :
  match general_stats_data bysample with
  | Ok data =>
      keys data = keys bysample /\
      map StatsRow.total (values data) = map Counts.total (values bysample) /\
      Forall (fun entry => Counts.total (snd entry) <> 0) bysample
  | Raise ZeroDivisionError =>
      Exists (fun entry => Counts.total (snd entry) = 0) bysample
  | Raise _ => True
  end.
Proof.
  induction bysample as [|[key c] rest IH]; simpl.
  - repeat split; constructor.
  - pose proof (perfectPercent_cases (Counts.perfectIndex c) (Counts.total c)) as P.
    destruct (perfectPercent _ _) as [p|e].
    + destruct (general_stats_data rest) as [data|e].
      * destruct IH as (K & T & F). unfold keys, values in *. simpl.
        rewrite K, T. repeat split. constructor; auto.
      * destruct e; auto.
    + destruct e; auto.
Qed.

Section GeneralStats.

Variable read_count_prefix : string.

(** X13. Whatever the counts: when the general statistics are computed, one
    call hands the host one row per sample of the by-sample mapping, under
    the same keys in the same order and with the sample's total, and no
    sample has total 0; ZeroDivisionError is raised only when some sample has
    total 0; and when an error is raised the object is left as it was, with
    nothing handed to the host. *)
Theorem X13_general_stats_rows (s : Self) :
  let run := add_general_stats read_count_prefix in
  (outcome run s = Ok tt ->
   exists data,
     report (exec run s) =
       report s ++ [general_stats_addcols data (headers read_count_prefix)] /\
     keys data = keys (bcl2fastq_bysample s) /\
     map StatsRow.total (values data) =
       map Counts.total (values (bcl2fastq_bysample s)) /\
     Forall (fun entry => Counts.total (snd entry) <> 0) (bcl2fastq_bysample s)) /\
  (outcome run s = Raise ZeroDivisionError ->
   Exists (fun entry => Counts.total (snd entry) = 0) (bcl2fastq_bysample s)) /\
  (forall e, outcome run s = Raise e -> exec run s = s).
Proof.
  intros run. unfold run, outcome, exec. rewrite add_general_stats_run.
  pose proof (general_stats_data_cases (bcl2fastq_bysample s)) as C.
  destruct (general_stats_data (bcl2fastq_bysample s)) as [data|e]; cbn [fst snd].
  - split; [|split]; try discriminate.
    intros _. exists data. destruct s; simpl. auto.
  - split; [discriminate|]. split; [|reflexivity].
    intros [= ->]. exact C.
Qed.

End GeneralStats.

Lemma X13_witness :
  let s := set_bysample [("RUN1 - S1", Counts.mk 200 150 None);
                         ("RUN1 - undetermined", Counts.mk 0 0 None)] new_self in
  Exists (fun entry => Counts.total (snd entry) = 0) (bcl2fastq_bysample s) /\
  exec (add_general_stats "M") s = s.
Proof.
  intros s.
  destruct (X13_general_stats_rows "M" s) as (_ & Z & E).
  split.
  - apply Z. vm_compute. reflexivity.
  - apply (E ZeroDivisionError). vm_compute. reflexivity.
Defined.

(** X14. A sample without perfect-index reads: for a total between 1 and
    2^1023 the percentage is rendered as "0.0"; for a negative total above
    -2^1023 the quotient is the negative zero and is rendered as "-0.0". *)
Theorem X14_no_perfect_reads_render_zero (total : Z) :
  (0 < total < 2 ^ 1023 -> perfectPercent 0 total = Ok "0.0"%string) /\
  (- 2 ^ 1023 < total < 0 -> perfectPercent 0 total = Ok "-0.0"%string).
Proof.
  unfold perfectPercent, float_of_int. cbn [binary_normalize]. split; intros B.
  - destruct total as [|p|p]; try lia. cbn [binary_normalize].
    destruct (binary_round_finite false p) as (m & e & ->); [lia|]. reflexivity.
  - destruct total as [|p|p]; try lia. cbn [binary_normalize].
    destruct (binary_round_finite true p) as (m & e & ->); [lia|]. reflexivity.
Qed.

Lemma X14_witness :
  perfectPercent 0 7 = Ok "0.0"%string /\ perfectPercent 0 (-7) = Ok "-0.0"%string.
Proof.
  split.
  - apply (proj1 (X14_no_perfect_reads_render_zero 7)). lia.
  - apply (proj2 (X14_no_perfect_reads_render_zero (-7))). lia.
Defined.

(** ** The filter and the data sources *)


Section DataSources.

Variable json_loads : string -> option Stats.
Variable ignore_samples : dict Counts.t -> dict Counts.t.
Variables analysis_dir read_count_prefix : string.


End DataSources.


(** ** The log of the ingestion holds justified messages only *)

Lemma reported_twice_app runId n ev ev' :
  reported_twice runId n ev -> reported_twice runId n (ev ++ ev').
Proof.
  intros (pre & e1 & mid & e2 & post & -> & R1 & R2).
  exists pre, e1, mid, e2, (post ++ ev'). split; [|auto].
  rewrite <- app_assoc. cbn [app]. rewrite <- app_assoc. reflexivity.
Qed.

Lemma log_ok_ingest_lane P ev runId path cr s :
  log_ok P ev s ->
  log_ok P (ev ++ [(runId, path, cr)]) (ingest_lane runId path cr s).
Proof.
  intros [S L]. split.
  - intros r n. rewrite seen_ingest_lane.
    destruct (reports_lane r n (runId, path, cr)) eqn:R.
    + intros _. exists (runId, path, cr). split; [|exact R].
      apply in_or_app. right. now left.
    + intros H. destruct (S r n H) as (e & I & Re). exists e. split; [|exact Re].
      apply in_or_app. now left.
  - intros m. rewrite ingest_lane_log. intros I. apply in_app_or in I.
    destruct I as [I|I].
    + destruct (L m I) as [Pm|(r & n & -> & T)]; [now left|].
      right. exists r, n. split; [reflexivity|]. now apply reported_twice_app.
    + fold (seen runId (LaneNumber cr) s) in I.
      destruct (seen runId (LaneNumber cr) s) eqn:Sn; [|destruct I].
      destruct I as [<-|[]]. right. exists runId, (LaneNumber cr). split; [reflexivity|].
      destruct (S _ _ Sn) as (e1 & I1 & R1).
      destruct (in_split _ _ I1) as (pre & mid & ->).
      exists pre, e1, mid, (runId, path, cr), []. split; [|split]; auto.
      * rewrite <- app_assoc. reflexivity.
      * unfold reports_lane. cbn [fst snd]. now rewrite String.eqb_refl, Z.eqb_refl.
Qed.

Lemma log_ok_ingest_lanes P runId path crs ev s :
  log_ok P ev s ->
  log_ok P (ev ++ map (fun cr => (runId, path, cr)) crs)
    (fold_left (fun s cr => ingest_lane runId path cr s) crs s).
Proof.
  revert ev s. induction crs as [|cr crs IH]; intros ev s H; simpl.
  - now rewrite app_nil_r.
  - change ((runId, path, cr) :: map (fun cr => (runId, path, cr)) crs)
      with ([(runId, path, cr)] ++ map (fun cr => (runId, path, cr)) crs).
    rewrite app_assoc. apply IH. now apply log_ok_ingest_lane.
Qed.

Lemma seen_lookup runId n s :
  seen runId n s =
  match lookup_lane runId (lane_name n) (bcl2fastq_data s) with
  | Some _ => true
  | None => false
  end.
Proof. unfold seen, contains. now rewrite get_run_data. Qed.

Section LogOk.

Variable json_loads : string -> option Stats.

Lemma log_ok_ingest_file (P : level * string -> Prop) ev myfile s :
  (json_loads (f myfile) = None -> P (unparsable_message myfile)) ->
  log_ok P ev s ->
  log_ok P (ev ++ file_events json_loads myfile) (ingest_file json_loads myfile s).
Proof.
  intros HP H. unfold ingest_file, file_events.
  destruct (json_loads (f myfile)) as [content|].
  - apply log_ok_ingest_lanes. destruct H as [S L]. split.
    + intros r n. rewrite seen_lookup, lookup_lane_ensure_run, <- seen_lookup. apply S.
    + intros m I. apply L. destruct (contains _ _); destruct s; exact I.
  - rewrite app_nil_r. destruct H as [S L]. split.
    + intros r n Sn. apply S. destruct s; exact Sn.
    + intros m I. destruct s; cbn in I. apply in_app_or in I.
      destruct I as [I|[<-|[]]]; auto.
Qed.

Lemma log_ok_ingest_files (P : level * string -> Prop) files ev s :
  (forall myfile, In myfile files -> json_loads (f myfile) = None ->
     P (unparsable_message myfile)) ->
  log_ok P ev s ->
  log_ok P (ev ++ ingested json_loads files)
    (fold_left (fun s myfile => ingest_file json_loads myfile s) files s).
Proof.
  revert ev s. induction files as [|myfile files IH]; intros ev s HP H; simpl.
  - now rewrite app_nil_r.
  - rewrite app_assoc. apply IH.
    + intros x I. apply HP. now right.
    + apply log_ok_ingest_file; auto. apply HP. now left.
Qed.

(** X16. The ingestion logs nothing without cause: every entry of its log is
    either the warning of an input file that does not parse, or the duplicate
    diagnostic of a run and lane that two ingested ConversionResults entries
    report. *)
Theorem X16_ingestion_log_is_justified (files : list logfile) (m : level * string) :
  In m (log (exec (gather json_loads files) new_self)) ->
  (exists myfile,
     In myfile files /\ json_loads (f myfile) = None /\ m = unparsable_message myfile) \/
  (exists runId n pre e1 mid e2 post,
     m = duplicate_message runId n /\
     ingested json_loads files = pre ++ e1 :: mid ++ e2 :: post /\
     reports_lane runId n e1 = true /\ reports_lane runId n e2 = true).
Proof.
  unfold exec. rewrite gather_run. cbn [snd]. intros I.
  destruct (log_ok_ingest_files
              (fun m => exists myfile,
                          In myfile files /\ json_loads (f myfile) = None /\
                          m = unparsable_message myfile)
              files [] (set_data [] new_self)) as [_ L].
  - intros myfile If J. eauto.
  - split; [|intros x []]. intros r n Sn. vm_compute in Sn. discriminate.
  - destruct (L m I) as [H|(r & n & -> & pre & e1 & mid & e2 & post & E & R1 & R2)].
    + now left.
    + right. exists r, n, pre, e1, mid, e2, post. auto.
Qed.

End LogOk.

Lemma X16_witness :
  (exists myfile,
     In myfile [example_file; broken_file; example_file] /\
     example_loads (f myfile) = None /\
     duplicate_message "RUN1" 1 = unparsable_message myfile) \/
  (exists runId n pre e1 mid e2 post,
     duplicate_message "RUN1" 1 = duplicate_message runId n /\
     ingested example_loads [example_file; broken_file; example_file] =
       pre ++ e1 :: mid ++ e2 :: post /\
     reports_lane runId n e1 = true /\ reports_lane runId n e2 = true).
Proof.
  apply (X16_ingestion_log_is_justified example_loads
           [example_file; broken_file; example_file] (duplicate_message "RUN1" 1)).
  vm_compute. right. left. reflexivity.
Defined.

(** ** The keys of the by-lane view and the input *)

Lemma In_keys_get {V} k (d : dict V) : In k (keys d) <-> get k d <> None.
Proof.
  split.
  - intros I G. apply get_None_keys in G. contradiction.
  - intros G. destruct (in_dec string_dec k (keys d)) as [I|NI]; auto.
    apply get_None_keys in NI. contradiction.
Qed.

Section ByLaneKeys.

Variable json_loads : string -> option Stats.

(** X17. The by-lane view has a record under a key exactly when some
    ConversionResults entry of a parseable file reports the run and lane of
    that key; with the keys of the view pairwise distinct, this is one record
    for each run and lane number of the input, however often it is
    reported. *)
Theorem X17_bylane_keys_are_the_reported_lanes (files : list logfile) (key : string) :
  let bylane := bcl2fastq_bylane (exec (gather json_loads files ;; collect) new_self) in
  NoDup (keys bylane) /\
  (In key (keys bylane) <->
   exists myfile content cr,
     In myfile files /\ json_loads (f myfile) = Some content /\
     In cr (ConversionResults content) /\
     key = prepend_runid (RunId content) (lane_name (LaneNumber cr))).
Proof.
  intros bylane.
  assert (D : bcl2fastq_data (exec (gather json_loads files ;; collect) new_self) =
              bcl2fastq_data (gathered json_loads files new_self)).
  { unfold exec. rewrite gather_collect_run. cbn [snd].
    destruct (reshape_frame (collected (gathered json_loads files new_self))) as (-> & _).
    now destruct (collected_fields (gathered json_loads files new_self)) as (-> & _). }
  pose proof (bylane_gathered json_loads files) as B. cbv zeta in B. fold bylane in B.
  rewrite D in B. split.
  - rewrite B. apply NoDup_bylane_of_tree, gathered_tree_keys_ok.
  - split.
    + rewrite B, keys_bylane_of_tree. intros I.
      apply in_flat_map in I. destruct I as ([runId lanes] & Ir & I). cbn [fst snd] in I.
      apply in_map_iff in I. destruct I as (lane & <- & Il).
      unfold keys in Il. apply in_map_iff in Il. destruct Il as ([lane' rec] & <- & Il).
      pose proof (gathered_tree_from json_loads files new_self) as T.
      unfold tree_from in T. rewrite Forall_forall in T. specialize (T _ Ir).
      rewrite Forall_forall in T.
      destruct (T _ Il) as (myfile & content & cr & If & J & Icr & E1 & E2 & _).
      cbn [fst] in *. subst. exists myfile, content, cr. auto.
    + intros (myfile & content & cr & If & J & Icr & ->).
      apply In_keys_get. unfold bylane. rewrite bylane_of_files.
      assert (W : last_write (RunId content) (LaneNumber cr) (ingested json_loads files)
                    None <> None).
      { apply (last_write_reported _ _ _ _ (RunId content, file_path myfile, cr)).
        - unfold ingested. apply in_flat_map. exists myfile. split; auto.
          unfold file_events. rewrite J. apply in_map_iff. eauto.
        - unfold reports_lane. cbn [fst snd]. now rewrite String.eqb_refl, Z.eqb_refl. }
      destruct (last_write _ _ _ None); [discriminate | congruence].
Qed.

End ByLaneKeys.

Lemma X17_witness :
  keys (bcl2fastq_bylane
          (exec (gather example_loads [example_file; second_file; example_file] ;; collect)
             new_self)) = ["RUN1 - L1"; "RUN1 - L2"] /\
  In "RUN1 - L2"
    (keys (bcl2fastq_bylane
             (exec (gather example_loads [example_file; second_file; example_file]
                    ;; collect) new_self))).
Proof.
  split; [vm_compute; reflexivity|].
  apply (proj2 (X17_bylane_keys_are_the_reported_lanes example_loads
                  [example_file; second_file; example_file] "RUN1 - L2")).
  exists second_file, second_stats, second_lane.
  repeat split; simpl; auto.
Defined.

(** ** The keys of the by-sample view and of the source-file index *)

Lemma fold_left_keys {A} (g : Self -> A -> Self) (K : Self -> Prop) (C : A -> Prop) :
  (forall s a, K (g s a) <-> K s \/ C a) ->
  forall l s, K (fold_left g l s) <-> K s \/ exists a, In a l /\ C a.
Proof.
  intros H. induction l as [|a l IH]; intros s; simpl.
  - split; [auto | intros [?|(a & [] & _)]; auto].
  - rewrite IH, H. split.
    + intros [[?|?]|(b & I & Cb)]; eauto.
    + intros [?|(b & [<-|I] & Cb)]; eauto.
Qed.

Lemma keys_bysample_add k key rec b :
  In k (keys (bysample_add key rec b)) <-> In k (keys b) \/ k = key.
Proof.
  rewrite !In_keys_get, get_bysample_add.
  destruct (String.eqb_spec k key) as [->|N]; split; auto.
  - intros _ H. discriminate.
  - intros [?|?]; [assumption | contradiction].
Qed.

Lemma keys_sources_add k sample key path src :
  In k (keys (sources_add sample key path src)) <->
  In k (keys src) \/ (sample <> "undetermined" /\ k = key).
Proof.
  rewrite !In_keys_get. unfold sources_add.
  destruct (String.eqb_spec sample "undetermined") as [E|N].
  - split; auto. intros [?|[? _]]; [assumption | contradiction].
  - rewrite get_alter. unfold contains.
    destruct (String.eqb_spec k key) as [->|Nk].
    + split; auto. intros _.
      destruct (get key src) eqn:G; [rewrite G | rewrite get_set_same]; discriminate.
    + destruct (get key src) eqn:G.
      * split; auto. intros [?|[_ ?]]; [assumption | contradiction].
      * rewrite get_set_other by auto. split; auto.
        intros [?|[_ ?]]; [assumption | contradiction].
Qed.

Lemma keys_reshape_sample runId s x r k :
  (In k (keys (bcl2fastq_bysample (reshape_sample runId s (x, r)))) <->
   In k (keys (bcl2fastq_bysample s)) \/ k = prepend_runid runId x) /\
  (In k (keys (source_files (reshape_sample runId s (x, r)))) <->
   In k (keys (source_files s)) \/
   (Sample.filename r <> None /\ x <> "undetermined" /\ k = prepend_runid runId x)).
Proof.
  split.
  - rewrite reshape_sample_bysample. apply keys_bysample_add.
  - unfold reshape_sample. destruct (Sample.filename r) as [p|].
    + destruct s as [dt bl bs sf lg rp]; cbn [source_files set_source_files set_bysample].
      rewrite keys_sources_add. split.
      * intros [?|(? & ?)]; auto. right. repeat split; auto. discriminate.
      * intros [?|(_ & ? & ?)]; auto.
    + destruct s as [dt bl bs sf lg rp]; cbn [source_files set_bysample]. split; auto.
      intros [?|(? & _)]; [assumption | contradiction].
Qed.

Lemma keys_reshape_lane runId s lane rec k :
  (In k (keys (bcl2fastq_bysample (reshape_lane runId s (lane, rec)))) <->
   In k (keys (bcl2fastq_bysample s)) \/
   exists e, In e (Lane.samples rec) /\ k = prepend_runid runId (fst e)) /\
  (In k (keys (source_files (reshape_lane runId s (lane, rec)))) <->
   In k (keys (source_files s)) \/
   exists e, In e (Lane.samples rec) /\
     (Sample.filename (snd e) <> None /\ fst e <> "undetermined" /\
      k = prepend_runid runId (fst e))).
Proof.
  unfold reshape_lane.
  set (s1 := set_bylane _ s).
  assert (E1 : bcl2fastq_bysample s1 = bcl2fastq_bysample s) by (destruct s; reflexivity).
  assert (E2 : source_files s1 = source_files s) by (destruct s; reflexivity).
  rewrite <- E1, <- E2. split.
  - apply (fold_left_keys (reshape_sample runId)
             (fun s => In k (keys (bcl2fastq_bysample s)))
             (fun e => k = prepend_runid runId (fst e))).
    intros s0 [x r]. apply keys_reshape_sample.
  - apply (fold_left_keys (reshape_sample runId)
             (fun s => In k (keys (source_files s)))
             (fun e => Sample.filename (snd e) <> None /\ fst e <> "undetermined" /\
                       k = prepend_runid runId (fst e))).
    intros s0 [x r]. apply keys_reshape_sample.
Qed.

Lemma keys_reshape_run s run k :
  (In k (keys (bcl2fastq_bysample (reshape_run s run))) <->
   In k (keys (bcl2fastq_bysample s)) \/
   exists l, In l (snd run) /\
     exists e, In e (Lane.samples (snd l)) /\ k = prepend_runid (fst run) (fst e)) /\
  (In k (keys (source_files (reshape_run s run))) <->
   In k (keys (source_files s)) \/
   exists l, In l (snd run) /\
     exists e, In e (Lane.samples (snd l)) /\
       (Sample.filename (snd e) <> None /\ fst e <> "undetermined" /\
        k = prepend_runid (fst run) (fst e))).
Proof.
  destruct run as [runId lanes]. cbn [reshape_run fst snd]. split.
  - apply (fold_left_keys (reshape_lane runId)
             (fun s => In k (keys (bcl2fastq_bysample s)))
             (fun l => exists e, In e (Lane.samples (snd l)) /\
                                 k = prepend_runid runId (fst e))).
    intros s0 [lane rec]. apply keys_reshape_lane.
  - apply (fold_left_keys (reshape_lane runId)
             (fun s => In k (keys (source_files s)))
             (fun l => exists e, In e (Lane.samples (snd l)) /\
                         (Sample.filename (snd e) <> None /\ fst e <> "undetermined" /\
                          k = prepend_runid runId (fst e)))).
    intros s0 [lane rec]. apply keys_reshape_lane.
Qed.

Lemma keys_reshape data s k :
  tree_ok data ->
  bcl2fastq_bysample s = [] -> source_files s = [] ->
  (In k (keys (bcl2fastq_bysample (fold_left reshape_run data s))) <->
   sample_key_of data false k) /\
  (In k (keys (source_files (fold_left reshape_run data s))) <->
   sample_key_of data true k).
Proof.
  intros T B S. unfold sample_key_of. split.
  - rewrite (fold_left_keys reshape_run
               (fun s => In k (keys (bcl2fastq_bysample s)))
               (fun run => exists l, In l (snd run) /\
                  exists e, In e (Lane.samples (snd l)) /\
                            k = prepend_runid (fst run) (fst e)))
      by (intros; apply keys_reshape_run).
    rewrite B. split.
    + intros [[]|([runId lanes] & Ir & [lane rec] & Il & [x r] & Ie & ->)].
      exists runId, lanes, lane, rec, x. cbn [fst snd] in *. repeat split; auto.
      * unfold keys. apply in_map_iff. exists (x, r). auto.
      * discriminate.
    + intros (runId & lanes & lane & rec & x & Ir & Il & Ix & _ & ->). right.
      unfold keys in Ix. apply in_map_iff in Ix. destruct Ix as ([x' r] & <- & Ie).
      exists (runId, lanes). split; auto. exists (lane, rec). split; auto.
      exists (x', r). auto.
  - rewrite (fold_left_keys reshape_run
               (fun s => In k (keys (source_files s)))
               (fun run => exists l, In l (snd run) /\
                  exists e, In e (Lane.samples (snd l)) /\
                    (Sample.filename (snd e) <> None /\ fst e <> "undetermined" /\
                     k = prepend_runid (fst run) (fst e))))
      by (intros; apply keys_reshape_run).
    rewrite S. split.
    + intros [[]|([runId lanes] & Ir & [lane rec] & Il & [x r] & Ie & _ & N & ->)].
      exists runId, lanes, lane, rec, x. cbn [fst snd] in *. repeat split; auto.
      unfold keys. apply in_map_iff. exists (x, r). auto.
    + intros (runId & lanes & lane & rec & x & Ir & Il & Ix & N & ->). right.
      unfold keys in Ix. apply in_map_iff in Ix. destruct Ix as ([x' r] & <- & Ie).
      exists (runId, lanes). split; auto. exists (lane, rec). split; auto.
      exists (x', r). split; auto. cbn [fst snd] in *.
      unfold tree_ok in T. rewrite Forall_forall in T. specialize (T _ Ir).
      rewrite Forall_forall in T. destruct (T _ Il) as [_ F]. cbn [snd] in *.
      rewrite Forall_forall in F. destruct (F _ Ie) as [U|Fn]; cbn [fst snd] in *.
      * exfalso. now apply N.
      * auto.
Qed.

Section ViewKeys.

Variable json_loads : string -> option Stats.

(** X18. Whatever the files, the by-sample view has an entry under a key
    exactly when the key is the qualified name of a sample of some lane of
    the tree, the "undetermined" entry of a lane included; the source-file
    index has one exactly when it is the qualified name of such a sample
    other than "undetermined"; so every key of the index is a key of the
    by-sample view. *)
Theorem X18_sample_keys_are_the_samples_of_the_tree (files : list logfile) (key : string) :
  let s := exec (gather json_loads files ;; collect) new_self in
  (In key (keys (bcl2fastq_bysample s)) <-> sample_key_of (bcl2fastq_data s) false key) /\
  (In key (keys (source_files s)) <-> sample_key_of (bcl2fastq_data s) true key) /\
  (In key (keys (source_files s)) -> In key (keys (bcl2fastq_bysample s))).
Proof.
  intros s.
  assert (D : bcl2fastq_data s = bcl2fastq_data (gathered json_loads files new_self)).
  { unfold s, exec. rewrite gather_collect_run. cbn [snd].
    destruct (reshape_frame (collected (gathered json_loads files new_self))) as (-> & _).
    now destruct (collected_fields (gathered json_loads files new_self)) as (-> & _). }
  assert (K : (In key (keys (bcl2fastq_bysample s)) <->
               sample_key_of (bcl2fastq_data s) false key) /\
              (In key (keys (source_files s)) <->
               sample_key_of (bcl2fastq_data s) true key)).
  { rewrite D. unfold s, exec. rewrite gather_collect_run. cbn [snd]. unfold reshape.
    destruct (collected_fields (gathered json_loads files new_self))
      as (Dc & _ & B & S & _).
    rewrite Dc. apply keys_reshape; auto. apply gathered_tree_ok. }
  destruct K as [K1 K2]. split; [exact K1|]. split; [exact K2|].
  intros I. apply K1. apply K2 in I.
  destruct I as (runId & lanes & lane & rec & x & Ir & Il & Ix & _ & E).
  exists runId, lanes, lane, rec, x. repeat split; auto. discriminate.
Qed.

End ViewKeys.

Lemma X18_witness :
  let s := exec (gather example_loads [example_file] ;; collect) new_self in
  In "RUN1 - undetermined" (keys (bcl2fastq_bysample s)) /\
  ~ In "RUN1 - undetermined" (keys (source_files s)).
Proof.
  intros s.
  destruct (X18_sample_keys_are_the_samples_of_the_tree example_loads [example_file]
              "RUN1 - undetermined") as (K1 & K2 & _).
  fold s in K1, K2. split.
  - apply K1.
    exists "RUN1", [("L1", lane_record (file_path example_file) example_lane)],
      "L1", (lane_record (file_path example_file) example_lane), "undetermined".
    repeat split.
    + vm_compute. now left.
    + now left.
    + vm_compute. auto.
    + discriminate.
  - intros I. vm_compute in I. destruct I as [H|[]]. discriminate.
Defined.

(** ** A sample name listed twice in a lane *)

(** X19. When a lane lists a sample name more than once, the per-sample
    record holds the counts of the last entry of that name alone (line 86
    starts the record afresh), while the lane total and the lane perfectIndex
    count every entry. *)
Theorem X19_repeated_sample_name_last_entry_wins
    (path : string) (cr : ConversionResult) (pre post : list DemuxResult)
    (d : DemuxResult) :
  DemuxResults cr = pre ++ d :: post ->
  SampleName d <> "undetermined" ->
  ~ In (SampleName d) (map SampleName post) ->
  let rec := lane_record path cr in
  get (SampleName d) (Lane.samples rec) =
    Some (Sample.mk (NumberReads d) (perfect_reads d) (Some path)) /\
  Lane.total rec =
    sum_Z (map NumberReads pre) + NumberReads d + sum_Z (map NumberReads post) /\
  Lane.perfectIndex rec =
    sum_Z (map perfect_reads pre) + perfect_reads d + sum_Z (map perfect_reads post).
Proof.
  intros E NU NI rec. unfold rec. rewrite lane_record_eq, E.
  cbn [Lane.samples Lane.total Lane.perfectIndex]. split; [|split].
  - rewrite get_set_other by congruence.
    rewrite get_fold_set, fold_left_app. cbn [fold_left].
    rewrite String.eqb_refl. now rewrite no_assignment.
  - rewrite map_app, sum_Z_app. simpl. lia.
  - rewrite map_app, sum_Z_app. simpl. lia.
Qed.

Lemma X19_witness :
  let rec := lane_record "/data/run1/lane1/Stats.json" twice_lane in
  get "S1" (Lane.samples rec) =
    Some (Sample.mk 50 40 (Some "/data/run1/lane1/Stats.json")) /\
  Lane.total rec = 100 + 50 + 0 /\
  Lane.perfectIndex rec = 90 + 40 + 0.
Proof.
  apply (X19_repeated_sample_name_last_entry_wins "/data/run1/lane1/Stats.json"
           twice_lane [example_sample] [] second_sample).
  - reflexivity.
  - discriminate.
  - simpl. tauto.
Defined.

(** ** Sample keys and run ids *)

Lemma split_at_first c (a b x y : string) :
  has_char c a = false -> has_char c b = false ->
  (a ++ String c x = b ++ String c y)%string -> a = b /\ x = y.
Proof.
  revert b. induction a as [|a0 a IH]; intros [|b0 b] Ha Hb H; simpl in *.
  - injection H as ->. auto.
  - injection H as ->. rewrite Ascii.eqb_refl in Hb. discriminate.
  - injection H as ->. rewrite Ascii.eqb_refl in Ha. discriminate.
  - injection H as -> H. apply orb_false_iff in Ha, Hb.
    destruct (IH b (proj2 Ha) (proj2 Hb) H) as [-> ->]. auto.
Qed.

Lemma sample_key_inj r1 r2 x1 x2 :
  has_char " " r1 = false -> has_char " " r2 = false ->
  prepend_runid r1 x1 = prepend_runid r2 x2 -> r1 = r2 /\ x1 = x2.
Proof.
  unfold prepend_runid. intros H1 H2 E.
  change (" - " ++ x1)%string with (String " " ("- " ++ x1)) in E.
  change (" - " ++ x2)%string with (String " " ("- " ++ x2)) in E.
  apply split_at_first in E; auto. destruct E as [-> E]. split; auto.
  now apply (append_inj_r "- ") in E.
Qed.

(** X20. Two qualified sample keys [str(runId) + " - " + str(sample)] of run
    ids without a space are equal only for the same run and the same sample
    name; without that condition they can coincide: the sample "a - b" of
    run r and the sample b of run "r - a" get the same key. *)
Theorem X20_sample_keys_of_plain_run_ids (runId1 runId2 sample1 sample2 : string) :
  (has_char " " runId1 = false -> has_char " " runId2 = false ->
   prepend_runid runId1 sample1 = prepend_runid runId2 sample2 ->
   runId1 = runId2 /\ sample1 = sample2) /\
  prepend_runid runId1 (sample1 ++ " - " ++ sample2) =
    prepend_runid (runId1 ++ " - " ++ sample1) sample2.
Proof.
  split; [apply sample_key_inj|].
  unfold prepend_runid. now rewrite !append_assoc_s.
Qed.

Lemma X20_witness :
  ("RUN1" = "RUN1" /\ "S1" = "S1") /\
  prepend_runid "RUN1" "S1 - S1" = prepend_runid "RUN1 - S1" "S1".
Proof.
  destruct (X20_sample_keys_of_plain_run_ids "RUN1" "RUN1" "S1" "S1") as [H C].
  split.
  - apply H; reflexivity.
  - exact C.
Defined.

(** ** The by-sample entry of a run's sample, for any files *)

Lemma bysample_samples_other_run runId' sd s runId x :
  runId <> runId' ->
  has_char " " runId = false -> has_char " " runId' = false ->
  get (prepend_runid runId x)
    (bcl2fastq_bysample (fold_left (reshape_sample runId') sd s)) =
  get (prepend_runid runId x) (bcl2fastq_bysample s).
Proof.
  intros N H H'. revert s. induction sd as [|[y r] sd IH]; intros s; simpl; auto.
  rewrite IH, reshape_sample_bysample, get_bysample_add.
  destruct (String.eqb_spec (prepend_runid runId x) (prepend_runid runId' y)) as [E|_];
    [|reflexivity].
  apply sample_key_inj in E; auto. tauto.
Qed.

Lemma bysample_lanes_other_run runId' lanes s runId x :
  runId <> runId' ->
  has_char " " runId = false -> has_char " " runId' = false ->
  get (prepend_runid runId x)
    (bcl2fastq_bysample (fold_left (reshape_lane runId') lanes s)) =
  get (prepend_runid runId x) (bcl2fastq_bysample s).
Proof.
  intros N H H'. revert s. induction lanes as [|[lane rec] lanes IH]; intros s; simpl; auto.
  rewrite IH. unfold reshape_lane. rewrite bysample_samples_other_run by assumption.
  destruct s; reflexivity.
Qed.

Lemma bysample_runs_absent data s runId x :
  runs_plain data -> has_char " " runId = false ->
  ~ In runId (keys data) ->
  get (prepend_runid runId x) (bcl2fastq_bysample (fold_left reshape_run data s)) =
  get (prepend_runid runId x) (bcl2fastq_bysample s).
Proof.
  intros P H. revert s. induction P as [|[runId' lanes] data Pr P IH]; intros s NI; simpl; auto.
  rewrite IH by (intros I; apply NI; now right).
  cbn [fst snd] in Pr. destruct Pr as [->|H']; [reflexivity|].
  apply bysample_lanes_other_run; auto.
  intros ->. apply NI. now left.
Qed.

Lemma bysample_after_runs data s runId x :
  NoDup (keys data) -> runs_plain data -> samples_distinct data ->
  has_char " " runId = false ->
  get (prepend_runid runId x) (bcl2fastq_bysample (fold_left reshape_run data s)) =
  merged_over x (lanes_of runId data) (get (prepend_runid runId x) (bcl2fastq_bysample s)).
Proof.
  intros ND P. revert s ND.
  induction P as [|[runId' lanes] data Pr P IH]; intros s ND SD H; cbn [fold_left].
  - reflexivity.
  - inversion ND as [|? ? NI ND']; subst. inversion SD as [|? ? SDl SD']; subst.
    cbn [fst snd] in *. unfold lanes_of. cbn [get].
    destruct (String.eqb_spec runId runId') as [->|N].
    + rewrite bysample_runs_absent by assumption.
      cbn [reshape_run]. now apply bysample_after_lanes.
    + fold (lanes_of runId data). rewrite IH by assumption. f_equal.
      destruct Pr as [->|H']; [reflexivity|].
      cbn [reshape_run]. now apply bysample_lanes_other_run.
Qed.

Lemma merged_over_none x lanes :
  Forall (fun rec => get x (Lane.samples rec) = None) (values lanes) ->
  merged_over x lanes None = None.
Proof.
  unfold merged_over, values.
  induction lanes as [|[lane rec] lanes IH]; intros F; simpl; auto.
  inversion F as [|? ? G F']; subst. cbn [snd] in *. rewrite G. auto.
Qed.

Section BySampleAnyFiles.

Variable json_loads : string -> option Stats.

Lemma gathered_runs_plain files :
  (forall myfile content,
     In myfile files -> json_loads (f myfile) = Some content ->
     has_char " " (RunId content) = false) ->
  runs_plain (bcl2fastq_data (gathered json_loads files new_self)) /\
  samples_distinct (bcl2fastq_data (gathered json_loads files new_self)).
Proof.
  intros H. pose proof (gathered_tree_from json_loads files new_self) as T.
  unfold tree_from in T. rewrite Forall_forall in T. split.
  - apply Forall_forall. intros [runId lanes] I. cbn [fst snd].
    specialize (T _ I). cbn [fst snd] in T.
    destruct lanes as [|lane lanes]; [now left | right].
    inversion T as [|? ? (myfile & content & cr & If & J & _ & -> & _) _]; subst.
    eauto.
  - apply Forall_forall. intros [runId lanes] I. cbn [snd].
    specialize (T _ I). cbn [fst snd] in T.
    eapply Forall_impl; [|exact T].
    intros [lane rec] (myfile & content & cr & _ & _ & _ & _ & _ & E).
    cbn [snd] in *. subst rec. apply lane_record_samples_NoDup.
Qed.

(** X21. For any files whose run ids have no space: the by-sample entry under
    "<runId> - <sample>" is made by the lanes of that run alone.  When some
    lane of the run has the sample, its total and perfectIndex are the sums,
    over the lanes of the run in the tree, of the counts of that sample's
    record (nothing for a lane without the sample), and it has no
    undetermined field; when no lane of the run has the sample, there is no
    such entry.  The lanes of other runs never contribute. *)
Theorem X21_bysample_entry_of_any_files
    (files : list logfile) (runId sample : string) :
  (forall myfile content,
     In myfile files -> json_loads (f myfile) = Some content ->
     has_char " " (RunId content) = false) ->
  has_char " " runId = false ->
  let s := exec (gather json_loads files ;; collect) new_self in
  let lanes := lanes_of runId (bcl2fastq_data s) in
  let entry := get (prepend_runid runId sample) (bcl2fastq_bysample s) in
  (Exists (fun rec => get sample (Lane.samples rec) <> None) (values lanes) ->
   entry = Some (Counts.mk (sum_Z (map (sample_total_in sample) (values lanes)))
                   (sum_Z (map (sample_perfect_in sample) (values lanes))) None)) /\
  (Forall (fun rec => get sample (Lane.samples rec) = None) (values lanes) ->
   entry = None).
Proof.
  intros P H s lanes entry.
  assert (D : bcl2fastq_data s = bcl2fastq_data (gathered json_loads files new_self)).
  { unfold s, exec. rewrite gather_collect_run. cbn [snd].
    destruct (reshape_frame (collected (gathered json_loads files new_self))) as (-> & _).
    now destruct (collected_fields (gathered json_loads files new_self)) as (-> & _). }
  assert (E : entry = merged_over sample lanes None).
  { unfold entry, lanes. rewrite D. unfold s, exec. rewrite gather_collect_run. cbn [snd].
    unfold reshape.
    destruct (collected_fields (gathered json_loads files new_self))
      as (Dc & _ & B & _).
    rewrite Dc. destruct (gathered_runs_plain files P) as [RP SD].
    rewrite bysample_after_runs; auto.
    apply gathered_tree_keys_ok. }
  rewrite E. split.
  - intros X. unfold merged_over. now apply contributions.
  - apply merged_over_none.
Qed.

End BySampleAnyFiles.

Lemma X21_witness :
  let s :=
    exec (gather two_runs_loads [example_file; other_run_file; second_file] ;; collect)
      new_self in
  get "RUN1 - S1" (bcl2fastq_bysample s) = Some (Counts.mk 150 130 None) /\
  get "RUN5 - S1" (bcl2fastq_bysample s) = Some (Counts.mk 50 40 None) /\
  get "RUN1 - S7" (bcl2fastq_bysample s) = None.
Proof.
  intros s.
  assert (P : forall myfile content,
            In myfile [example_file; other_run_file; second_file] ->
            two_runs_loads (f myfile) = Some content ->
            has_char " " (RunId content) = false).
  { intros myfile content [<-|[<-|[<-|[]]]] J; vm_compute in J; injection J as <-;
      reflexivity. }
  split; [|split].
  - apply (proj1 (X21_bysample_entry_of_any_files two_runs_loads
                    [example_file; other_run_file; second_file] "RUN1" "S1" P eq_refl)).
    vm_compute. left. discriminate.
  - apply (proj1 (X21_bysample_entry_of_any_files two_runs_loads
                    [example_file; other_run_file; second_file] "RUN5" "S1" P eq_refl)).
    vm_compute. left. discriminate.
  - apply (proj2 (X21_bysample_entry_of_any_files two_runs_loads
                    [example_file; other_run_file; second_file] "RUN1" "S7" P eq_refl)).
    vm_compute. repeat constructor.
Defined.
